(** * Matterbridge: plugin lifecycle supervisor and control protocol dispatcher

    A shallow embedding of [src/plugins.ts] (class [Plugins]) and of
    [matterbridgeWebsocket.ts] (function [wsMessageHandler]), with the
    properties of the specification stated and proved over it.

    JavaScript values are a small inductive type, asynchronous methods are
    run to completion (every [await] is a call whose result is supplied by
    the environment), mutation of a plugin record is explicit state passing,
    [try]/[catch] is an outcome with a throwing case that keeps the state
    mutated so far, and what the code logs, calls and sends is a trace. *)

From Stdlib Require Import List String ZArith Bool Lia.
Import ListNotations.
Open Scope string_scope.
Open Scope list_scope.
Set Warnings "-register-all".

(** ** JavaScript values *)

Module JS.

(** A value as [JSON.parse] produces it, plus [undefined] for what a
    property access gives on a missing key. Numbers are integers: the code
    modelled here only echoes and compares them. *)
Inductive JSValue : Type :=
| JUndefined
| JNull
| JBool (b : bool)
| JNumber (n : Z)
| JString (s : string)
| JArray (items : list JSValue)
| JObject (fields : list (string * JSValue)).

(** Truthiness, as [if (v)], [!v], [a || b] and [a && b] test it. *)
Definition truthy (v : JSValue) : bool :=
  match v with
  | JUndefined | JNull => false
  | JBool b => b
  | JNumber n => negb (n =? 0)%Z
  | JString s => negb (s =? "")
  | JArray _ | JObject _ => true
  end.

(** [v === w] between a value and one that was parsed or stored apart from
    it: primitives compare by value, arrays and objects by reference, and two
    structures built apart are never the same reference. *)
Definition strict_eq (v w : JSValue) : bool :=
  match v, w with
  | JUndefined, JUndefined => true
  | JNull, JNull => true
  | JBool a, JBool b => Bool.eqb a b
  | JNumber a, JNumber b => (a =? b)%Z
  | JString a, JString b => (a =? b)
  | _, _ => false
  end.

(** Own-property lookup in an object literal. *)
Fixpoint lookup (k : string) (fields : list (string * JSValue)) : option JSValue :=
  match fields with
  | [] => None
  | (k', v) :: rest => if k' =? k then Some v else lookup k rest
  end.

Definition has_key (k : string) (fields : list (string * JSValue)) : bool :=
  match lookup k fields with Some _ => true | None => false end.

(** [v.k]: [None] is the TypeError of reading a property of [undefined] or
    [null]; a missing key reads as [undefined]. None of the keys read by the
    modelled code is a built-in property of a string, number or array. *)
Definition get_prop (v : JSValue) (k : string) : option JSValue :=
  match v with
  | JUndefined | JNull => None
  | JObject fields =>
      Some (match lookup k fields with Some x => x | None => JUndefined end)
  | _ => Some JUndefined
  end.

(** [a ?? b] *)
Definition nullish_or (a b : JSValue) : JSValue :=
  match a with JUndefined | JNull => b | _ => a end.

(** [a || b] *)
Definition or_else (a b : JSValue) : JSValue :=
  if truthy a then a else b.

(** An optional boolean field ([loaded?: boolean]) as a value. *)
Definition of_flag (f : option bool) : JSValue :=
  match f with Some b => JBool b | None => JUndefined end.

Definition of_opt_string (f : option string) : JSValue :=
  match f with Some s => JString s | None => JUndefined end.

(** [if (plugin.flag)] on an optional boolean field. *)
Definition is_set (f : option bool) : bool :=
  match f with Some true => true | _ => false end.

(** The keys [JSON.stringify] writes: a key whose value is [undefined] is
    left out. *)
Definition json_keys (fields : list (string * JSValue)) : list string :=
  map fst (filter (fun kv => match snd kv with JUndefined => false | _ => true end) fields).

(** What a [catch (error)] receives: an [Error] object or any other value. *)
Inductive Thrown : Type :=
| ErrorObject (message : string)
| ThrownValue (v : JSValue).

(** [error instanceof Error ? error.message : error] *)
Definition error_message (e : Thrown) : JSValue :=
  match e with
  | ErrorObject m => JString m
  | ThrownValue v => v
  end.

End JS.

(** ** Effects: state, trace and exceptions *)

Module Eff.

Inductive Outcome (A : Type) : Type :=
| Return (a : A)
| Throw.
Arguments Return {A} a.
Arguments Throw {A}.

Section Monad.
Context {St Ev : Type}.

(** A computation over a mutable object of type [St] that leaves a trace
    of [Ev] and either returns or throws. A throw keeps the mutations and
    the trace made before it. *)
Definition M (A : Type) : Type := St -> Outcome A * St * list Ev.

Definition ret {A} (a : A) : M A := fun s => (Return a, s, []).

Definition bind {A B} (m : M A) (f : A -> M B) : M B :=
  fun s =>
    match m s with
    | (Return a, s1, t1) =>
        match f a s1 with
        | (o, s2, t2) => (o, s2, t1 ++ t2)
        end
    | (Throw, s1, t1) => (Throw, s1, t1)
    end.

Definition throw {A} : M A := fun s => (Throw, s, []).

(** [try { body } catch { handler }] *)
Definition try_catch {A} (body handler : M A) : M A :=
  fun s =>
    match body s with
    | (Return a, s1, t1) => (Return a, s1, t1)
    | (Throw, s1, t1) =>
        match handler s1 with
        | (o, s2, t2) => (o, s2, t1 ++ t2)
        end
    end.

Definition get : M St := fun s => (Return s, s, []).
Definition modify (f : St -> St) : M unit := fun s => (Return tt, f s, []).
Definition emit (e : Ev) : M unit := fun s => (Return tt, s, [e]).

(** A call into the environment that returns a value or throws. *)
Definition attempt {A} (r : option A) : M A :=
  match r with Some a => ret a | None => throw end.

(** A call into the environment made for its effect only. *)
Definition succeed (ok : bool) : M unit :=
  if ok then ret tt else throw.

Definition when (b : bool) (m : M unit) : M unit :=
  if b then m else ret tt.

Definition result {A} (r : Outcome A * St * list Ev) : Outcome A := fst (fst r).
Definition final {A} (r : Outcome A * St * list Ev) : St := snd (fst r).
Definition trace {A} (r : Outcome A * St * list Ev) : list Ev := snd r.
End Monad.

Declare Scope eff_scope.
Delimit Scope eff_scope with eff.
Notation "x <- m ;; k" := (bind m (fun x => k))
  (at level 61, m at next level, right associativity) : eff_scope.
Notation "m ;; k" := (bind m (fun _ => k))
  (at level 61, right associativity) : eff_scope.

End Eff.

(** ** The plugin manager ([src/plugins.ts]) *)

Module Plugins.
Import JS Eff.
Local Open Scope eff_scope.

(** The live object a plugin's factory returns. [ref] stands for the
    object's identity; the other fields are the properties [load] writes or
    reads, and the two selection maps read by the dispatcher. *)
Record MatterbridgePlatform : Type := {
  ref : nat;
  pf_name : JSValue;
  pf_type : JSValue;
  pf_version : JSValue;
  pf_config : JSValue;
  selectDevice : option (list JSValue);
  selectEntity : option (list JSValue)
}.

(** [RegisteredPlugin], with the fields [plugins.ts] reads or writes. An
    optional field that is not set is [None] (or [JUndefined]). *)
Record RegisteredPlugin : Type := {
  name : JSValue;
  path : string;
  type : JSValue;
  version : JSValue;
  description : JSValue;
  author : JSValue;
  enabled : option bool;
  qrPairingCode : option string;
  manualPairingCode : option string;
  locked : option bool;
  error : option bool;
  loaded : option bool;
  started : option bool;
  configured : option bool;
  connected : option bool;
  platform : option MatterbridgePlatform;
  registeredDevices : option Z;
  addedDevices : option Z;
  configJson : JSValue;
  schemaJson : JSValue
}.

(** The default export of a plugin module: called with the host, a logger
    and the configuration; [None] when the call throws or returns something
    that is not an object. *)
Definition Factory : Type := JSValue -> option MatterbridgePlatform.

(** What [import(url)] resolves to; [default] is [None] when the module
    has no (truthy) default export. *)
Record PluginModule : Type := { default : option Factory }.

(** Everything [Plugins] calls outside itself: Node's [path], [fs] and
    [JSON], the dynamic import, the host ([this.matterbridge]), the storage
    context and the hooks of a platform. A call that can throw or reject
    answers with an [option] (a value) or a [bool] (an effect). *)
Record Env : Type := {
  path_join : string -> string -> string;
  path_resolve : string -> string;
  path_resolve_from : string -> string -> string;
  path_dirname : string -> string;
  pathToFileURL : string -> string;
  fs_access : string -> bool;
  fs_readFile : string -> option string;
  JSON_parse : string -> option JSValue;
  import : string -> option PluginModule;
  globalModulesDirectory : string;
  loadPluginConfig : RegisteredPlugin -> option JSValue;
  loadPluginSchema : RegisteredPlugin -> option JSValue;
  savePluginConfig : RegisteredPlugin -> bool;
  removeAllBridgedDevices : JSValue -> bool;
  nodeContext_set : string -> JSValue -> bool;
  onStart : MatterbridgePlatform -> option string -> bool;
  onConfigure : MatterbridgePlatform -> bool;
  onShutdown : MatterbridgePlatform -> option string -> bool
}.

Inductive Level : Type := Debug | Info | Warn | Error.

(** The trace: log lines (level, the fixed words of the message, the
    plugin or path it names) and the calls that leave the manager. *)
Inductive Event : Type :=
| Log (lvl : Level) (text : string) (about : JSValue)
| Access (file : string)
| ReadFile (file : string)
| Import (url : string)
| CallFactory (config : JSValue)
| CallOnStart (pf : MatterbridgePlatform) (message : option string)
| CallOnConfigure (pf : MatterbridgePlatform)
| CallOnShutdown (pf : MatterbridgePlatform) (reason : option string)
| CallSavePluginConfig
| CallRemoveAllBridgedDevices (pluginName : JSValue)
| StorageSet (key : string) (value : JSValue).

Definition is_hook_call (e : Event) : bool :=
  match e with
  | CallOnStart _ _ | CallOnConfigure _ | CallOnShutdown _ _ => true
  | _ => false
  end.

Definition is_import (e : Event) : bool :=
  match e with
  | Import _ | CallFactory _ => true
  | _ => false
  end.

(** *** Field updates *)

Definition set_enabled (v : option bool) (p : RegisteredPlugin) : RegisteredPlugin :=
  {| name := p.(name); path := p.(path); type := p.(type); version := p.(version);
     description := p.(description); author := p.(author); enabled := v;
     qrPairingCode := p.(qrPairingCode); manualPairingCode := p.(manualPairingCode);
     locked := p.(locked); error := p.(error); loaded := p.(loaded);
     started := p.(started); configured := p.(configured); connected := p.(connected);
     platform := p.(platform); registeredDevices := p.(registeredDevices);
     addedDevices := p.(addedDevices); configJson := p.(configJson);
     schemaJson := p.(schemaJson) |}.

Definition set_error (v : option bool) (p : RegisteredPlugin) : RegisteredPlugin :=
  {| name := p.(name); path := p.(path); type := p.(type); version := p.(version);
     description := p.(description); author := p.(author); enabled := p.(enabled);
     qrPairingCode := p.(qrPairingCode); manualPairingCode := p.(manualPairingCode);
     locked := p.(locked); error := v; loaded := p.(loaded);
     started := p.(started); configured := p.(configured); connected := p.(connected);
     platform := p.(platform); registeredDevices := p.(registeredDevices);
     addedDevices := p.(addedDevices); configJson := p.(configJson);
     schemaJson := p.(schemaJson) |}.

Definition set_started (v : option bool) (p : RegisteredPlugin) : RegisteredPlugin :=
  {| name := p.(name); path := p.(path); type := p.(type); version := p.(version);
     description := p.(description); author := p.(author); enabled := p.(enabled);
     qrPairingCode := p.(qrPairingCode); manualPairingCode := p.(manualPairingCode);
     locked := p.(locked); error := p.(error); loaded := p.(loaded);
     started := v; configured := p.(configured); connected := p.(connected);
     platform := p.(platform); registeredDevices := p.(registeredDevices);
     addedDevices := p.(addedDevices); configJson := p.(configJson);
     schemaJson := p.(schemaJson) |}.

Definition set_configured (v : option bool) (p : RegisteredPlugin) : RegisteredPlugin :=
  {| name := p.(name); path := p.(path); type := p.(type); version := p.(version);
     description := p.(description); author := p.(author); enabled := p.(enabled);
     qrPairingCode := p.(qrPairingCode); manualPairingCode := p.(manualPairingCode);
     locked := p.(locked); error := p.(error); loaded := p.(loaded);
     started := p.(started); configured := v; connected := p.(connected);
     platform := p.(platform); registeredDevices := p.(registeredDevices);
     addedDevices := p.(addedDevices); configJson := p.(configJson);
     schemaJson := p.(schemaJson) |}.

Definition set_schemaJson (v : JSValue) (p : RegisteredPlugin) : RegisteredPlugin :=
  {| name := p.(name); path := p.(path); type := p.(type); version := p.(version);
     description := p.(description); author := p.(author); enabled := p.(enabled);
     qrPairingCode := p.(qrPairingCode); manualPairingCode := p.(manualPairingCode);
     locked := p.(locked); error := p.(error); loaded := p.(loaded);
     started := p.(started); configured := p.(configured); connected := p.(connected);
     platform := p.(platform); registeredDevices := p.(registeredDevices);
     addedDevices := p.(addedDevices); configJson := p.(configJson);
     schemaJson := v |}.

(** Lines 321-323 of [load]: the manifest's name and version and the
    configuration are written onto the platform object. *)
Definition stamp_platform (packageJson config : JSValue) (pf : MatterbridgePlatform)
  : option MatterbridgePlatform :=
  match get_prop packageJson "name", get_prop packageJson "version" with
  | Some n, Some v =>
      Some {| ref := pf.(ref); pf_name := n; pf_type := pf.(pf_type); pf_version := v;
              pf_config := config; selectDevice := pf.(selectDevice);
              selectEntity := pf.(selectEntity) |}
  | _, _ => None
  end.

(** Lines 324-333 of [load]: identity stamped from the manifest and the
    platform, the handle bound, [loaded] set and the counters zeroed. *)
Definition bind_platform (packageJson config : JSValue) (pf : MatterbridgePlatform)
    (p : RegisteredPlugin) : option RegisteredPlugin :=
  match get_prop packageJson "name", get_prop packageJson "description",
        get_prop packageJson "version", get_prop packageJson "author" with
  | Some n, Some d, Some v, Some a =>
      Some {| name := n; path := p.(path); type := pf.(pf_type); version := v;
              description := nullish_or d (JString "No description");
              author := nullish_or a (JString "Unknown");
              enabled := p.(enabled);
              qrPairingCode := p.(qrPairingCode); manualPairingCode := p.(manualPairingCode);
              locked := p.(locked); error := p.(error); loaded := Some true;
              started := p.(started); configured := p.(configured);
              connected := p.(connected);
              platform := Some pf; registeredDevices := Some 0%Z;
              addedDevices := Some 0%Z; configJson := config;
              schemaJson := p.(schemaJson) |}
  | _, _, _, _ => None
  end.

(** Lines 447-455 of [shutdown]. *)
Definition clear_transient (p : RegisteredPlugin) : RegisteredPlugin :=
  {| name := p.(name); path := p.(path); type := p.(type); version := p.(version);
     description := p.(description); author := p.(author); enabled := p.(enabled);
     qrPairingCode := p.(qrPairingCode); manualPairingCode := p.(manualPairingCode);
     locked := None; error := None; loaded := None;
     started := None; configured := None; connected := None;
     platform := None; registeredDevices := None;
     addedDevices := None; configJson := p.(configJson);
     schemaJson := p.(schemaJson) |}.

(** *** The lifecycle operations *)

Definition PM : Type -> Type := @M RegisteredPlugin Event.

(** [this.log.<lvl>(`... ${plugin.name} ...`)] *)
Definition log (lvl : Level) (text : string) : PM unit :=
  fun p => (Return tt, p, [Log lvl text p.(name)]).

(** [JSON.parse(await fs.readFile(file, 'utf8'))] *)
Definition read_json {St : Type} (env : Env) (file : string) : @M St Event JSValue :=
  emit (ReadFile file) ;;
  content <- attempt (env.(fs_readFile) file) ;;
  attempt (env.(JSON_parse) content).

(** [path.resolve(path.dirname(plugin.path), packageJson.main)]; a [main]
    that is not a string is a TypeError. *)
Definition plugin_entry (env : Env) (manifest : string) (packageJson : JSValue) : PM string :=
  main <- attempt (get_prop packageJson "main") ;;
  match main with
  | JString m => ret (env.(path_resolve_from) (env.(path_dirname) manifest) m)
  | _ => throw
  end.

(** [Plugins.configure], lines 394-424. [savePluginConfig] is called
    without [await]: only a throw of the call itself reaches the [catch]. *)
Definition configure (env : Env) : PM (option RegisteredPlugin) :=
  plugin <- get ;;
  if negb (is_set plugin.(loaded)) then
    log Error "not loaded" ;; ret None
  else if negb (is_set plugin.(started)) then
    log Error "not started" ;; ret None
  else match plugin.(platform) with
  | None => log Error "no platform found" ;; ret None
  | Some pf =>
    if is_set plugin.(configured) then
      log Debug "already configured" ;; ret None
    else
      log Info "Configuring plugin" ;;
      try_catch
        (emit (CallOnConfigure pf) ;;
         succeed (env.(onConfigure) pf) ;;
         log Info "Configured plugin" ;;
         modify (set_configured (Some true)) ;;
         emit CallSavePluginConfig ;;
         now <- get ;;
         succeed (env.(savePluginConfig) now) ;;
         done <- get ;;
         ret (Some done))
        (modify (set_error (Some true)) ;;
         log Error "Failed to configure plugin" ;;
         ret None)
  end.

(** [Plugins.start], lines 361-386. *)
Definition start (env : Env) (message : option string) (andConfigure : bool)
  : PM (option RegisteredPlugin) :=
  plugin <- get ;;
  if negb (is_set plugin.(loaded)) then
    log Error "not loaded" ;; ret None
  else match plugin.(platform) with
  | None => log Error "no platform found" ;; ret None
  | Some pf =>
    if is_set plugin.(started) then
      log Error "already started" ;; ret None
    else
      log Info "Starting plugin" ;;
      try_catch
        (emit (CallOnStart pf message) ;;
         succeed (env.(onStart) pf message) ;;
         log Info "Started plugin" ;;
         modify (set_started (Some true)) ;;
         when andConfigure (_ <- configure env ;; ret tt) ;;
         done <- get ;;
         ret (Some done))
        (modify (set_error (Some true)) ;;
         log Error "Failed to start plugin" ;;
         ret None)
  end.

(** [Plugins.load], lines 294-351. Nothing is written to the record
    between the guards and line 324, so the record after lines 324-333 is
    [bind_platform] of the record the guards saw. *)
Definition load (env : Env) (andStart : bool) (message : string)
  : PM (option MatterbridgePlatform) :=
  plugin <- get ;;
  if negb (is_set plugin.(enabled)) then
    log Error "not enabled" ;; ret None
  else match plugin.(platform) with
  | Some pf => log Error "already loaded" ;; ret (Some pf)
  | None =>
    log Info "Loading plugin" ;;
    try_catch
      (packageJson <- read_json env plugin.(path) ;;
       pluginEntry <- plugin_entry env plugin.(path) packageJson ;;
       let pluginUrl := env.(pathToFileURL) pluginEntry in
       log Debug "Importing plugin" ;;
       emit (Import pluginUrl) ;;
       pluginInstance <- attempt (env.(import) pluginUrl) ;;
       log Debug "Imported plugin" ;;
       match pluginInstance.(default) with
       | Some factory =>
           config <- attempt (env.(loadPluginConfig) plugin) ;;
           _ <- attempt (get_prop config "debug") ;;
           emit (CallFactory config) ;;
           made <- attempt (factory config) ;;
           pf <- attempt (stamp_platform packageJson config made) ;;
           bound <- attempt (bind_platform packageJson config pf plugin) ;;
           modify (fun _ => bound) ;;
           schema <- attempt (env.(loadPluginSchema) bound) ;;
           modify (set_schemaJson schema) ;;
           log Info "Loaded plugin" ;;
           when andStart (_ <- start env (Some message) false ;; ret tt) ;;
           ret (Some pf)
       | None =>
           log Error "does not provide a default export" ;;
           modify (set_error (Some true)) ;;
           ret None
       end)
      (log Error "Failed to load plugin" ;;
       modify (set_error (Some true)) ;;
       ret None)
  end.

(** [Plugins.shutdown], lines 426-466. *)
Definition shutdown (env : Env) (reason : option string) (removeAllDevices : bool)
  : PM (option RegisteredPlugin) :=
  log Debug "Shutting down plugin" ;;
  plugin <- get ;;
  if negb (is_set plugin.(loaded)) then
    log Debug "not loaded" ;; ret None
  else if negb (is_set plugin.(started)) then
    log Debug "not started" ;; ret None
  else if negb (is_set plugin.(configured)) then
    log Debug "not configured" ;; ret None
  else match plugin.(platform) with
  | None => log Debug "no platform found" ;; ret None
  | Some pf =>
    log Info "Shutting down plugin" ;;
    try_catch
      (emit (CallOnShutdown pf reason) ;;
       succeed (env.(onShutdown) pf reason) ;;
       modify clear_transient ;;
       when removeAllDevices
         (log Info "Removing all devices" ;;
          emit (CallRemoveAllBridgedDevices plugin.(name)) ;;
          succeed (env.(removeAllBridgedDevices) plugin.(name))) ;;
       log Info "Shutdown completed" ;;
       done <- get ;;
       ret (Some done))
      (log Error "Failed to shut down plugin" ;;
       ret None)
  end.

(** *** The registry and its storage *)

(** [_plugins], a [Map] from name to record: the entries in insertion
    order, each key once. *)
Definition Registry : Type := list (string * RegisteredPlugin).

Definition RM : Type -> Type := @M Registry Event.

(** [Array.from(this._plugins.values())] *)
Definition values (reg : Registry) : list RegisteredPlugin := map snd reg.

(** [this._plugins.get(key)]; the keys of the map are strings. *)
Definition registry_get (key : JSValue) (reg : Registry) : option RegisteredPlugin :=
  match key with
  | JString k =>
      match find (fun entry => fst entry =? k) reg with
      | Some entry => Some (snd entry)
      | None => None
      end
  | _ => None
  end.

(** A mutation [f] of the record stored under [key]: the map holds the
    object itself, so the entry changes with it. *)
Definition update_plugin (key : JSValue) (f : RegisteredPlugin -> RegisteredPlugin)
    (reg : Registry) : Registry :=
  match key with
  | JString k =>
      map (fun entry => if fst entry =? k then (fst entry, f (snd entry)) else entry) reg
  | _ => reg
  end.

(** [this.log.<lvl>(...)] of the manager, about a path or a count. *)
Definition note {St : Type} (lvl : Level) (text : string) (about : JSValue)
  : @M St Event unit :=
  emit (Log lvl text about).

(** The object literal pushed at lines 76-86. *)
Definition persisted (plugin : RegisteredPlugin) : JSValue :=
  JObject [("name", plugin.(name));
           ("path", JString plugin.(path));
           ("type", plugin.(type));
           ("version", plugin.(version));
           ("description", plugin.(description));
           ("author", plugin.(author));
           ("enabled", of_flag plugin.(enabled));
           ("qrPairingCode", of_opt_string plugin.(qrPairingCode));
           ("manualPairingCode", of_opt_string plugin.(manualPairingCode))].

(** [Plugins.saveToStorage], lines 71-91: the loop pushes one literal per
    record, the array goes to [nodeContext.set] (which may reject), and the
    length of the array is returned. *)
Definition saveToStorage (env : Env) : RM nat :=
  reg <- get ;;
  let plugins :=
    fold_left (fun pushed plugin => pushed ++ [persisted plugin]) (values reg) [] in
  emit (StorageSet "plugins" (JArray plugins)) ;;
  succeed (env.(nodeContext_set) "plugins" (JArray plugins)) ;;
  note Debug "Saved plugins to storage" (JNumber (Z.of_nat (List.length plugins))) ;;
  ret (List.length plugins).

(** *** Resolving a plugin's manifest *)

(** [s.endsWith(suffix)] *)
Definition ends_with (suffix s : string) : bool :=
  let n := String.length s in
  let m := String.length suffix in
  (m <=? n)%nat && (substring (n - m) m s =? suffix).

(** [Plugins.resolve], lines 98-126. *)
Definition resolve (env : Env) (pluginPath : string) : RM (option string) :=
  let pluginPath :=
    if negb (ends_with "package.json" pluginPath)
    then env.(path_join) pluginPath "package.json"
    else pluginPath in
  let packageJsonPath := env.(path_resolve) pluginPath in
  note Debug "Resolving plugin path" (JString packageJsonPath) ;;
  packageJsonPath <-
    try_catch
      (emit (Access packageJsonPath) ;;
       succeed (env.(fs_access) packageJsonPath) ;;
       ret packageJsonPath)
      (note Debug "Package.json not found" (JString packageJsonPath) ;;
       let packageJsonPath :=
         env.(path_join) env.(globalModulesDirectory) pluginPath in
       note Debug "Trying at" (JString packageJsonPath) ;;
       ret packageJsonPath) ;;
  try_catch
    (packageJson <- read_json env packageJsonPath ;;
     declared <- attempt (get_prop packageJson "name") ;;
     if negb (truthy declared) then
       note Debug "Package.json name not found" (JString packageJsonPath) ;;
       ret None
     else
       note Debug "Resolved plugin path" (JString packageJsonPath) ;;
       ret (Some packageJsonPath))
    (note Error "Failed to resolve plugin path" (JString pluginPath) ;;
     ret None).

(** [Plugins.disable], lines 185-214: the record is found by name, or by
    the name its manifest declares; only [enabled] is written. *)
Definition disable (env : Env) (nameOrPath : string) : RM (option RegisteredPlugin) :=
  if nameOrPath =? "" then ret None
  else
    reg <- get ;;
    match registry_get (JString nameOrPath) reg with
    | Some plugin =>
        modify (update_plugin (JString nameOrPath) (set_enabled (Some false))) ;;
        note Info "Disabled plugin" plugin.(name) ;;
        _ <- saveToStorage env ;;
        ret (Some (set_enabled (Some false) plugin))
    | None =>
        packageJsonPath <- resolve env nameOrPath ;;
        match packageJsonPath with
        | Some file =>
            if file =? "" then
              note Error "Failed to disable plugin: package.json not found"
                (JString nameOrPath) ;;
              ret None
            else
              try_catch
                (packageJson <- read_json env file ;;
                 declared <- attempt (get_prop packageJson "name") ;;
                 match registry_get declared reg with
                 | None =>
                     note Error "Failed to disable plugin: plugin not registered"
                       (JString nameOrPath) ;;
                     ret None
                 | Some plugin =>
                     modify (update_plugin declared (set_enabled (Some false))) ;;
                     note Info "Disabled plugin" plugin.(name) ;;
                     _ <- saveToStorage env ;;
                     ret (Some (set_enabled (Some false) plugin))
                 end)
                (note Error "Failed to parse package.json of plugin" (JString nameOrPath) ;;
                 ret None)
        | None =>
            note Error "Failed to disable plugin: package.json not found"
              (JString nameOrPath) ;;
            ret None
        end
    end.

(** The specification's reading of [resolve], in its words: append the
    manifest file name unless the input ends with it; read that candidate;
    if that fails retry with the candidate joined under the global modules
    root; return the first of the two whose manifest is readable, parseable
    and declares a name, and nothing when neither is. *)
Definition manifest_declares_name (env : Env) (file : string) : bool :=
  match env.(fs_readFile) file with
  | Some content =>
      match env.(JSON_parse) content with
      | Some packageJson =>
          match get_prop packageJson "name" with
          | Some declared => truthy declared
          | None => false
          end
      | None => false
      end
  | None => false
  end.

Definition candidate (env : Env) (input : string) : string :=
  if ends_with "package.json" input then input
  else env.(path_join) input "package.json".

Definition resolve_spec (env : Env) (input : string) : option string :=
  let direct := env.(path_resolve) (candidate env input) in
  let global := env.(path_join) env.(globalModulesDirectory) (candidate env input) in
  if manifest_declares_name env direct then Some direct
  else if manifest_declares_name env global then Some global
  else None.

(** The record [add] puts in the registry (line 260): identity from the
    manifest, [enabled], an empty [type], and no transient field. *)
Definition new_record (packageJson : JSValue) (packageJsonPath : string)
  : option RegisteredPlugin :=
  match get_prop packageJson "name", get_prop packageJson "version",
        get_prop packageJson "description", get_prop packageJson "author" with
  | Some n, Some v, Some d, Some a =>
      Some {| name := n; path := packageJsonPath; type := JString ""; version := v;
              description := d; author := a; enabled := Some true;
              qrPairingCode := None; manualPairingCode := None;
              locked := None; error := None; loaded := None; started := None;
              configured := None; connected := None; platform := None;
              registeredDevices := None; addedDevices := None;
              configJson := JUndefined; schemaJson := JUndefined |}
  | _, _, _, _ => None
  end.

(** *** Sequences of lifecycle operations *)

(** One call of the supervisor on a record, with the arguments of the call
    and the environment it runs in (each call may meet a different one: a
    hook that fails once may succeed the next time). *)
Inductive Operation : Type :=
| Load (env : Env) (andStart : bool) (message : string)
| Start (env : Env) (message : option string) (andConfigure : bool)
| Configure (env : Env)
| Shutdown (env : Env) (reason : option string) (removeAllDevices : bool).

(** The record after the call. *)
Definition perform (op : Operation) (p : RegisteredPlugin) : RegisteredPlugin :=
  match op with
  | Load env andStart message => final (load env andStart message p)
  | Start env message andConfigure => final (start env message andConfigure p)
  | Configure env => final (configure env p)
  | Shutdown env reason removeAllDevices => final (shutdown env reason removeAllDevices p)
  end.

Definition perform_all (ops : list Operation) (p : RegisteredPlugin) : RegisteredPlugin :=
  fold_left (fun q op => perform op q) ops p.

(** The invariant of the data model: [configured] implies [started],
    [started] implies [loaded], and no flag is set without a platform. *)
Definition lifecycle_inv (p : RegisteredPlugin) : Prop :=
  (is_set p.(configured) = true -> is_set p.(started) = true) /\
  (is_set p.(started) = true -> is_set p.(loaded) = true) /\
  (p.(platform) = None ->
   is_set p.(loaded) = false /\ is_set p.(started) = false /\ is_set p.(configured) = false).

(** *** Sample data *)

Definition sample_manifest : JSValue :=
  JObject [("name", JString "matterbridge-example");
           ("version", JString "1.0.0");
           ("description", JString "An example plugin");
           ("author", JString "someone");
           ("main", JString "dist/index.js")].

Definition sample_platform : MatterbridgePlatform :=
  {| ref := 1; pf_name := JUndefined; pf_type := JString "DynamicPlatform";
     pf_version := JUndefined; pf_config := JUndefined;
     selectDevice := None; selectEntity := None |}.

(** An environment in which every file is the sample manifest, every
    import gives a module whose factory returns the sample platform, and no
    call fails. *)
Definition sample_env : Env :=
  {| path_join := fun a b => (a ++ "/" ++ b)%string;
     path_resolve := fun a => if prefix "/" a then a else ("/cwd/" ++ a)%string;
     path_resolve_from := fun a b => (a ++ "/" ++ b)%string;
     path_dirname := fun a => a;
     pathToFileURL := fun a => ("file://" ++ a)%string;
     fs_access := fun _ => true;
     fs_readFile := fun _ => Some "manifest";
     JSON_parse := fun _ => Some sample_manifest;
     import := fun _ => Some {| default := Some (fun _ => Some sample_platform) |};
     globalModulesDirectory := "/usr/lib/node_modules";
     loadPluginConfig := fun _ => Some (JObject [("debug", JBool false)]);
     loadPluginSchema := fun _ => Some (JObject []);
     savePluginConfig := fun _ => true;
     removeAllBridgedDevices := fun _ => true;
     nodeContext_set := fun _ _ => true;
     onStart := fun _ _ => true;
     onConfigure := fun _ => true;
     onShutdown := fun _ _ => true |}.

(** The sample environment with a platform whose [onShutdown] throws. *)
Definition failing_shutdown_env : Env :=
  {| path_join := sample_env.(path_join);
     path_resolve := sample_env.(path_resolve);
     path_resolve_from := sample_env.(path_resolve_from);
     path_dirname := sample_env.(path_dirname);
     pathToFileURL := sample_env.(pathToFileURL);
     fs_access := sample_env.(fs_access);
     fs_readFile := sample_env.(fs_readFile);
     JSON_parse := sample_env.(JSON_parse);
     import := sample_env.(import);
     globalModulesDirectory := sample_env.(globalModulesDirectory);
     loadPluginConfig := sample_env.(loadPluginConfig);
     loadPluginSchema := sample_env.(loadPluginSchema);
     savePluginConfig := sample_env.(savePluginConfig);
     removeAllBridgedDevices := sample_env.(removeAllBridgedDevices);
     nodeContext_set := sample_env.(nodeContext_set);
     onStart := sample_env.(onStart);
     onConfigure := sample_env.(onConfigure);
     onShutdown := fun _ _ => false |}.

(** A file system in which [plugin-a/package.json] exists in the working
    directory but declares no name, while the package of that name installed
    under the global modules root has a good manifest. *)
Definition shadowed_env : Env :=
  {| path_join := sample_env.(path_join);
     path_resolve := sample_env.(path_resolve);
     path_resolve_from := sample_env.(path_resolve_from);
     path_dirname := sample_env.(path_dirname);
     pathToFileURL := sample_env.(pathToFileURL);
     fs_access := fun file => file =? "/cwd/plugin-a/package.json";
     fs_readFile := fun file =>
       if file =? "/cwd/plugin-a/package.json" then Some "{}"
       else if file =? "/usr/lib/node_modules/plugin-a/package.json"
            then Some "manifest"
            else None;
     JSON_parse := fun content =>
       if content =? "{}" then Some (JObject [])
       else if content =? "manifest" then Some sample_manifest
       else None;
     import := sample_env.(import);
     globalModulesDirectory := sample_env.(globalModulesDirectory);
     loadPluginConfig := sample_env.(loadPluginConfig);
     loadPluginSchema := sample_env.(loadPluginSchema);
     savePluginConfig := sample_env.(savePluginConfig);
     removeAllBridgedDevices := sample_env.(removeAllBridgedDevices);
     nodeContext_set := sample_env.(nodeContext_set);
     onStart := sample_env.(onStart);
     onConfigure := sample_env.(onConfigure);
     onShutdown := sample_env.(onShutdown) |}.

(** The record [add] makes for the sample manifest. *)
Definition sample_record : RegisteredPlugin :=
  {| name := JString "matterbridge-example"; path := "/plugins/example/package.json";
     type := JString ""; version := JString "1.0.0";
     description := JString "An example plugin"; author := JString "someone";
     enabled := Some true; qrPairingCode := None; manualPairingCode := None;
     locked := None; error := None; loaded := None; started := None;
     configured := None; connected := None; platform := None;
     registeredDevices := None; addedDevices := None;
     configJson := JUndefined; schemaJson := JUndefined |}.

(** The sample record after [load], after [load] and [start], and after
    [load], [start] and [configure] in the sample environment. *)
Definition loaded_record : RegisteredPlugin :=
  perform (Load sample_env false "") sample_record.

Definition started_record : RegisteredPlugin :=
  perform (Start sample_env None false) loaded_record.

Definition configured_record : RegisteredPlugin :=
  perform (Configure sample_env) started_record.

End Plugins.
(** ** The control protocol dispatcher ([matterbridgeWebsocket.ts]) *)

Module Websocket.
Import JS Eff Plugins.
Local Open Scope eff_scope.

(** What [this.spawnCommand] does with its promise. *)
Inductive Settled : Type :=
| Resolved (response : JSValue)
| Rejected (error : Thrown)
| Pending.

(** A bridged device, as far as the handler reads it: the plugin and
    endpoint number it is matched on, and what the walks over its cluster
    servers (lines 157-165 and 198-273) come back with. *)
Record Device : Type := {
  dev_plugin : JSValue;
  dev_number : JSValue;
  dev_type : JSValue;
  dev_name : JSValue;
  dev_serial : JSValue;
  dev_productUrl : JSValue;
  dev_configUrl : JSValue;
  dev_uniqueId : JSValue;
  dev_cluster : JSValue;
  dev_deviceName : JSValue;
  dev_serialNumber : JSValue;
  dev_deviceTypes : JSValue;
  dev_attributes : list JSValue
}.

(** [this.nodeContext]: [get(key, default)] answers with the stored value
    or the default, or rejects ([None]). *)
Record NodeStorage : Type := {
  storage_get : string -> option JSValue -> option JSValue
}.

(** The host ([this] of the handler), as far as the handler reads it. *)
Record Matterbridge : Type := {
  nodeContext : option NodeStorage;
  spawnCommand : string -> list JSValue -> Settled;
  restartProcess : bool;
  shutdownProcess : bool;
  bridgeMode : JSValue;
  restartMode : JSValue;
  logLevel : JSValue;
  matterLogLevel : JSValue;
  matterbridgePaired : JSValue;
  matterbridgeConnected : JSValue;
  matterbridgeQrPairingCode : JSValue;
  matterbridgeManualPairingCode : JSValue;
  matterbridgeFabricInformations : JSValue;
  matterbridgeSessionInformations : list JSValue;
  profile : JSValue;
  systemInformation : JSValue;
  getBaseRegisteredPlugins : option JSValue;
  devices : list Device;
  plugins : Registry;
  sort_by_name : list JSValue -> option (list JSValue)
}.

(** The trace of the handler. [Send] carries the object literal handed to
    [JSON.stringify] and [client.send]. *)
Inductive WsEvent : Type :=
| WsLog (lvl : Level) (text : string)
| Send (envelope : list (string * JSValue))
| Spawn (command : string) (args : list JSValue)
| RestartProcess
| ShutdownProcess.

(** The state the handler mutates: the fields of
    [this.matterbridgeInformation]. *)
Definition Information : Type := list (string * JSValue).

Definition WM : Type -> Type := @M Information WsEvent.

(** [object.key = value] *)
Fixpoint set_field (k : string) (v : JSValue) (fields : list (string * JSValue))
  : list (string * JSValue) :=
  match fields with
  | [] => [(k, v)]
  | (k', v') :: rest =>
      if k' =? k then (k, v) :: rest else (k', v') :: set_field k v rest
  end.

Definition assign (k : string) (v : JSValue) : WM unit := modify (set_field k v).

(** The envelope of every reply: [{ id: data.id, method: data.method,
    src: 'Matterbridge', dst: data.src, ...extra, response | error }]. *)
Definition envelope (id method src : JSValue) (extra : list (string * JSValue))
    (body : string * JSValue) : list (string * JSValue) :=
  [("id", id); ("method", method); ("src", JString "Matterbridge"); ("dst", src)]
  ++ extra ++ [body].

(** [await this.nodeContext?.get(key, default)] *)
Definition storage_get_opt (host : Matterbridge) (key : string)
    (default : option JSValue) : WM JSValue :=
  match host.(nodeContext) with
  | None => ret JUndefined
  | Some storage => attempt (storage.(storage_get) key default)
  end.

(** The callback of [this.devices.forEach] for [/api/devices], lines
    155-177: an [async] function, so a throw inside it (here: reading
    [pluginName] of a [params] that has no properties) rejects a promise
    nobody awaits, and the device is skipped. *)
Definition describe_device (params : JSValue) (device : Device) : option JSValue :=
  match get_prop params "pluginName" with
  | None => None
  | Some pluginName =>
      if truthy pluginName && negb (strict_eq pluginName device.(dev_plugin))
      then None
      else Some (JObject
        [("pluginName", nullish_or device.(dev_plugin) (JString "Unknown"));
         ("type", device.(dev_type));
         ("endpoint", device.(dev_number));
         ("name", device.(dev_name));
         ("serial", device.(dev_serial));
         ("productUrl", device.(dev_productUrl));
         ("configUrl", device.(dev_configUrl));
         ("uniqueId", device.(dev_uniqueId));
         ("cluster", device.(dev_cluster))])
  end.

Definition api_devices (params : JSValue) (all : list Device) : list JSValue :=
  fold_left
    (fun pushed device =>
       match describe_device params device with
       | Some entry => pushed ++ [entry]
       | None => pushed
       end)
    all [].

(** What the loop of [/api/clusters] (lines 190-274) has gathered. *)
Record ClusterDump : Type := {
  deviceName : JSValue;
  serialNumber : JSValue;
  deviceTypes : JSValue;
  clusters : list JSValue
}.

Definition api_clusters (plugin endpoint : JSValue) (all : list Device) : ClusterDump :=
  fold_left
    (fun dump device =>
       if negb (strict_eq plugin device.(dev_plugin)) then dump
       else if negb (strict_eq endpoint device.(dev_number)) then dump
       else {| deviceName := nullish_or device.(dev_deviceName) (JString "Unknown");
               serialNumber := nullish_or device.(dev_serialNumber) (JString "Unknown");
               deviceTypes := device.(dev_deviceTypes);
               clusters := dump.(clusters) ++ device.(dev_attributes) |})
    all
    {| deviceName := JString ""; serialNumber := JString "";
       deviceTypes := JArray []; clusters := [] |}.

Section Handler.

(** [isValidNumber(value, min?)], [isValidString(value, minLength?)] and
    [isValidObject(value)] of [utils/utils.js], and [JSON.parse]. *)
Variable isValidNumber : JSValue -> option Z -> bool.
Variable isValidString : JSValue -> option nat -> bool.
Variable isValidObject : JSValue -> bool.
Variable JSON_parse : string -> option JSValue.

(** The test of line 70. *)
Definition invalid_message (id dst src method params : JSValue) : bool :=
  negb (isValidNumber id None) || negb (isValidString dst None)
  || negb (isValidString src None) || negb (isValidString method None)
  || negb (isValidObject params) || negb (strict_eq dst (JString "Matterbridge")).

Definition is_method (method : JSValue) (m : string) : bool :=
  strict_eq method (JString m).

(** [/api/login], lines 81-95. *)
Definition login (host : Matterbridge) (id method src params : JSValue) : WM unit :=
  match host.(nodeContext) with
  | None =>
      emit (WsLog Error "Login nodeContext not found") ;;
      emit (Send (envelope id method src []
                    ("error", JString "Internal error: nodeContext not found")))
  | Some storage =>
      storedPassword <- attempt (storage.(storage_get) "password" (Some (JString ""))) ;;
      accepted <-
        (if strict_eq storedPassword (JString "") then ret true
         else password <- attempt (get_prop params "password") ;;
              ret (strict_eq storedPassword password)) ;;
      if accepted : bool then
        emit (WsLog Debug "Login password valid") ;;
        emit (Send (envelope id method src []
                      ("response", JObject [("valid", JBool true)])))
      else
        emit (WsLog Debug "Error wrong password") ;;
        emit (Send (envelope id method src [] ("error", JString "Wrong password")))
  end.

(** [/api/install] and [/api/uninstall], lines 97-121: the reply is sent
    when the promise of [spawnCommand] settles. *)
Definition npm (host : Matterbridge) (id method src params : JSValue)
    (wrong : string) (args : JSValue -> list JSValue) : WM unit :=
  packageName <- attempt (get_prop params "packageName") ;;
  if negb (isValidString packageName (Some 10)) then
    emit (Send (envelope id method src [] ("error", JString wrong)))
  else
    emit (Spawn "npm" (args packageName)) ;;
    match host.(spawnCommand) "npm" (args packageName) with
    | Resolved response =>
        emit (Send (envelope id method src [] ("response", response)))
    | Rejected error =>
        emit (Send (envelope id method src [] ("error", error_message error)))
    | Pending => ret tt
    end.

(** [/api/settings], lines 129-148. *)
Definition settings (host : Matterbridge) (id method src : JSValue) : WM unit :=
  assign "bridgeMode" host.(bridgeMode) ;;
  assign "restartMode" host.(restartMode) ;;
  assign "loggerLevel" host.(logLevel) ;;
  assign "matterLoggerLevel" host.(matterLogLevel) ;;
  mdns <- storage_get_opt host "mattermdnsinterface" (Some (JString "")) ;;
  assign "mattermdnsinterface" (or_else mdns (JString "")) ;;
  ipv4 <- storage_get_opt host "matteripv4address" (Some (JString "")) ;;
  assign "matteripv4address" (or_else ipv4 (JString "")) ;;
  ipv6 <- storage_get_opt host "matteripv6address" (Some (JString "")) ;;
  assign "matteripv6address" (or_else ipv6 (JString "")) ;;
  port <- storage_get_opt host "matterport" (Some (JNumber 5540)) ;;
  assign "matterPort" (nullish_or port (JNumber 5540)) ;;
  discriminator <- storage_get_opt host "matterdiscriminator" None ;;
  assign "matterDiscriminator" discriminator ;;
  passcode <- storage_get_opt host "matterpasscode" None ;;
  assign "matterPasscode" passcode ;;
  assign "matterbridgePaired" host.(matterbridgePaired) ;;
  assign "matterbridgeConnected" host.(matterbridgeConnected) ;;
  assign "matterbridgeQrPairingCode" host.(matterbridgeQrPairingCode) ;;
  assign "matterbridgeManualPairingCode" host.(matterbridgeManualPairingCode) ;;
  assign "matterbridgeFabricInformations" host.(matterbridgeFabricInformations) ;;
  assign "matterbridgeSessionInformations"
    (JArray host.(matterbridgeSessionInformations)) ;;
  assign "profile" host.(profile) ;;
  information <- get ;;
  let response :=
    JObject [("systemInformation", host.(systemInformation));
             ("matterbridgeInformation", JObject information)] in
  emit (Send (envelope id method src [] ("response", response))).

(** [/api/clusters], lines 181-276. *)
Definition clusters_of (host : Matterbridge) (id method src params : JSValue) : WM unit :=
  plugin <- attempt (get_prop params "plugin") ;;
  if negb (isValidString plugin (Some 10)) then
    emit (Send (envelope id method src []
                  ("error", JString "Wrong parameter plugin in /api/clusters")))
  else
    endpoint <- attempt (get_prop params "endpoint") ;;
    if negb (isValidNumber endpoint (Some 1%Z)) then
      emit (Send (envelope id method src []
                    ("error", JString "Wrong parameter endpoint in /api/clusters")))
    else
      let dump := api_clusters plugin endpoint host.(devices) in
      emit (Send (envelope id method src
                    [("plugin", plugin); ("deviceName", dump.(deviceName));
                     ("serialNumber", dump.(serialNumber)); ("endpoint", endpoint);
                     ("deviceTypes", dump.(deviceTypes))]
                    ("response", JArray dump.(clusters)))).

(** [/api/select] and [/api/select/entities], lines 278-302. Both test
    [plugin.platform?.selectDevice]; the second then reads
    [plugin.platform.selectEntity.values()]. *)
Definition select (host : Matterbridge) (id method src params : JSValue)
    (wrong missing : string)
    (selection : MatterbridgePlatform -> option (list JSValue)) : WM unit :=
  pluginName <- attempt (get_prop params "plugin") ;;
  if negb (isValidString pluginName (Some 10)) then
    emit (Send (envelope id method src [] ("error", JString wrong)))
  else
    match registry_get pluginName host.(plugins) with
    | None => emit (Send (envelope id method src [] ("error", JString missing)))
    | Some plugin =>
        selectValues <-
          match plugin.(platform) with
          | Some pf =>
              match pf.(selectDevice) with
              | Some _ =>
                  entries <- attempt (selection pf) ;;
                  attempt (host.(sort_by_name) entries)
              | None => ret []
              end
          | None => ret []
          end ;;
        emit (Send (envelope id method src [("plugin", pluginName)]
                      ("response", JArray selectValues)))
    end.

(** The body of the [try] after [JSON.parse], lines 70-307. *)
Definition dispatch (host : Matterbridge) (data : JSValue) : WM unit :=
  id <- attempt (get_prop data "id") ;;
  dst <- attempt (get_prop data "dst") ;;
  src <- attempt (get_prop data "src") ;;
  method <- attempt (get_prop data "method") ;;
  params <- attempt (get_prop data "params") ;;
  if invalid_message id dst src method params then
    emit (WsLog Error "Invalid message from websocket client") ;;
    emit (Send (envelope id method src [] ("error", JString "Invalid message")))
  else
    emit (WsLog Debug "Received message from websocket client") ;;
    if is_method method "ping" then
      emit (Send (envelope id method src [] ("response", JString "pong")))
    else if is_method method "/api/login" then
      login host id method src params
    else if is_method method "/api/install" then
      npm host id method src params "Wrong parameter packageName in /api/install"
        (fun packageName =>
           [JString "install"; JString "-g"; packageName; JString "--omit=dev";
            JString "--verbose"])
    else if is_method method "/api/uninstall" then
      npm host id method src params "Wrong parameter packageName in /api/uninstall"
        (fun packageName =>
           [JString "uninstall"; JString "-g"; packageName; JString "--verbose"])
    else if is_method method "/api/restart" then
      emit RestartProcess ;; succeed host.(restartProcess)
    else if is_method method "/api/shutdown" then
      emit ShutdownProcess ;; succeed host.(shutdownProcess)
    else if is_method method "/api/settings" then
      settings host id method src
    else if is_method method "/api/plugins" then
      response <- attempt host.(getBaseRegisteredPlugins) ;;
      emit (Send (envelope id method src [] ("response", response)))
    else if is_method method "/api/devices" then
      emit (Send (envelope id method src []
                    ("response", JArray (api_devices params host.(devices)))))
    else if is_method method "/api/clusters" then
      clusters_of host id method src params
    else if is_method method "/api/select" then
      select host id method src params
        "Wrong parameter plugin in /api/select" "Plugin not found in /api/select"
        selectDevice
    else if is_method method "/api/select/entities" then
      select host id method src params
        "Wrong parameter plugin in /api/select/entities"
        "Plugin not found in /api/select/entities"
        selectEntity
    else
      emit (WsLog Error "Invalid method from websocket client") ;;
      emit (Send (envelope id method src [] ("error", JString "Invalid method"))).

(** [wsMessageHandler], lines 66-312. *)
Definition wsMessageHandler (host : Matterbridge) (message : string) : WM unit :=
  try_catch
    (data <- attempt (JSON_parse message) ;;
     dispatch host data)
    (emit (WsLog Error "Error parsing message from websocket client")).

End Handler.

(** The envelopes sent, in order. *)
Fixpoint sent (t : list WsEvent) : list (list (string * JSValue)) :=
  match t with
  | [] => []
  | Send e :: rest => e :: sent rest
  | _ :: rest => sent rest
  end.

(** [data.key] of a value that has properties. *)
Definition field (data : JSValue) (k : string) : JSValue :=
  match get_prop data k with Some v => v | None => JUndefined end.

Definition nullish (v : JSValue) : bool :=
  match v with JUndefined | JNull => true | _ => false end.

(** *** Sample data *)

(** Modelled from the spec: [utils/utils.js] is not among the sources. The
    specification asks for an id that is a valid number, for [dst], [src]
    and [method] that are non-empty strings, for [params] that is an object,
    and for a minimum length or value where the handler passes one. *)
Definition spec_isValidNumber (v : JSValue) (min : option Z) : bool :=
  match v with
  | JNumber n => match min with Some m => (m <=? n)%Z | None => true end
  | _ => false
  end.

(** Modelled from the spec: [isValidString] of [utils/utils.js], a
    non-empty string, or one of at least the given length. *)
Definition spec_isValidString (v : JSValue) (minLength : option nat) : bool :=
  match v with
  | JString s =>
      match minLength with
      | Some m => (m <=? String.length s)%nat
      | None => negb (s =? "")
      end
  | _ => false
  end.

(** Modelled from the spec: [isValidObject] of [utils/utils.js]. *)
Definition spec_isValidObject (v : JSValue) : bool :=
  match v with JObject _ => true | _ => false end.

Definition request (id : Z) (method : string) (params : list (string * JSValue))
  : JSValue :=
  JObject [("id", JNumber id); ("dst", JString "Matterbridge");
           ("src", JString "Frontend"); ("method", JString method);
           ("params", JObject params)].

(** A parser that knows five messages. *)
Definition sample_parse (message : string) : option JSValue :=
  if message =? "ping" then Some (request 42 "ping" [])
  else if message =? "login" then
    Some (request 7 "/api/login" [("password", JString "secret")])
  else if message =? "unknown" then Some (request 8 "/api/unknown" [])
  else if message =? "misaddressed" then
    Some (JObject [("id", JNumber 9); ("dst", JString "Somebody");
                   ("src", JString "Frontend"); ("method", JString "ping");
                   ("params", JObject [])])
  else if message =? "null" then Some JNull
  else None.

Definition sample_host (password : JSValue) : Matterbridge :=
  {| nodeContext := Some {| storage_get := fun key default =>
                              if key =? "password" then Some password
                              else Some (match default with
                                         | Some v => v | None => JUndefined end) |};
     spawnCommand := fun _ _ => Rejected (ErrorObject "npm failed");
     restartProcess := true;
     shutdownProcess := true;
     bridgeMode := JString "bridge";
     restartMode := JString "";
     logLevel := JString "info";
     matterLogLevel := JNumber 1;
     matterbridgePaired := JBool false;
     matterbridgeConnected := JBool false;
     matterbridgeQrPairingCode := JUndefined;
     matterbridgeManualPairingCode := JUndefined;
     matterbridgeFabricInformations := JArray [];
     matterbridgeSessionInformations := [];
     profile := JUndefined;
     systemInformation := JObject [];
     getBaseRegisteredPlugins := Some (JArray []);
     devices := [];
     plugins := [];
     sort_by_name := fun l => Some l |}.

(** The methods [dispatch] has a branch for. *)
Definition known_methods : list string :=
  ["ping"; "/api/login"; "/api/install"; "/api/uninstall"; "/api/restart";
   "/api/shutdown"; "/api/settings"; "/api/plugins"; "/api/devices";
   "/api/clusters"; "/api/select"; "/api/select/entities"].

End Websocket.

(** ** The rest of the plugin manager ([src/plugins.ts]) *)

Module Manager.
Import JS Eff Plugins.
Local Open Scope eff_scope.

(** *** The map *)

(** [this._plugins.has(name)] *)
Definition registry_has (key : string) (reg : Registry) : bool :=
  existsb (fun entry => fst entry =? key) reg.

(** [this._plugins.set(key, plugin)]: the value of a key that is present
    is replaced where it stands, a new key goes to the end. *)
Fixpoint registry_set (key : string) (plugin : RegisteredPlugin) (reg : Registry)
  : Registry :=
  match reg with
  | [] => [(key, plugin)]
  | (k, v) :: rest =>
      if k =? key then (k, plugin) :: rest
      else (k, v) :: registry_set key plugin rest
  end.

(** [this._plugins.delete(key)] *)
Definition registry_delete (key : JSValue) (reg : Registry) : Registry :=
  match key with
  | JString k => filter (fun entry => negb (fst entry =? k)) reg
  | _ => reg
  end.

(** [this._plugins.set(key, plugin)] with a key read from a manifest or a
    stored record. The map is declared [Map<string, RegisteredPlugin>] and
    [Registry] holds string keys only: a key that is not a string is where
    this embedding ends, and the computation stops with [Throw] there. *)
Definition map_set (key : JSValue) (plugin : RegisteredPlugin) : RM unit :=
  match key with
  | JString k => modify (registry_set k plugin)
  | _ => throw
  end.

(** [get length()] and [get size()], lines 31-37. *)
Definition size (reg : Registry) : nat := List.length reg.

(** [Plugins.set], lines 47-50. *)
Definition set (plugin : RegisteredPlugin) : RM RegisteredPlugin :=
  map_set plugin.(name) plugin ;;
  ret plugin.

(** *** Storage *)

(** [Plugins.loadFromStorage], lines 64-69. [answer] is what
    [nodeContext.get('plugins', [])] does: it rejects ([None]), finds
    nothing stored ([Some None], so the default [[]] is taken) or gives the
    stored array. *)
Definition loadFromStorage (answer : option (option (list RegisteredPlugin)))
  : RM (list RegisteredPlugin) :=
  found <- attempt answer ;;
  let pluginsArray := match found with Some stored => stored | None => [] end in
  fold_left (fun loop plugin => loop ;; map_set plugin.(name) plugin)
    pluginsArray (ret tt) ;;
  ret pluginsArray.

(** *** Manifests *)

(** Lines 139-142 of [parse]. *)
Definition set_manifest (n v d a : JSValue) (p : RegisteredPlugin) : RegisteredPlugin :=
  {| name := n; path := p.(path); type := p.(type); version := v;
     description := d; author := a; enabled := p.(enabled);
     qrPairingCode := p.(qrPairingCode); manualPairingCode := p.(manualPairingCode);
     locked := p.(locked); error := p.(error); loaded := p.(loaded);
     started := p.(started); configured := p.(configured); connected := p.(connected);
     platform := p.(platform); registeredDevices := p.(registeredDevices);
     addedDevices := p.(addedDevices); configJson := p.(configJson);
     schemaJson := p.(schemaJson) |}.

(** [Plugins.parse], lines 133-152. *)
Definition parse (env : Env) : PM (option JSValue) :=
  log Debug "Parsing package.json of plugin" ;;
  try_catch
    (plugin <- get ;;
     packageJson <- read_json env plugin.(path) ;;
     when (negb (truthy plugin.(name))) (log Warn "has no name in package.json") ;;
     when (negb (truthy plugin.(version))) (log Warn "has no version in package.json") ;;
     n <- attempt (get_prop packageJson "name") ;;
     v <- attempt (get_prop packageJson "version") ;;
     d <- attempt (get_prop packageJson "description") ;;
     a <- attempt (get_prop packageJson "author") ;;
     modify (set_manifest (or_else n (JString "Unknown name"))
                          (or_else v (JString "1.0.0"))
                          (or_else d (JString "Unknown description"))
                          (or_else a (JString "Unknown author"))) ;;
     when (plugin.(path) =? "") (log Warn "has no path") ;;
     when (negb (truthy plugin.(type))) (log Warn "has no type") ;;
     ret (Some packageJson))
    (log Error "Failed to parse package.json of plugin" ;;
     modify (set_error (Some true)) ;;
     ret None).

(** *** Registering, enabling and removing *)

(** The second half of [enable], [disable] and [remove] (lines 163-182,
    194-213 and 225-244): the record is looked up under the name the
    manifest at [nameOrPath] declares, and [change] is applied to the map. *)
Definition by_manifest (env : Env) (nameOrPath : string)
    (failed done : string) (change : JSValue -> Registry -> Registry)
    (outcome : RegisteredPlugin -> RegisteredPlugin)
  : RM (option RegisteredPlugin) :=
  packageJsonPath <- resolve env nameOrPath ;;
  match packageJsonPath with
  | Some file =>
      if file =? "" then
        note Error (failed ++ ": package.json not found") (JString nameOrPath) ;;
        ret None
      else
        try_catch
          (packageJson <- read_json env file ;;
           declared <- attempt (get_prop packageJson "name") ;;
           reg <- get ;;
           match registry_get declared reg with
           | None =>
               note Error (failed ++ ": plugin not registered") (JString nameOrPath) ;;
               ret None
           | Some plugin =>
               modify (change declared) ;;
               note Info done plugin.(name) ;;
               _ <- saveToStorage env ;;
               ret (Some (outcome plugin))
           end)
          (note Error "Failed to parse package.json of plugin" (JString nameOrPath) ;;
           ret None)
  | None =>
      note Error (failed ++ ": package.json not found") (JString nameOrPath) ;;
      ret None
  end.

(** [Plugins.enable], lines 154-183. *)
Definition enable (env : Env) (nameOrPath : string) : RM (option RegisteredPlugin) :=
  if nameOrPath =? "" then ret None
  else
    reg <- get ;;
    match registry_get (JString nameOrPath) reg with
    | Some plugin =>
        modify (update_plugin (JString nameOrPath) (set_enabled (Some true))) ;;
        note Info "Enabled plugin" plugin.(name) ;;
        _ <- saveToStorage env ;;
        ret (Some (set_enabled (Some true) plugin))
    | None =>
        by_manifest env nameOrPath "Failed to enable plugin" "Enabled plugin"
          (fun declared => update_plugin declared (set_enabled (Some true)))
          (set_enabled (Some true))
    end.

(** [Plugins.remove], lines 216-245. *)
Definition remove (env : Env) (nameOrPath : string) : RM (option RegisteredPlugin) :=
  if nameOrPath =? "" then ret None
  else
    reg <- get ;;
    match registry_get (JString nameOrPath) reg with
    | Some plugin =>
        modify (registry_delete (JString nameOrPath)) ;;
        note Info "Removed plugin" plugin.(name) ;;
        _ <- saveToStorage env ;;
        ret (Some plugin)
    | None =>
        by_manifest env nameOrPath "Failed to remove plugin" "Removed plugin"
          registry_delete (fun plugin => plugin)
    end.

(** [Plugins.add], lines 247-269. *)
Definition add (env : Env) (nameOrPath : string) : RM (option RegisteredPlugin) :=
  if nameOrPath =? "" then ret None
  else
    packageJsonPath <- resolve env nameOrPath ;;
    match packageJsonPath with
    | Some file =>
        if file =? "" then
          note Error "Failed to add plugin: package.json not found" (JString nameOrPath) ;;
          ret None
        else
          try_catch
            (packageJson <- read_json env file ;;
             declared <- attempt (get_prop packageJson "name") ;;
             reg <- get ;;
             match registry_get declared reg with
             | Some _ =>
                 note Error "Failed to add plugin: plugin already registered"
                   (JString nameOrPath) ;;
                 ret None
             | None =>
                 plugin <- attempt (new_record packageJson file) ;;
                 map_set declared plugin ;;
                 note Info "Added plugin" declared ;;
                 _ <- saveToStorage env ;;
                 now <- get ;;
                 ret (registry_get declared now)
             end)
            (note Error "Failed to parse package.json of plugin" (JString nameOrPath) ;;
             ret None)
    | None =>
        note Error "Failed to add plugin: package.json not found" (JString nameOrPath) ;;
        ret None
    end.

End Manager.

(** ** The console's connection ([frontend/src/components/WebSocketProvider.js]) *)

Module Frontend.
Import JS Eff.
Local Open Scope eff_scope.

(** Lines 10-12 and 40-43. *)
Definition WS_ID_LOG : JSValue := JNumber 0.
Definition WS_ID_REFRESH_NEEDED : JSValue := JNumber 1.
Definition WS_ID_RESTART_NEEDED : JSValue := JNumber 2.
Definition maxMessages : nat := 1000.
Definition maxRetries : nat := 100.
Definition pingIntervalSeconds : nat := 10.
Definition offlineTimeoutSeconds : nat := 5.

(** What [setMessages] is handed: a function of the lines there are,
    which React calls after the handler that queued it has returned. The
    provider has two of them: the one of [logMessage] (line 73), which
    appends a line, and the one of the message handler (lines 149-189),
    which builds the line of a log record and appends it. *)
Inductive Update : Type :=
| AppendLine (line : string)
| AppendRecord (msg : JSValue).

(** The states and refs of the provider. A listener is a callback, known
    here by a number that stands for its identity; a timer is armed or not.
    [messages] holds the lines React has, [queued] the updates handed to
    [setMessages] that it has not applied yet, oldest first. *)
Record Provider : Type := {
  logFilterLevel : string;
  logFilterSearch : string;
  messages : list string;
  queued : list Update;
  online : bool;
  refresh : bool;
  restart : bool;
  listeners : list nat;
  socketOpen : bool;
  retryCount : nat;
  uniqueId : JSValue;
  pingInterval : bool;
  offlineTimeout : bool
}.

Inductive Timer : Type := PingTick | OfflineExpired | AttemptReconnect.

(** The trace: what is written to the socket, which listener is called
    with what, which timers are set and cleared, what goes to the console. *)
Inductive ClientEvent : Type :=
| SocketSend (message : list (string * JSValue))
| Notify (listener : nat) (msg : JSValue)
| SetTimeout (callback : Timer) (milliseconds : nat)
| SetInterval (callback : Timer) (milliseconds : nat)
| ClearTimeout (callback : Timer)
| ClearInterval (callback : Timer)
| ConsoleError (text : string)
| ConsoleLog (text : string).

Definition CM : Type -> Type := @M Provider ClientEvent.

(** *** State updates *)

Definition with_online (v : bool) (p : Provider) : Provider :=
  {| logFilterLevel := p.(logFilterLevel); logFilterSearch := p.(logFilterSearch);
     messages := p.(messages); online := v; refresh := p.(refresh);
     restart := p.(restart); listeners := p.(listeners);
     socketOpen := p.(socketOpen); retryCount := p.(retryCount);
     uniqueId := p.(uniqueId); pingInterval := p.(pingInterval);
     offlineTimeout := p.(offlineTimeout); queued := p.(queued) |}.

Definition with_refresh (v : bool) (p : Provider) : Provider :=
  {| logFilterLevel := p.(logFilterLevel); logFilterSearch := p.(logFilterSearch);
     messages := p.(messages); online := p.(online); refresh := v;
     restart := p.(restart); listeners := p.(listeners);
     socketOpen := p.(socketOpen); retryCount := p.(retryCount);
     uniqueId := p.(uniqueId); pingInterval := p.(pingInterval);
     offlineTimeout := p.(offlineTimeout); queued := p.(queued) |}.

Definition with_restart (v : bool) (p : Provider) : Provider :=
  {| logFilterLevel := p.(logFilterLevel); logFilterSearch := p.(logFilterSearch);
     messages := p.(messages); online := p.(online); refresh := p.(refresh);
     restart := v; listeners := p.(listeners);
     socketOpen := p.(socketOpen); retryCount := p.(retryCount);
     uniqueId := p.(uniqueId); pingInterval := p.(pingInterval);
     offlineTimeout := p.(offlineTimeout); queued := p.(queued) |}.

Definition with_listeners (v : list nat) (p : Provider) : Provider :=
  {| logFilterLevel := p.(logFilterLevel); logFilterSearch := p.(logFilterSearch);
     messages := p.(messages); online := p.(online); refresh := p.(refresh);
     restart := p.(restart); listeners := v;
     socketOpen := p.(socketOpen); retryCount := p.(retryCount);
     uniqueId := p.(uniqueId); pingInterval := p.(pingInterval);
     offlineTimeout := p.(offlineTimeout); queued := p.(queued) |}.

Definition with_socketOpen (v : bool) (p : Provider) : Provider :=
  {| logFilterLevel := p.(logFilterLevel); logFilterSearch := p.(logFilterSearch);
     messages := p.(messages); online := p.(online); refresh := p.(refresh);
     restart := p.(restart); listeners := p.(listeners);
     socketOpen := v; retryCount := p.(retryCount);
     uniqueId := p.(uniqueId); pingInterval := p.(pingInterval);
     offlineTimeout := p.(offlineTimeout); queued := p.(queued) |}.

Definition with_retryCount (v : nat) (p : Provider) : Provider :=
  {| logFilterLevel := p.(logFilterLevel); logFilterSearch := p.(logFilterSearch);
     messages := p.(messages); online := p.(online); refresh := p.(refresh);
     restart := p.(restart); listeners := p.(listeners);
     socketOpen := p.(socketOpen); retryCount := v;
     uniqueId := p.(uniqueId); pingInterval := p.(pingInterval);
     offlineTimeout := p.(offlineTimeout); queued := p.(queued) |}.

Definition with_pingInterval (v : bool) (p : Provider) : Provider :=
  {| logFilterLevel := p.(logFilterLevel); logFilterSearch := p.(logFilterSearch);
     messages := p.(messages); online := p.(online); refresh := p.(refresh);
     restart := p.(restart); listeners := p.(listeners);
     socketOpen := p.(socketOpen); retryCount := p.(retryCount);
     uniqueId := p.(uniqueId); pingInterval := v;
     offlineTimeout := p.(offlineTimeout); queued := p.(queued) |}.

Definition with_offlineTimeout (v : bool) (p : Provider) : Provider :=
  {| logFilterLevel := p.(logFilterLevel); logFilterSearch := p.(logFilterSearch);
     messages := p.(messages); online := p.(online); refresh := p.(refresh);
     restart := p.(restart); listeners := p.(listeners);
     socketOpen := p.(socketOpen); retryCount := p.(retryCount);
     uniqueId := p.(uniqueId); pingInterval := p.(pingInterval);
     offlineTimeout := v; queued := p.(queued) |}.

Definition with_queued (v : list Update) (p : Provider) : Provider :=
  {| logFilterLevel := p.(logFilterLevel); logFilterSearch := p.(logFilterSearch);
     messages := p.(messages); online := p.(online); refresh := p.(refresh);
     restart := p.(restart); listeners := p.(listeners);
     socketOpen := p.(socketOpen); retryCount := p.(retryCount);
     uniqueId := p.(uniqueId); pingInterval := p.(pingInterval);
     offlineTimeout := p.(offlineTimeout); queued := v |}.

(** [setMessages(update)] *)
Definition setMessages (update : Update) : CM unit :=
  modify (fun p => with_queued (p.(queued) ++ [update]) p).

(** *** Listeners *)

(** [addListener], lines 82-86. *)
Definition addListener (listener : nat) : CM unit :=
  p <- get ;;
  modify (with_listeners (p.(listeners) ++ [listener])).

(** [removeListener], lines 88-92. *)
Definition removeListener (listener : nat) : CM unit :=
  p <- get ;;
  modify (with_listeners (filter (fun l => negb (l =? listener)%nat) p.(listeners))).

(** *** The log *)

(** The update of [messages] at lines 182-188: the new line goes to the
    end, and only the last [maxMessages] lines are kept. *)
Definition append_capped (line : string) (prevMessages : list string) : list string :=
  let newMessages := prevMessages ++ [line] in
  if (maxMessages <? List.length newMessages)%nat
  then skipn (List.length newMessages - maxMessages) newMessages
  else newMessages.

(** The cascade of lines 138-145: the record is dropped. *)
Definition level_filtered (filterLevel : string) (level : JSValue) : bool :=
  let at_level l := strict_eq level (JString l) in
  if existsb at_level ["debug"; "info"; "notice"; "warn"; "error"; "fatal"] then
    ((filterLevel =? "info") && at_level "debug")
    || ((filterLevel =? "notice") && (at_level "debug" || at_level "info"))
    || ((filterLevel =? "warn")
        && (at_level "debug" || at_level "info" || at_level "notice"))
    || ((filterLevel =? "error")
        && (at_level "debug" || at_level "info" || at_level "notice"
            || at_level "warn"))
    || ((filterLevel =? "fatal")
        && (at_level "debug" || at_level "info" || at_level "notice"
            || at_level "warn" || at_level "error"))
  else false.

Section Provider.

(** [wssHost], the badge line of [logMessage] (lines 72-73), the text of
    line 217 for an attempt number, [text.toLowerCase()],
    [text.includes(part)], [JSON.parse], and what a listener does when it is
    called ([false]: it throws). *)
Variable wssHost : string.
Variable badge_line : string -> string -> string.
Variable reconnecting : nat -> string.
Variable lower : string -> string.
Variable includes : string -> string -> bool.
Variable JSON_parse : string -> option JSValue.
Variable listener_returns : nat -> JSValue -> bool.

(** [logMessage], lines 71-74: the update that appends the line, without
    a cap, is handed to [setMessages]. *)
Definition logMessage (badge message : string) : CM unit :=
  setMessages (AppendLine (badge_line badge message)).

(** [sendMessage], lines 55-69. *)
Definition sendMessage (message : list (string * JSValue)) : CM unit :=
  p <- get ;;
  if p.(socketOpen) then
    let message :=
      match lookup "id" message with
      | None | Some JUndefined => Websocket.set_field "id" p.(uniqueId) message
      | Some _ => message
      end in
    emit (SocketSend message)
  else
    emit (ConsoleError "WebSocket message not sent, WebSocket not connected").

(** [listenersRef.current.forEach(listener => listener(msg))] *)
Definition notify (msg : JSValue) : CM unit :=
  p <- get ;;
  fold_left
    (fun loop listener =>
       loop ;; emit (Notify listener msg) ;; succeed (listener_returns listener msg))
    p.(listeners) (ret tt).

(** [text.toLowerCase()] of a property that must be a string. *)
Definition lowered (v : JSValue) : CM string :=
  match v with
  | JString text => ret (lower text)
  | _ => throw
  end.

(** Line 146: the record is dropped by the search filter. *)
Definition search_filtered (search : string) (msg : JSValue) : CM bool :=
  if negb (search =? "*") && negb (search =? "") then
    message <- attempt (get_prop msg "message") ;;
    text <- lowered message ;;
    if negb (includes text (lower search)) then
      name <- attempt (get_prop msg "name") ;;
      label <- lowered name ;;
      ret (negb (includes label (lower search)))
    else ret false
  else ret false.

(** [wsRef.current.onmessage], lines 105-194. The update of lines
    149-189 is only handed to [setMessages] inside the [try]: what it does
    when React calls it is [apply_update] below. *)
Definition onmessage (data : string) : CM unit :=
  modify (with_online true) ;;
  try_catch
    (msg <- attempt (JSON_parse data) ;;
     error <- attempt (get_prop msg "error") ;;
     when (truthy error) (emit (ConsoleError "WebSocket error message")) ;;
     id <- attempt (get_prop msg "id") ;;
     p <- get ;;
     if strict_eq id JUndefined then ret tt
     else if strict_eq id WS_ID_REFRESH_NEEDED then
       modify (with_refresh true) ;; notify msg
     else if strict_eq id WS_ID_RESTART_NEEDED then
       modify (with_restart true) ;; notify msg
     else if strict_eq id p.(uniqueId)
             && strict_eq (Websocket.field msg "src") (JString "Matterbridge")
             && strict_eq (Websocket.field msg "dst") (JString "Frontend")
             && strict_eq (Websocket.field msg "response") (JString "pong") then
       emit (ClearTimeout OfflineExpired) ;;
       modify (with_offlineTimeout false) ;;
       notify msg
     else if negb (strict_eq id WS_ID_LOG) then
       emit (ConsoleLog "WebSocket message") ;; notify msg
     else if negb (truthy (Websocket.field msg "level"))
             || negb (truthy (Websocket.field msg "time"))
             || negb (truthy (Websocket.field msg "name"))
             || negb (truthy (Websocket.field msg "message")) then ret tt
     else if level_filtered p.(logFilterLevel) (Websocket.field msg "level") then ret tt
     else
       dropped <- search_filtered p.(logFilterSearch) msg ;;
       if dropped : bool then ret tt
       else setMessages (AppendRecord msg))
    (emit (ConsoleError "WebSocketUse error parsing message")).

(** The ping of line 201. *)
Definition ping_message (id : JSValue) : list (string * JSValue) :=
  [("id", id); ("method", JString "ping"); ("src", JString "Frontend");
   ("dst", JString "Matterbridge"); ("params", JObject [])].

(** The callback of [setInterval], lines 200-208. *)
Definition pingTick : CM unit :=
  p <- get ;;
  sendMessage (ping_message p.(uniqueId)) ;;
  emit (ClearTimeout OfflineExpired) ;;
  emit (SetTimeout OfflineExpired (1000 * offlineTimeoutSeconds)) ;;
  modify (with_offlineTimeout true).

(** The callback of that [setTimeout], lines 203-207. *)
Definition offlineExpired : CM unit :=
  emit (ConsoleError "WebSocketUse: No pong response received from WebSocket") ;;
  logMessage "WebSocket" ("No pong response received from WebSocket: " ++ wssHost)%string ;;
  modify (with_offlineTimeout false) ;;
  modify (with_online false).

(** [wsRef.current.onopen], lines 196-209. *)
Definition onopen : CM unit :=
  logMessage "WebSocket" ("Connected to WebSocket: " ++ wssHost)%string ;;
  modify (with_socketOpen true) ;;
  modify (with_online true) ;;
  modify (with_retryCount 1) ;;
  emit (SetInterval PingTick (1000 * pingIntervalSeconds)) ;;
  modify (with_pingInterval true).

(** [wsRef.current.onclose], lines 211-221. *)
Definition onclose : CM unit :=
  emit (ConsoleError "WebSocketUse: Disconnected from WebSocket") ;;
  logMessage "WebSocket" ("Disconnected from WebSocket: " ++ wssHost)%string ;;
  modify (with_socketOpen false) ;;
  modify (with_online false) ;;
  emit (ClearTimeout OfflineExpired) ;;
  modify (with_offlineTimeout false) ;;
  emit (ClearInterval PingTick) ;;
  modify (with_pingInterval false) ;;
  p <- get ;;
  logMessage "WebSocket" (reconnecting p.(retryCount)) ;;
  (if (p.(retryCount) <? maxRetries)%nat then
     emit (SetTimeout AttemptReconnect (1000 * p.(retryCount)))
   else
     logMessage "WebSocket"
       ("Reconnect attempts exceeded limit of 100 retries, "
        ++ "refresh the page to reconnect to: " ++ wssHost)%string) ;;
  modify (with_retryCount (p.(retryCount) + 1)).

End Provider.

(** *** The updates of the log *)

Section Updater.

(** [text.toLowerCase()] and the text a template literal puts in for a
    value ([`${value}`]). *)
Variable lower : string -> string.
Variable to_text : JSValue -> string.

(** The double quote of the style attributes. *)
Definition quote : string := String (Ascii.ascii_of_nat 34) EmptyString.

(** [`<span style="${style}">${content}</span>`] *)
Definition span (style content : string) : string :=
  ("<span style=" ++ quote ++ style ++ quote ++ ">" ++ content ++ "</span>")%string.

(** [getsubTypeMessageBgColor], lines 152-171. [level.toLowerCase()]
    throws ([None]) when [level] is not a string. *)
Definition getsubTypeMessageBgColor (level : JSValue) : option string :=
  match level with
  | JString text =>
      let l := lower text in
      Some (if l =? "debug" then "gray"
            else if l =? "info" then "#267fb7"
            else if l =? "notice" then "green"
            else if l =? "warn" then "#e9db18"
            else if l =? "error" then "red"
            else if l =? "fatal" then "#ff0000"
            else if l =? "spawn" then "#ff00d0"
            else "lightblue")
  | _ => None
  end.

(** [getsubTypeMessageColor], lines 172-179. *)
Definition getsubTypeMessageColor (level : JSValue) : option string :=
  match level with
  | JString text => Some (if lower text =? "warn" then "black" else "white")
  | _ => None
  end.

(** [newMessage], lines 151-181. *)
Definition newMessage (msg : JSValue) : option string :=
  let timeString :=
    span "color: #505050;" ("[" ++ to_text (Websocket.field msg "time") ++ "]") in
  match getsubTypeMessageBgColor (Websocket.field msg "level"),
        getsubTypeMessageColor (Websocket.field msg "level") with
  | Some background, Some color =>
      let coloredSubType :=
        span ("background-color: " ++ background ++ "; color: " ++ color
              ++ "; padding: 1px 5px; font-size: 12px; border-radius: 3px;")
          (to_text (Websocket.field msg "level")) in
      Some (coloredSubType ++ " " ++ timeString ++ " "
            ++ span "color: #09516d;" ("[" ++ to_text (Websocket.field msg "name") ++ "]")
            ++ " "
            ++ span "color: var(--main-log-color);"
                 (to_text (Websocket.field msg "message")))%string
  | _, _ => None
  end.

(** What an update does when React calls it with the lines there are:
    the new lines, or [None] when it throws. *)
Definition apply_update (update : Update) (prevMessages : list string)
  : option (list string) :=
  match update with
  | AppendLine line => Some (prevMessages ++ [line])
  | AppendRecord msg =>
      match newMessage msg with
      | Some line => Some (append_capped line prevMessages)
      | None => None
      end
  end.

End Updater.

(** A provider as it is when the page loads (lines 18-33), with the
    stored filters and the identifier drawn at line 29. *)
Definition initial (level search : string) (id : Z) : Provider :=
  {| logFilterLevel := level; logFilterSearch := search; messages := [];
     online := false; refresh := false; restart := false; listeners := [];
     socketOpen := false; retryCount := 1; uniqueId := JNumber id;
     pingInterval := false; offlineTimeout := false; queued := [] |}.

End Frontend.

(** ** Properties of the lifecycle supervisor *)

Module Lifecycle.
Import JS Eff Plugins.
Local Open Scope eff_scope.

Ltac eff_unfold :=
  unfold final, result, trace, read_json, plugin_entry, log, when, succeed,
    attempt, emit, modify, get, throw, try_catch, bind, ret in *.

(** Case analysis on the innermost test the goal is stuck on. *)
Ltac split_match :=
  repeat match goal with
    | |- context [match ?x with _ => _ end] =>
        lazymatch x with
        | context [match _ with _ => _ end] => fail
        | _ => destruct x eqn:?; simpl in *
        end
    end.

Ltac flags :=
  repeat match goal with
    | H : negb _ = true |- _ => apply negb_true_iff in H
    | H : negb _ = false |- _ => apply negb_false_iff in H
    end.

Ltac run_all := eff_unfold; simpl; split_match; simpl; flags.

(** *** The record invariant *)

Lemma new_record_inv packageJson packageJsonPath p :
  new_record packageJson packageJsonPath = Some p -> lifecycle_inv p.
Proof.
  unfold new_record, lifecycle_inv. intros H.
  destruct (get_prop packageJson "name"), (get_prop packageJson "version"),
    (get_prop packageJson "description"), (get_prop packageJson "author");
    try discriminate.
  injection H as <-. simpl. intuition congruence.
Qed.

Lemma set_error_keeps_inv v p :
  lifecycle_inv p -> lifecycle_inv (set_error v p).
Proof. destruct p; exact (fun H => H). Qed.

(** A nested call whose run was named by case analysis: its final record
    satisfies the invariant by the lemma [L] about the callee. *)
Ltac by_callee L :=
  match goal with
  | H : ?call = (_, ?r, _) |- lifecycle_inv ?r =>
      replace r with (final call) by (rewrite H; reflexivity);
      apply L; unfold lifecycle_inv; simpl; intuition congruence
  end.

Lemma configure_keeps_inv env p :
  lifecycle_inv p -> lifecycle_inv (final (configure env p)).
Proof.
  unfold lifecycle_inv. destruct p; simpl. intros (Hcs & Hsl & Hpf).
  unfold configure; run_all; intuition congruence.
Qed.

Lemma start_keeps_inv env message andConfigure p :
  lifecycle_inv p -> lifecycle_inv (final (start env message andConfigure p)).
Proof.
  intros Hp. assert (Hp' := Hp). revert Hp'.
  unfold lifecycle_inv at 1. destruct p; simpl. intros (Hcs & Hsl & Hpf).
  unfold start; destruct andConfigure; run_all;
    try apply set_error_keeps_inv; try by_callee configure_keeps_inv;
    unfold lifecycle_inv; simpl; intuition congruence.
Qed.

Lemma shutdown_keeps_inv env reason removeAllDevices p :
  lifecycle_inv p -> lifecycle_inv (final (shutdown env reason removeAllDevices p)).
Proof.
  unfold lifecycle_inv. destruct p; simpl. intros (Hcs & Hsl & Hpf).
  unfold shutdown; destruct removeAllDevices; run_all; intuition congruence.
Qed.

Lemma load_keeps_inv env andStart message p :
  lifecycle_inv p -> lifecycle_inv (final (load env andStart message p)).
Proof.
  intros Hp. assert (Hp' := Hp). revert Hp'.
  unfold lifecycle_inv at 1. destruct p; simpl. intros (Hcs & Hsl & Hpf).
  unfold load, stamp_platform, bind_platform; destruct andStart; run_all;
    try apply set_error_keeps_inv; try by_callee start_keeps_inv;
    unfold lifecycle_inv; simpl; intuition congruence.
Qed.

Lemma perform_keeps_inv op p :
  lifecycle_inv p -> lifecycle_inv (perform op p).
Proof.
  destruct op; simpl;
    auto using load_keeps_inv, start_keeps_inv, configure_keeps_inv, shutdown_keeps_inv.
Qed.

Lemma perform_all_keeps_inv ops : forall p,
  lifecycle_inv p -> lifecycle_inv (perform_all ops p).
Proof.
  unfold perform_all.
  induction ops as [|op ops IH]; simpl; intros p Hp.
  - exact Hp.
  - apply IH, perform_keeps_inv, Hp.
Qed.

(** C1. For every plugin record that satisfies the record invariant (as
    every record made by [add] does), and every sequence of load, start,
    configure and shutdown calls, in whatever environment each call runs, the
    invariant holds after every prefix of the sequence: [configured] implies
    [started], [started] implies [loaded], and none of the three is set while
    the platform handle is absent. *)
Theorem lifecycle_order_invariant (ops : list Operation) (p : RegisteredPlugin) :
  lifecycle_inv p ->
  forall k, lifecycle_inv (perform_all (firstn k ops) p).
Proof.
  intros Hp k. apply perform_all_keeps_inv, Hp.
Qed.

Lemma lifecycle_order_invariant_witness :
  lifecycle_inv sample_record /\
  lifecycle_inv
    (perform_all
       (firstn 4 [Load sample_env true "hello"; Configure sample_env;
                  Shutdown failing_shutdown_env (Some "bye") false;
                  Shutdown sample_env (Some "bye") true;
                  Start sample_env None true])
       sample_record).
Proof.
  assert (H : lifecycle_inv sample_record).
  { apply (new_record_inv sample_manifest "/plugins/example/package.json").
    reflexivity. }
  split; [exact H | apply (lifecycle_order_invariant _ sample_record H 4)].
Defined.

(** *** Shutdown *)

(** The guards of [shutdown] (lines 428-443) all pass. *)
Definition shutdown_ready (p : RegisteredPlugin) : bool :=
  is_set p.(loaded) && is_set p.(started) && is_set p.(configured)
  && match p.(platform) with Some _ => true | None => false end.

Definition no_hook_call (t : list Event) : bool :=
  forallb (fun e => negb (is_hook_call e)) t.

(** The specification's reading of shutdown: [loaded] (with the platform
    bound) is the only precondition for the hook to run and the flags to be
    cleared. *)
Definition shutdown_requires_only_loaded : Prop :=
  forall env reason removeAllDevices p pf,
    is_set p.(loaded) = true ->
    p.(platform) = Some pf ->
    env.(onShutdown) pf reason = true ->
    In (CallOnShutdown pf reason) (trace (shutdown env reason removeAllDevices p)) /\
    final (shutdown env reason removeAllDevices p) = clear_transient p.

Lemma shutdown_guarded env reason removeAllDevices p :
  shutdown_ready p = false ->
  exists why,
    shutdown env reason removeAllDevices p =
    (Return None, p,
     [Log Debug "Shutting down plugin" p.(name); Log Debug why p.(name)]).
Proof.
  unfold shutdown_ready, shutdown. destruct p; eff_unfold; simpl.
  destruct (is_set loaded0), (is_set started0), (is_set configured0), platform0;
    simpl; try discriminate; intros _; eexists; reflexivity.
Qed.

Lemma shutdown_hook_ok env reason removeAllDevices p pf :
  shutdown_ready p = true ->
  p.(platform) = Some pf ->
  env.(onShutdown) pf reason = true ->
  In (CallOnShutdown pf reason) (trace (shutdown env reason removeAllDevices p)) /\
  final (shutdown env reason removeAllDevices p) = clear_transient p /\
  result (shutdown env reason removeAllDevices p) =
    if removeAllDevices && negb (env.(removeAllBridgedDevices) p.(name))
    then Return None else Return (Some (clear_transient p)).
Proof.
  unfold shutdown_ready, shutdown. destruct p; eff_unfold; simpl.
  intros Hready -> Hhook.
  destruct (is_set loaded0), (is_set started0), (is_set configured0);
    try discriminate.
  simpl. rewrite Hhook; simpl.
  destruct removeAllDevices; simpl;
    [destruct (removeAllBridgedDevices env name0); simpl|];
    (split; [right; right; left; reflexivity | split; reflexivity]).
Qed.

(** C2, as amended. A record whose [loaded], [started] and [configured]
    flags are all set and whose platform is bound is shut down: the
    platform's [onShutdown] hook is called and, when it succeeds, every
    transient field and the platform handle are cleared. A record that fails
    one of these four guards (one that is loaded but not started, say) is
    left as it is: the call returns [undefined] after a debug line, and no
    hook is called. *)
Theorem shutdown_preconditions env reason removeAllDevices p :
  (forall pf,
     shutdown_ready p = true ->
     p.(platform) = Some pf ->
     env.(onShutdown) pf reason = true ->
     In (CallOnShutdown pf reason) (trace (shutdown env reason removeAllDevices p)) /\
     final (shutdown env reason removeAllDevices p) = clear_transient p) /\
  (shutdown_ready p = false ->
   result (shutdown env reason removeAllDevices p) = Return None /\
   final (shutdown env reason removeAllDevices p) = p /\
   no_hook_call (trace (shutdown env reason removeAllDevices p)) = true).
Proof.
  split.
  - intros pf Hr Hpf Hok.
    destruct (shutdown_hook_ok env reason removeAllDevices p pf Hr Hpf Hok)
      as (Hin & Hfin & _).
    split; assumption.
  - intros Hr.
    destruct (shutdown_guarded env reason removeAllDevices p Hr) as (why & ->).
    repeat split.
Qed.

Lemma shutdown_preconditions_witness :
  final (shutdown sample_env (Some "bye") true configured_record)
    = clear_transient configured_record /\
  final (shutdown sample_env (Some "bye") true loaded_record) = loaded_record.
Proof.
  split.
  - refine (proj2 (proj1 (shutdown_preconditions sample_env (Some "bye") true
                            configured_record) _ _ _ _));
      reflexivity.
  - refine (proj1 (proj2 (proj2 (shutdown_preconditions sample_env (Some "bye") true
                                   loaded_record) _)));
      reflexivity.
Defined.

(** C2, as the specification states it, fails on a record that is loaded
    but not started: the platform is bound and its hook would succeed, yet
    [shutdown] returns at the second guard, calls no hook and clears
    nothing. *)
Lemma shutdown_of_unstarted_record :
  is_set loaded_record.(loaded) = true /\
  is_set loaded_record.(started) = false /\
  shutdown sample_env (Some "bye") false loaded_record =
    (Return None, loaded_record,
     [Log Debug "Shutting down plugin" (JString "matterbridge-example");
      Log Debug "not started" (JString "matterbridge-example")]) /\
  ~ shutdown_requires_only_loaded.
Proof.
  repeat split.
  intros claim.
  destruct (claim sample_env (Some "bye") false loaded_record
              (match loaded_record.(platform) with
               | Some pf => pf | None => sample_platform end)
              eq_refl eq_refl eq_refl) as [_ H].
  discriminate H.
Qed.

(** C3. When the guards pass and the platform's [onShutdown] hook throws,
    the record is exactly what it was before the call (no flag, counter or
    handle is cleared, [error] is not set) and [shutdown] returns
    [undefined], after the hook was called and the failure was logged. *)
Theorem shutdown_failure_keeps_record env reason removeAllDevices p pf :
  shutdown_ready p = true ->
  p.(platform) = Some pf ->
  env.(onShutdown) pf reason = false ->
  shutdown env reason removeAllDevices p =
    (Return None, p,
     [Log Debug "Shutting down plugin" p.(name);
      Log Info "Shutting down plugin" p.(name);
      CallOnShutdown pf reason;
      Log Error "Failed to shut down plugin" p.(name)]).
Proof.
  unfold shutdown_ready, shutdown. destruct p; eff_unfold; simpl.
  intros Hready -> Hhook.
  destruct (is_set loaded0), (is_set started0), (is_set configured0);
    try discriminate.
  simpl. rewrite Hhook; reflexivity.
Qed.

Lemma shutdown_failure_keeps_record_witness :
  final (shutdown failing_shutdown_env (Some "bye") true configured_record)
    = configured_record /\
  result (shutdown failing_shutdown_env (Some "bye") true configured_record)
    = Return None.
Proof.
  rewrite (shutdown_failure_keeps_record failing_shutdown_env (Some "bye") true
             configured_record
             (match configured_record.(platform) with
              | Some pf => pf | None => sample_platform end)
             eq_refl eq_refl eq_refl).
  split; reflexivity.
Defined.

(** *** Start *)

(** Whatever else holds of the record, a call of [start] on a record whose
    [started] flag is set returns [undefined], logs one error, calls no hook
    and leaves the record as it is. *)
Lemma start_of_started_is_noop env message andConfigure p :
  is_set p.(started) = true ->
  exists why,
    start env message andConfigure p = (Return None, p, [Log Error why p.(name)]).
Proof.
  unfold start. destruct p; eff_unfold; simpl. intros ->.
  destruct (is_set loaded0), platform0; simpl; eexists; reflexivity.
Qed.

(** C4. On a record of the supervisor (one that satisfies the record
    invariant) whose [started] flag is set, [start] reports "already
    started" and returns [undefined]; the trace of the call is that one log
    line, so [onStart] is not called, and the record is unchanged. *)
Theorem start_already_started env message andConfigure p :
  lifecycle_inv p ->
  is_set p.(started) = true ->
  start env message andConfigure p =
    (Return None, p, [Log Error "already started" p.(name)]).
Proof.
  unfold lifecycle_inv, start. destruct p; eff_unfold; simpl.
  intros (_ & Hsl & Hpf) Hs.
  rewrite Hs in *. rewrite (Hsl eq_refl). simpl.
  destruct platform0 as [pf|]; [reflexivity|].
  destruct (Hpf eq_refl) as (_ & H & _); discriminate H.
Qed.

Lemma start_already_started_witness :
  start sample_env (Some "again") true started_record =
    (Return None, started_record,
     [Log Error "already started" (JString "matterbridge-example")]).
Proof.
  apply (start_already_started sample_env (Some "again") true started_record).
  - unfold lifecycle_inv; simpl; intuition congruence.
  - reflexivity.
Defined.

(** *** Load *)

(** A loaded record after [disable] (line 189: [plugin.enabled = false],
    nothing else is touched). *)
Definition disabled_loaded_record : RegisteredPlugin :=
  set_enabled (Some false) loaded_record.

Lemma disable_keeps_platform :
  final (disable sample_env "matterbridge-example"
           [("matterbridge-example", loaded_record)])
  = [("matterbridge-example", disabled_loaded_record)].
Proof. reflexivity. Qed.

(** C5. The two guards of [load], in the order the code tests them
    (lines 295-302). [load] on a record that is not enabled returns
    [undefined] after one error line, binds no platform and changes nothing
    in the record. [load] on a record that passes that guard and whose
    platform is bound returns that platform after one error line, without
    reading the manifest or importing the module again and without changing
    the record. *)
Theorem load_guards env andStart message p :
  (is_set p.(enabled) = false ->
   load env andStart message p =
     (Return None, p, [Log Error "not enabled" p.(name)])) /\
  (forall pf,
     is_set p.(enabled) = true ->
     p.(platform) = Some pf ->
     load env andStart message p =
       (Return (Some pf), p, [Log Error "already loaded" p.(name)])).
Proof.
  unfold load. destruct p; eff_unfold; simpl. split.
  - intros ->. reflexivity.
  - intros pf -> ->. reflexivity.
Qed.

Lemma load_guards_witness :
  result (load sample_env true "" disabled_loaded_record) = Return None /\
  result (load sample_env true "" loaded_record) = Return (loaded_record.(platform)).
Proof.
  split.
  - rewrite (proj1 (load_guards sample_env true "" disabled_loaded_record) eq_refl).
    reflexivity.
  - rewrite (proj2 (load_guards sample_env true "" loaded_record)
               (match loaded_record.(platform) with
                | Some pf => pf | None => sample_platform end)
               eq_refl eq_refl).
    reflexivity.
Defined.

(** A loaded record that was disabled afterwards meets both guards: the
    first one answers, and [load] reports the record as not enabled. *)
Lemma load_of_disabled_loaded_record :
  (exists pf, disabled_loaded_record.(platform) = Some pf) /\
  load sample_env false "" disabled_loaded_record =
    (Return None, disabled_loaded_record,
     [Log Error "not enabled" (JString "matterbridge-example")]).
Proof.
  split; [eexists; reflexivity | reflexivity].
Qed.

End Lifecycle.

(** ** Properties of the resolver and of the registry store *)

Module Store.
Import JS Eff Plugins.
Local Open Scope eff_scope.

(** *** [resolve] *)

(** The path [resolve] settles on before it reads a manifest: the resolved
    candidate when [fs.access] accepts it, the candidate under the global
    modules root otherwise. *)
Definition selected (env : Env) (input : string) : string :=
  let direct := env.(path_resolve) (candidate env input) in
  if env.(fs_access) direct then direct
  else env.(path_join) env.(globalModulesDirectory) (candidate env input).

(** C8, as amended. [resolve] appends [package.json] to an input that does
    not end with it and resolves the candidate; only when that path is not
    accessible does it turn to the candidate joined under the global modules
    root; it returns the path it settled on when the manifest there is
    readable, parseable and declares a name, and [null] otherwise. It never
    throws and leaves the registry alone. *)
Theorem resolve_result env input reg :
  result (resolve env input reg) =
    Return (if manifest_declares_name env (selected env input)
            then Some (selected env input) else None) /\
  final (resolve env input reg) = reg.
Proof.
  unfold resolve, selected, manifest_declares_name, candidate, note.
  destruct (ends_with "package.json" input); simpl;
    Lifecycle.eff_unfold; simpl; Lifecycle.split_match; simpl;
    split; congruence.
Qed.

(** C8, as the specification states it, fails when the first candidate
    exists but does not qualify: [resolve] answers [null] although the
    manifest under the global modules root is readable, parseable and
    declares a name. *)
Lemma resolve_does_not_retry_bad_manifest :
  result (resolve shadowed_env "plugin-a" []) = Return None /\
  resolve_spec shadowed_env "plugin-a"
    = Some "/usr/lib/node_modules/plugin-a/package.json" /\
  ~ (forall env input reg,
       result (resolve env input reg) = Return (resolve_spec env input)).
Proof.
  split; [reflexivity|]. split; [reflexivity|].
  intros claim. specialize (claim shadowed_env "plugin-a" []).
  discriminate claim.
Qed.

(** *** [saveToStorage] *)

Definition identity_keys : list string :=
  ["name"; "path"; "type"; "version"; "description"; "author"; "enabled";
   "qrPairingCode"; "manualPairingCode"].

Definition transient_keys : list string :=
  ["loaded"; "started"; "configured"; "error"; "connected"; "locked";
   "registeredDevices"; "addedDevices"; "platform"; "configJson"; "schemaJson"].

(** A stored record: an object whose keys are the identity keys, in the
    order of the literal, none of them a transient key, also after
    [JSON.stringify] has dropped the keys that are [undefined]. *)
Definition identity_only (record : JSValue) : Prop :=
  exists fields,
    record = JObject fields /\
    map fst fields = identity_keys /\
    (forall k, In k transient_keys -> has_key k fields = false) /\
    (forall k, In k (json_keys fields) -> In k identity_keys).

(** The arrays handed to [nodeContext.set] under the key [plugins]. *)
Fixpoint written (t : list Event) : list JSValue :=
  match t with
  | [] => []
  | StorageSet "plugins" v :: rest => v :: written rest
  | _ :: rest => written rest
  end.

Lemma pushed_is_map (l : list RegisteredPlugin) : forall acc,
  fold_left (fun pushed plugin => pushed ++ [persisted plugin]) l acc
  = acc ++ map persisted l.
Proof.
  induction l as [|x l IH]; simpl; intros acc.
  - now rewrite app_nil_r.
  - rewrite IH, <- app_assoc. reflexivity.
Qed.

Lemma json_keys_incl fields k :
  In k (json_keys fields) -> In k (map fst fields).
Proof.
  unfold json_keys. rewrite in_map_iff. intros ((k', v) & <- & Hin).
  apply filter_In in Hin. apply in_map, Hin.
Qed.

Lemma persisted_identity_only plugin : identity_only (persisted plugin).
Proof.
  unfold identity_only, persisted. eexists. split; [reflexivity|].
  split; [reflexivity|]. split.
  - intros k Hk. simpl in Hk.
    repeat (destruct Hk as [<-|Hk]; [reflexivity|]). contradiction.
  - intros k Hk. apply json_keys_incl in Hk. exact Hk.
Qed.

(** C9. For every registry, [saveToStorage] hands [nodeContext.set] one
    array with one object per record of the registry, in order; each object
    has the nine identity keys and no other (no lifecycle flag, counter,
    platform, configuration or schema), its identity values are those of the
    record, and when the store accepts the array the call returns the number
    of objects written. *)
Theorem saveToStorage_projection env reg :
  exists records,
    written (trace (saveToStorage env reg)) = [JArray records] /\
    records = map persisted (values reg) /\
    Forall identity_only records /\
    List.length records = List.length reg /\
    result (saveToStorage env reg) =
      (if env.(nodeContext_set) "plugins" (JArray records)
       then Return (List.length records) else Throw) /\
    final (saveToStorage env reg) = reg.
Proof.
  exists (map persisted (values reg)).
  unfold saveToStorage, note. Lifecycle.eff_unfold. simpl.
  rewrite pushed_is_map. simpl.
  destruct (nodeContext_set env "plugins" (JArray (map persisted (values reg))));
    simpl; repeat split;
    try (apply Forall_forall; intros r Hr; apply in_map_iff in Hr;
         destruct Hr as (pl & <- & _); apply persisted_identity_only);
    try (unfold values; now rewrite !length_map).
Qed.

End Store.

(** ** Properties of the control protocol dispatcher *)

Module Protocol.
Import JS Eff Plugins Websocket.
Local Open Scope eff_scope.

(** What [JSON.stringify] writes for the object literal handed to
    [client.send]: a property whose value is [undefined] is left out. (The
    numbers of this model are integers; what [JSON.stringify] does with a
    number that is not finite is outside it.) *)
Definition on_wire (reply : list (string * JSValue)) : list (string * JSValue) :=
  filter (fun kv => match snd kv with JUndefined => false | _ => true end) reply.

(** What the wire carries of a value. *)
Definition carried (v : JSValue) : option JSValue :=
  match v with JUndefined => None | _ => Some v end.

(** A reply that is correlated with the request [data]: on the wire it
    echoes the request's [id] and [method], comes from the host and goes to
    the request's [src]. *)
Definition correlated (id method src : JSValue) (reply : list (string * JSValue)) : Prop :=
  lookup "id" (on_wire reply) = carried id /\
  lookup "method" (on_wire reply) = carried method /\
  lookup "src" (on_wire reply) = Some (JString "Matterbridge") /\
  lookup "dst" (on_wire reply) = carried src.

(** A reply that carries, on the wire, exactly one of [response] and
    [error], the error being a string. *)
Definition one_body (reply : list (string * JSValue)) : Prop :=
  (has_key "response" (on_wire reply) = true /\
   has_key "error" (on_wire reply) = false) \/
  (has_key "response" (on_wire reply) = false /\
   exists text, lookup "error" (on_wire reply) = Some (JString text)).

(** What the handler needs of [spawnCommand] for an error reply to carry a
    string: a rejection is an [Error] or a string. *)
Definition rejects_with_text (host : Matterbridge) : Prop :=
  forall command args error,
    host.(spawnCommand) command args = Rejected error ->
    exists text, error_message error = JString text.

(** What the handler forwards from the host is a value: [spawnCommand]
    resolves with something other than [undefined] and rejects with an
    [Error] or a string, and so does [getBaseRegisteredPlugins] resolve. *)
Definition hands_back_values (host : Matterbridge) : Prop :=
  (forall command args response,
     host.(spawnCommand) command args = Resolved response ->
     response <> JUndefined) /\
  rejects_with_text host /\
  host.(getBaseRegisteredPlugins) <> Some JUndefined.

(** A reply is well formed when it is correlated and, on a host that
    hands back values, has one body. *)
Definition well_formed (host : Matterbridge) (id method src : JSValue)
    (reply : list (string * JSValue)) : Prop :=
  correlated id method src reply /\ (hands_back_values host -> one_body reply).

(** No key twice. *)
Fixpoint distinct (keys : list string) : bool :=
  match keys with
  | [] => true
  | k :: rest => negb (existsb (String.eqb k) rest) && distinct rest
  end.

Lemma lookup_absent k (l : list (string * JSValue)) :
  existsb (String.eqb k) (map fst l) = false -> lookup k l = None.
Proof.
  induction l as [|[k' v] l IH]; simpl; [reflexivity|]. intros H.
  apply orb_false_iff in H. destruct H as [Hk Hl].
  rewrite String.eqb_sym, Hk. exact (IH Hl).
Qed.

(** A look-up on the wire is the look-up in the literal, less what is
    [undefined]. *)
Lemma lookup_on_wire k (l : list (string * JSValue)) :
  distinct (map fst l) = true ->
  lookup k (on_wire l) =
    match lookup k l with Some v => carried v | None => None end.
Proof.
  induction l as [|[k' v] l IH]; simpl; [reflexivity|]. intros H.
  apply andb_true_iff in H. destruct H as [Hk Hl].
  apply negb_true_iff in Hk. specialize (IH Hl).
  assert (Hgone : (k' =? k) = true -> lookup k (on_wire l) = None).
  { intros E. apply String.eqb_eq in E. subst k'.
    rewrite IH, (lookup_absent _ _ Hk). reflexivity. }
  unfold on_wire in *. destruct v; simpl;
    destruct (k' =? k) eqn:E; auto.
Qed.

Lemma envelope_correlated id method src extra body :
  distinct (map fst (envelope id method src extra body)) = true ->
  correlated id method src (envelope id method src extra body).
Proof.
  intros H. unfold correlated. rewrite !lookup_on_wire by exact H.
  repeat split.
Qed.

Lemma lookup_last k (extra : list (string * JSValue)) payload :
  distinct (map fst (extra ++ [(k, payload)])) = true ->
  lookup k (extra ++ [(k, payload)]) = Some payload.
Proof.
  induction extra as [|[k0 v] extra IH]; intros H.
  - simpl. rewrite String.eqb_refl. reflexivity.
  - change (negb (existsb (String.eqb k0) (map fst (extra ++ [(k, payload)])))
            && distinct (map fst (extra ++ [(k, payload)])) = true) in H.
    apply andb_true_iff in H. destruct H as [Hk H]. apply negb_true_iff in Hk.
    rewrite map_app, existsb_app in Hk.
    apply orb_false_iff in Hk. destruct Hk as [_ Hk]. simpl in Hk.
    apply orb_false_iff in Hk. destruct Hk as [Hk _].
    simpl. rewrite Hk. exact (IH H).
Qed.

Lemma response_one_body id method src extra payload :
  distinct (map fst (envelope id method src extra ("response", payload))) = true ->
  existsb (String.eqb "error") (map fst extra) = false ->
  payload <> JUndefined ->
  one_body (envelope id method src extra ("response", payload)).
Proof.
  intros H Hextra Hpayload. left. unfold has_key.
  rewrite !lookup_on_wire by exact H.
  assert (Hd : distinct (map fst (extra ++ [("response", payload)])) = true).
  { unfold envelope in H.
    change (distinct ("id" :: "method" :: "src" :: "dst"
                      :: map fst (extra ++ [("response", payload)])) = true) in H.
    simpl in H. repeat (apply andb_true_iff in H; destruct H as [_ H]). exact H. }
  change (lookup "response" (envelope id method src extra ("response", payload)))
    with (lookup "response" (extra ++ [("response", payload)])).
  change (lookup "error" (envelope id method src extra ("response", payload)))
    with (lookup "error" (extra ++ [("response", payload)])).
  rewrite (lookup_last _ _ _ Hd).
  rewrite (lookup_absent "error" (extra ++ [("response", payload)]))
    by (rewrite map_app, existsb_app, Hextra; reflexivity).
  split; [|reflexivity].
  destruct payload; try reflexivity. contradiction.
Qed.

Lemma error_one_body id method src text :
  one_body (envelope id method src [] ("error", JString text)).
Proof.
  right. unfold has_key. rewrite !lookup_on_wire by reflexivity.
  split; [reflexivity | eexists; reflexivity].
Qed.

Lemma response_well_formed host id method src extra payload :
  distinct (map fst (envelope id method src extra ("response", payload))) = true ->
  existsb (String.eqb "error") (map fst extra) = false ->
  payload <> JUndefined ->
  well_formed host id method src (envelope id method src extra ("response", payload)).
Proof.
  intros H He Hp. split; [apply envelope_correlated; exact H|].
  intros _. apply response_one_body; assumption.
Qed.

Lemma error_well_formed host id method src text :
  well_formed host id method src (envelope id method src [] ("error", JString text)).
Proof.
  split; [apply envelope_correlated; reflexivity | intros _; apply error_one_body].
Qed.

Lemma get_prop_field data k :
  nullish data = false -> get_prop data k = Some (field data k).
Proof. unfold field. destruct data; simpl; intros H; try discriminate; reflexivity. Qed.

Lemma is_string_eq v text :
  strict_eq v (JString text) = true -> v = JString text.
Proof.
  destruct v; simpl; try discriminate. intros H. apply String.eqb_eq in H. now subst.
Qed.

Ltac ws_unfold :=
  unfold final, result, trace, assign, storage_get_opt, when, succeed, attempt, emit,
    modify, get, throw, try_catch, bind, ret in *.

(** A reply built by [envelope] with concrete keys and a body the handler
    words itself is well formed by evaluation of the look-ups. *)
Ltac envelope_ok :=
  first [ apply error_well_formed
        | apply response_well_formed;
          [reflexivity | reflexivity | discriminate] ].

Ltac replies :=
  simpl;
  repeat match goal with
    | |- Forall _ [] => constructor
    | |- Forall _ (_ :: _) => constructor
    | |- well_formed _ _ _ _ (envelope _ _ _ _ _) => envelope_ok
    end.

(** The replies of a nested call that case analysis has named. *)
Ltac by_branch L :=
  match goal with
  | H : ?call = (_, _, ?t) |- Forall _ (sent ?t) =>
      replace t with (trace call) by (rewrite H; reflexivity); apply L
  end.

Section Dispatcher.
Variable isValidNumber : JSValue -> option Z -> bool.
Variable isValidString : JSValue -> option nat -> bool.
Variable isValidObject : JSValue -> bool.
Variable JSON_parse : string -> option JSValue.

Abbreviation handler := (wsMessageHandler isValidNumber isValidString isValidObject JSON_parse).
Abbreviation invalid := (invalid_message isValidNumber isValidString isValidObject).

Lemma login_replies host id method src params info :
  Forall (well_formed host id method src)
    (sent (trace (login host id method src params info))).
Proof.
  unfold login. ws_unfold. Lifecycle.split_match; replies.
Qed.

Lemma npm_replies host id method src params wrong args info :
  Forall (well_formed host id method src)
    (sent (trace (npm isValidString host id method src params wrong args info))).
Proof.
  unfold npm. ws_unfold. Lifecycle.split_match; replies.
  - split; [apply envelope_correlated; reflexivity|].
    intros (Hresolved & _ & _).
    apply response_one_body; [reflexivity | reflexivity | eauto].
  - split; [apply envelope_correlated; reflexivity|].
    intros (_ & Hrejected & _).
    match goal with H : spawnCommand _ _ _ = Rejected _ |- _ =>
      destruct (Hrejected _ _ _ H) as (text & ->) end.
    apply error_one_body.
Qed.

Lemma settings_replies host id method src info :
  Forall (well_formed host id method src)
    (sent (trace (settings host id method src info))).
Proof.
  unfold settings. ws_unfold. Lifecycle.split_match; replies.
Qed.

Lemma clusters_replies host id method src params info :
  Forall (well_formed host id method src)
    (sent (trace (clusters_of isValidNumber isValidString host id method src params info))).
Proof.
  unfold clusters_of. ws_unfold. Lifecycle.split_match; replies.
Qed.

Lemma select_replies host id method src params wrong missing selection info :
  Forall (well_formed host id method src)
    (sent (trace (select isValidString host id method src params wrong missing
                    selection info))).
Proof.
  unfold select. ws_unfold. Lifecycle.split_match; replies.
Qed.

Lemma dispatch_replies host data info :
  nullish data = false ->
  invalid (field data "id") (field data "dst") (field data "src")
          (field data "method") (field data "params") = false ->
  Forall (well_formed host (field data "id") (field data "method") (field data "src"))
    (sent (trace (dispatch isValidNumber isValidString isValidObject host data info))).
Proof.
  intros Hdata Hvalid. unfold dispatch.
  rewrite !(get_prop_field data) by exact Hdata.
  ws_unfold. simpl. rewrite Hvalid.
  Lifecycle.split_match; replies;
    first [ by_branch login_replies
          | by_branch npm_replies
          | by_branch settings_replies
          | by_branch clusters_replies
          | by_branch select_replies
          | idtac ].
  split; [apply envelope_correlated; reflexivity|].
  intros (_ & _ & Hplugins).
  apply response_one_body; [reflexivity | reflexivity | congruence].
Qed.

(** Nothing unwinds past the handler: whatever the message, the host and
    the helpers are, [wsMessageHandler] returns. *)
Lemma handler_returns host message info :
  result (handler host message info) = Return tt.
Proof.
  unfold wsMessageHandler, try_catch, result, emit.
  destruct (bind _ _ info) as [[[[]|] info'] t]; reflexivity.
Qed.

(** The request passes the test of line 70. *)
Definition passes_validation (data : JSValue) : bool :=
  negb (nullish data)
  && negb (invalid (field data "id") (field data "dst") (field data "src")
                   (field data "method") (field data "params")).

Definition unknown_method (method : JSValue) : bool :=
  forallb (fun m => negb (is_method method m)) known_methods.


(** C7, as amended. For every parsed envelope (a value with properties:
    anything but [null]) that fails the test of line 70 (the validator
    rejects its [id], [dst], [src], [method] or [params], or its [dst] is
    not ['Matterbridge']), the handler logs the message, sends exactly one
    envelope, which carries the request's [id] and [method], [src]
    ['Matterbridge'], [dst] the request's [src] and the error ['Invalid
    message'], and returns; nothing else happens. An envelope that passes
    the test is routed to its method and is not answered that way: what a
    valid number, string or object is the validators alone decide. *)
Theorem invalid_envelope_rejected host message data info :
  JSON_parse message = Some data ->
  nullish data = false ->
  (isValidNumber (field data "id") None = false \/
   isValidString (field data "dst") None = false \/
   isValidString (field data "src") None = false \/
   isValidString (field data "method") None = false \/
   isValidObject (field data "params") = false \/
   field data "dst" <> JString "Matterbridge" ->
   handler host message info =
     (Return tt, info,
      [WsLog Error "Invalid message from websocket client";
       Send [("id", field data "id"); ("method", field data "method");
             ("src", JString "Matterbridge"); ("dst", field data "src");
             ("error", JString "Invalid message")]])) /\
  (isValidNumber (field data "id") None = true ->
   isValidString (field data "dst") None = true ->
   isValidString (field data "src") None = true ->
   isValidString (field data "method") None = true ->
   isValidObject (field data "params") = true ->
   field data "dst" = JString "Matterbridge" ->
   exists routed,
     trace (handler host message info)
       = WsLog Debug "Received message from websocket client" :: routed).
Proof.
  intros Hparse Hdata. split.
  - intros Hfails.
    assert (Hinvalid : invalid (field data "id") (field data "dst") (field data "src")
                         (field data "method") (field data "params") = true).
    { unfold invalid_message.
      destruct Hfails as [H | [H | [H | [H | [H | H]]]]];
        try (rewrite H; simpl; rewrite ?orb_true_r; reflexivity).
      destruct (strict_eq (field data "dst") (JString "Matterbridge")) eqn:E.
      - apply is_string_eq in E. contradiction.
      - simpl. rewrite ?orb_true_r. reflexivity. }
    unfold wsMessageHandler, dispatch. rewrite Hparse.
    ws_unfold. simpl. rewrite !(get_prop_field data) by exact Hdata.
    simpl. rewrite Hinvalid. reflexivity.
  - intros Hid Hdst Hsrc Hmethod Hparams Hto.
    assert (Hvalid : invalid (field data "id") (field data "dst") (field data "src")
                       (field data "method") (field data "params") = false).
    { unfold invalid_message.
      rewrite Hid, Hdst, Hsrc, Hmethod, Hparams, Hto. reflexivity. }
    unfold wsMessageHandler, try_catch, bind, attempt, ret, emit, trace.
    rewrite Hparse.
    assert (Hd : exists o info' routed,
              dispatch isValidNumber isValidString isValidObject host data info
              = (o, info', WsLog Debug "Received message from websocket client"
                           :: routed)).
    { unfold dispatch. rewrite !(get_prop_field data) by exact Hdata.
      unfold bind at 1 2 3 4 5, attempt, ret. simpl. rewrite Hvalid.
      unfold bind at 1, emit.
      match goal with
      | |- context [let (_, _) := ?m info in _] =>
          destruct (m info) as [[o info'] routed]
      | |- context [match ?m info with _ => _ end] =>
          destruct (m info) as [[o info'] routed]
      end.
      do 3 eexists. reflexivity. }
    destruct Hd as (o & info' & routed & ->).
    destruct o as [[]|]; simpl; eexists; reflexivity.
Qed.

(** A message that parses to [null] has no properties: reading its [id]
    throws, the [catch] logs, and no reply is sent. *)
Lemma null_message_unanswered host message info :
  JSON_parse message = Some JNull ->
  handler host message info =
    (Return tt, info, [WsLog Error "Error parsing message from websocket client"]).
Proof.
  intros Hparse. unfold wsMessageHandler, dispatch. rewrite Hparse. reflexivity.
Qed.

(** C10. For a validated [/api/login] request on a host whose node context
    answers with the stored password: when the stored password is the empty
    string the one reply is [{valid: true}], whatever [params] holds;
    otherwise the one reply is [{valid: true}] when [params.password] is
    strictly equal to the stored password and the error ['Wrong password']
    when it is not. *)
Theorem login_checks_stored_password host message data info storage stored :
  JSON_parse message = Some data ->
  passes_validation data = true ->
  field data "method" = JString "/api/login" ->
  host.(nodeContext) = Some storage ->
  storage.(storage_get) "password" (Some (JString "")) = Some stored ->
  let accepted :=
    envelope (field data "id") (JString "/api/login") (field data "src") []
      ("response", JObject [("valid", JBool true)]) in
  let refused :=
    envelope (field data "id") (JString "/api/login") (field data "src") []
      ("error", JString "Wrong password") in
  (stored = JString "" ->
   sent (trace (handler host message info)) = [accepted]) /\
  (stored <> JString "" ->
   forall password,
     get_prop (field data "params") "password" = Some password ->
     sent (trace (handler host message info)) =
       [if strict_eq stored password then accepted else refused]).
Proof.
  intros Hparse Hpass Hmethod Hctx Hget. cbv zeta. unfold passes_validation in Hpass.
  apply andb_true_iff in Hpass. destruct Hpass as [Hdata Hvalid].
  apply negb_true_iff in Hdata. apply negb_true_iff in Hvalid.
  unfold wsMessageHandler, dispatch, login. rewrite Hparse.
  ws_unfold. simpl. rewrite !(get_prop_field data) by exact Hdata.
  simpl. rewrite Hvalid, Hmethod. simpl. rewrite Hctx. simpl. rewrite Hget. simpl.
  split.
  - intros ->. reflexivity.
  - intros Hne password Hpw.
    destruct (strict_eq stored (JString "")) eqn:Hempty.
    + apply is_string_eq in Hempty. contradiction.
    + simpl. rewrite Hpw. simpl. destruct (strict_eq stored password); reflexivity.
Qed.

End Dispatcher.

(** *** The properties on the sample host *)

Abbreviation sample_handler :=
  (wsMessageHandler spec_isValidNumber spec_isValidString spec_isValidObject sample_parse).

Lemma sample_host_rejects_with_text password : rejects_with_text (sample_host password).
Proof.
  unfold rejects_with_text. intros command args error H. simpl in H.
  injection H as <-. eexists; reflexivity.
Qed.

Lemma sample_host_hands_back_values password : hands_back_values (sample_host password).
Proof.
  split; [|split].
  - intros command args response H. discriminate H.
  - apply sample_host_rejects_with_text.
  - discriminate.
Qed.


(** The sample host with a [spawnCommand] that settles as given. *)
Definition settling_host (settled : Settled) : Matterbridge :=
  let host := sample_host (JString "") in
  {| nodeContext := host.(nodeContext);
     spawnCommand := fun _ _ => settled;
     restartProcess := host.(restartProcess);
     shutdownProcess := host.(shutdownProcess);
     bridgeMode := host.(bridgeMode);
     restartMode := host.(restartMode);
     logLevel := host.(logLevel);
     matterLogLevel := host.(matterLogLevel);
     matterbridgePaired := host.(matterbridgePaired);
     matterbridgeConnected := host.(matterbridgeConnected);
     matterbridgeQrPairingCode := host.(matterbridgeQrPairingCode);
     matterbridgeManualPairingCode := host.(matterbridgeManualPairingCode);
     matterbridgeFabricInformations := host.(matterbridgeFabricInformations);
     matterbridgeSessionInformations := host.(matterbridgeSessionInformations);
     profile := host.(profile);
     systemInformation := host.(systemInformation);
     getBaseRegisteredPlugins := host.(getBaseRegisteredPlugins);
     devices := host.(devices);
     plugins := host.(plugins);
     sort_by_name := host.(sort_by_name) |}.

(** A parser that knows an install request and a ping from nobody. *)
Definition edge_parse (message : string) : option JSValue :=
  if message =? "install" then
    Some (request 5 "/api/install" [("packageName", JString "matterbridge-example")])
  else if message =? "anonymous" then
    Some (JObject [("id", JNumber 3); ("dst", JString "Matterbridge");
                   ("src", JString ""); ("method", JString "ping");
                   ("params", JObject [])])
  else None.

Abbreviation edge_handler :=
  (wsMessageHandler spec_isValidNumber spec_isValidString spec_isValidObject edge_parse).


Lemma invalid_envelope_rejected_witness :
  sample_handler (sample_host (JString "")) "misaddressed" [] =
    (Return tt, [],
     [WsLog Error "Invalid message from websocket client";
      Send [("id", JNumber 9); ("method", JString "ping");
            ("src", JString "Matterbridge"); ("dst", JString "Frontend");
            ("error", JString "Invalid message")]]).
Proof.
  refine (proj1 (invalid_envelope_rejected spec_isValidNumber spec_isValidString
                   spec_isValidObject sample_parse (sample_host (JString ""))
                   "misaddressed"
                   (JObject [("id", JNumber 9); ("dst", JString "Somebody");
                             ("src", JString "Frontend"); ("method", JString "ping");
                             ("params", JObject [])]) [] eq_refl eq_refl) _).
  do 5 right. discriminate.
Defined.

(** [isValidString] as its two uses in the handler read: line 70 hands it
    a value only, line 97 a value and a minimum length. This validator asks
    for a string, and for a length only where a minimum is given.
    [utils/utils.js], where the validators are, is not among the sources. *)
Definition typed_isValidString (v : JSValue) (minLength : option nat) : bool :=
  match v with
  | JString s =>
      match minLength with
      | Some m => (m <=? String.length s)%nat
      | None => true
      end
  | _ => false
  end.

(** C7, as the specification states it, counts a [src] that is an empty
    string among the failures. The handler has no test of its own for that:
    with a validator that takes any string where no minimum length is
    given, a ping whose [src] is empty passes the test of line 70 and is
    answered with a pong addressed to the empty string, not with an error. *)
Lemma empty_src_is_answered :
  field (JObject [("id", JNumber 3); ("dst", JString "Matterbridge");
                  ("src", JString ""); ("method", JString "ping");
                  ("params", JObject [])]) "src" = JString "" /\
  wsMessageHandler spec_isValidNumber typed_isValidString spec_isValidObject edge_parse
    (sample_host (JString "")) "anonymous" [] =
    (Return tt, [],
     [WsLog Debug "Received message from websocket client";
      Send (envelope (JNumber 3) (JString "ping") (JString "") []
              ("response", JString "pong"))]).
Proof.
  split; reflexivity.
Qed.

Lemma login_checks_stored_password_witness :
  sent (trace (sample_handler (sample_host (JString "")) "login" [])) =
    [[("id", JNumber 7); ("method", JString "/api/login");
      ("src", JString "Matterbridge"); ("dst", JString "Frontend");
      ("response", JObject [("valid", JBool true)])]] /\
  sent (trace (sample_handler (sample_host (JString "other")) "login" [])) =
    [[("id", JNumber 7); ("method", JString "/api/login");
      ("src", JString "Matterbridge"); ("dst", JString "Frontend");
      ("error", JString "Wrong password")]].
Proof.
  split.
  - refine (proj1 (login_checks_stored_password spec_isValidNumber spec_isValidString
                     spec_isValidObject sample_parse (sample_host (JString "")) "login"
                     (request 7 "/api/login" [("password", JString "secret")]) []
                     _ (JString "") _ _ _ _ _) _);
      reflexivity.
  - refine (proj2 (login_checks_stored_password spec_isValidNumber spec_isValidString
                     spec_isValidObject sample_parse (sample_host (JString "other"))
                     "login"
                     (request 7 "/api/login" [("password", JString "secret")]) []
                     _ (JString "other") _ _ _ _ _) _ (JString "secret") _);
      try reflexivity.
    discriminate.
Defined.

End Protocol.

(** ** More properties of the lifecycle operations *)

Module LifecycleFacts.
Import JS Eff Plugins.
Local Open Scope eff_scope.

(** The record without the three fields [start] and [configure] write. *)
Definition without_progress (p : RegisteredPlugin) : RegisteredPlugin :=
  set_started None (set_configured None (set_error None p)).

Lemma without_progress_set_error v p :
  without_progress (set_error v p) = without_progress p.
Proof. reflexivity. Qed.

Lemma without_progress_set_started v p :
  without_progress (set_started v p) = without_progress p.
Proof. reflexivity. Qed.

Lemma without_progress_set_configured v p :
  without_progress (set_configured v p) = without_progress p.
Proof. reflexivity. Qed.

Lemma configure_progress_only env p :
  without_progress (final (configure env p)) = without_progress p /\
  result (configure env p) <> Throw.
Proof.
  destruct p; unfold configure; Lifecycle.run_all;
    (split; [reflexivity | discriminate]).
Qed.

Lemma configure_keeps_started env p :
  (final (configure env p)).(started) = p.(started).
Proof.
  destruct p; unfold configure; Lifecycle.run_all; reflexivity.
Qed.

(** The run of a callee that case analysis has named, as a fact about its
    final record. *)
Ltac callee_final L :=
  match goal with
  | H : ?call = (_, ?r, _) |- _ =>
      let Hc := fresh "Hcallee" in
      pose proof L as Hc; rewrite H in Hc; unfold final, result in Hc; simpl in Hc
  end.

Lemma start_progress_only env message andConfigure p :
  without_progress (final (start env message andConfigure p)) = without_progress p /\
  result (start env message andConfigure p) <> Throw.
Proof.
  destruct p; unfold start; destruct andConfigure; Lifecycle.run_all;
    try (split; [reflexivity | discriminate]);
    match goal with
    | H : configure ?e ?x = _ |- _ =>
        callee_final (configure_progress_only e x)
    end;
    destruct Hcallee as [Hcallee _];
    rewrite ?without_progress_set_error, Hcallee, without_progress_set_started;
    (split; [reflexivity | discriminate]).
Qed.

Lemma shutdown_never_throws env reason removeAllDevices p :
  result (shutdown env reason removeAllDevices p) <> Throw.
Proof.
  destruct p; unfold shutdown; destruct removeAllDevices; Lifecycle.run_all;
    discriminate.
Qed.

(** X1. [load] on an enabled record with no platform bound never throws;
    when it returns a platform, that platform is bound to the record,
    [loaded] is set and both device counters are zero; when it returns
    [undefined], the record's [error] flag is set. *)
Theorem load_outcome env andStart message p :
  is_set p.(enabled) = true ->
  p.(platform) = None ->
  match result (load env andStart message p) with
  | Return (Some pf) =>
      (final (load env andStart message p)).(platform) = Some pf /\
      is_set (final (load env andStart message p)).(loaded) = true /\
      (final (load env andStart message p)).(registeredDevices) = Some 0%Z /\
      (final (load env andStart message p)).(addedDevices) = Some 0%Z
  | Return None => is_set (final (load env andStart message p)).(error) = true
  | Throw => False
  end.
Proof.
  destruct p; simpl. intros He ->.
  unfold load, stamp_platform, bind_platform; destruct andStart;
    Lifecycle.eff_unfold; simpl; rewrite He; simpl;
    Lifecycle.split_match; simpl; auto;
    match goal with
    | H : start ?e ?m ?c ?x = _ |- _ =>
        callee_final (start_progress_only e m c x)
    end;
    destruct Hcallee as [Hsame Hthrow]; try congruence;
    apply (f_equal (fun q => (q.(platform), q.(loaded), q.(registeredDevices),
                              q.(addedDevices)))) in Hsame;
    destruct r; simpl in Hsame; injection Hsame as -> -> -> ->; auto.
Qed.

Lemma load_outcome_witness :
  is_set (final (load sample_env true "hello" sample_record)).(loaded) = true.
Proof.
  exact (proj1 (proj2 (load_outcome sample_env true "hello" sample_record
                         eq_refl eq_refl))).
Defined.

(** X2. On a record that is loaded, bound and not yet started: when
    [onStart] throws, [start] sets [error], leaves [started] unset, does not
    go on to configure and returns [undefined]; when [onStart] succeeds,
    [started] is set and the record is returned, whether or not the
    configuration that may follow succeeds. *)
Theorem start_outcome env message andConfigure p pf :
  is_set p.(loaded) = true ->
  p.(platform) = Some pf ->
  is_set p.(started) = false ->
  (env.(onStart) pf message = false ->
   start env message andConfigure p =
     (Return None, set_error (Some true) p,
      [Log Info "Starting plugin" p.(name); CallOnStart pf message;
       Log Error "Failed to start plugin" p.(name)])) /\
  (env.(onStart) pf message = true ->
   is_set (final (start env message andConfigure p)).(started) = true /\
   result (start env message andConfigure p)
     = Return (Some (final (start env message andConfigure p)))).
Proof.
  destruct p; simpl. intros Hl -> Hs. unfold start.
  Lifecycle.eff_unfold; simpl. rewrite Hl, Hs; simpl. split; intros ->; simpl.
  - reflexivity.
  - destruct andConfigure; simpl; [|split; reflexivity].
    match goal with
    | |- context [configure ?e ?x] =>
        pose proof (configure_keeps_started e x) as Hstarted;
        destruct (configure_progress_only e x) as [_ Hthrow];
        destruct (configure e x) as [[[a|] r] t]
    end; unfold final, result in *; simpl in *; [|congruence].
    rewrite Hstarted. split; reflexivity.
Qed.

Lemma start_outcome_witness :
  is_set (final (start sample_env None true loaded_record)).(started) = true.
Proof.
  exact (proj1 (proj2 (start_outcome sample_env None true loaded_record
                         (match loaded_record.(platform) with
                          | Some pf => pf | None => sample_platform end)
                         eq_refl eq_refl eq_refl) eq_refl)).
Defined.

(** X3. On a record that is loaded, started, bound and not yet
    configured: when [onConfigure] throws, [configure] sets [error] and
    changes nothing else, so the plugin stays started and unconfigured (no
    roll-back), and returns [undefined]; when [onConfigure] succeeds,
    [configured] is set before the configuration is saved, and stays set
    even if saving throws. *)
Theorem configure_outcome env p pf :
  is_set p.(loaded) = true ->
  is_set p.(started) = true ->
  p.(platform) = Some pf ->
  is_set p.(configured) = false ->
  (env.(onConfigure) pf = false ->
   configure env p =
     (Return None, set_error (Some true) p,
      [Log Info "Configuring plugin" p.(name); CallOnConfigure pf;
       Log Error "Failed to configure plugin" p.(name)])) /\
  (env.(onConfigure) pf = true ->
   final (configure env p) =
     (if env.(savePluginConfig) (set_configured (Some true) p)
      then set_configured (Some true) p
      else set_error (Some true) (set_configured (Some true) p)) /\
   result (configure env p) =
     (if env.(savePluginConfig) (set_configured (Some true) p)
      then Return (Some (set_configured (Some true) p)) else Return None)).
Proof.
  destruct p; simpl. intros Hl Hs -> Hc. unfold configure.
  Lifecycle.eff_unfold; simpl. rewrite Hl, Hs, Hc; simpl. split; intros ->; simpl.
  - reflexivity.
  - match goal with |- context [savePluginConfig ?e ?x] =>
      destruct (savePluginConfig e x) end; split; reflexivity.
Qed.

Lemma configure_outcome_witness :
  final (configure sample_env started_record)
    = set_configured (Some true) started_record.
Proof.
  exact (proj1 (proj2 (configure_outcome sample_env started_record
                         (match started_record.(platform) with
                          | Some pf => pf | None => sample_platform end)
                         eq_refl eq_refl eq_refl eq_refl) eq_refl)).
Defined.

(** X4. [start] with [configure = true] on a record whose start hook runs
    and succeeds is [start] followed by [configure]: the same final record
    and the same trace. *)
Theorem start_with_configure_is_sequence env message p pf :
  is_set p.(loaded) = true ->
  p.(platform) = Some pf ->
  is_set p.(started) = false ->
  env.(onStart) pf message = true ->
  final (start env message true p)
    = final (configure env (final (start env message false p))) /\
  trace (start env message true p)
    = trace (start env message false p)
      ++ trace (configure env (final (start env message false p))).
Proof.
  destruct p; simpl. intros Hl -> Hs Hok. unfold start.
  Lifecycle.eff_unfold; simpl. rewrite Hl, Hs, Hok; simpl.
  match goal with
  | |- context [configure ?e ?x] =>
      destruct (configure_progress_only e x) as [_ Hthrow];
      destruct (configure e x) as [[[a|] r] t]
  end; unfold result in Hthrow; simpl in *; [|congruence].
  split; rewrite ?app_nil_r; reflexivity.
Qed.

Lemma start_with_configure_is_sequence_witness :
  final (start sample_env None true loaded_record) = configured_record.
Proof.
  exact (proj1 (start_with_configure_is_sequence sample_env None loaded_record
                  (match loaded_record.(platform) with
                   | Some pf => pf | None => sample_platform end)
                  eq_refl eq_refl eq_refl eq_refl)).
Defined.

(** X5. [load] with [start = true] that returns a platform from a record
    that had none is [load] followed by [start] with that message: the same
    final record. *)
Theorem load_with_start_is_sequence env message p pf :
  p.(platform) = None ->
  result (load env false message p) = Return (Some pf) ->
  final (load env true message p)
    = final (start env (Some message) false (final (load env false message p))) /\
  result (load env true message p) = Return (Some pf).
Proof.
  destruct p; simpl. intros ->. unfold load, stamp_platform, bind_platform.
  Lifecycle.eff_unfold; simpl.
  Lifecycle.split_match; simpl; try discriminate; intros Hres; try discriminate;
    try (split; [reflexivity | congruence]).
  match goal with
  | H : start ?e ?m ?c ?x = _ |- _ => callee_final (start_progress_only e m c x)
  end.
  destruct Hcallee as [_ Hthrow]. congruence.
Qed.


Lemma load_with_start_is_sequence_witness :
  final (load sample_env true "hello" sample_record)
    = final (start sample_env (Some "hello") false loaded_record).
Proof.
  exact (proj1 (load_with_start_is_sequence sample_env "hello" sample_record
                  (match loaded_record.(platform) with
                   | Some pf => pf | None => sample_platform end)
                  eq_refl eq_refl)).
Defined.

(** What [enable], [disable] and the pairing of a plugin write, and where
    the plugin lives: the part of the stored record no lifecycle operation
    owns. *)
Definition registration (p : RegisteredPlugin)
  : string * option bool * option string * option string :=
  (p.(path), p.(enabled), p.(qrPairingCode), p.(manualPairingCode)).

Lemma shutdown_final env reason removeAllDevices p :
  final (shutdown env reason removeAllDevices p) = p \/
  final (shutdown env reason removeAllDevices p) = clear_transient p.
Proof.
  destruct p; unfold shutdown; destruct removeAllDevices; Lifecycle.run_all; auto.
Qed.

Lemma load_keeps_registration env andStart message p :
  registration (final (load env andStart message p)) = registration p.
Proof.
  destruct p. unfold load, stamp_platform, bind_platform; destruct andStart;
    Lifecycle.run_all; try reflexivity;
    match goal with
    | H : start ?e ?m ?c ?x = _ |- _ => callee_final (start_progress_only e m c x)
    end;
    destruct Hcallee as [Hsame _];
    apply (f_equal registration) in Hsame; exact Hsame.
Qed.

(** X6. No lifecycle operation changes a record's path, its [enabled]
    flag or its pairing codes, and [start], [configure] and [shutdown] change
    nothing of what [saveToStorage] writes for the record: only [load]
    rewrites stored identity (name, type, version, description, author). *)
Theorem lifecycle_keeps_registration op p :
  registration (perform op p) = registration p /\
  match op with
  | Load _ _ _ => True
  | _ => persisted (perform op p) = persisted p
  end.
Proof.
  destruct op as [env andStart message|env message andConfigure|env|env reason rm];
    simpl.
  - split; [apply load_keeps_registration | exact I].
  - destruct (start_progress_only env message andConfigure p) as [Hsame _].
    split; [apply (f_equal registration) in Hsame
           |apply (f_equal persisted) in Hsame]; exact Hsame.
  - destruct (configure_progress_only env p) as [Hsame _].
    split; [apply (f_equal registration) in Hsame
           |apply (f_equal persisted) in Hsame]; exact Hsame.
  - destruct (shutdown_final env reason rm p) as [-> | ->]; split; reflexivity.
Qed.

(** X7. On a record of the supervisor (one that satisfies the record
    invariant) whose [configured] flag is set, [configure] logs "already
    configured" at debug level and returns [undefined]: the hook is not
    called again, nothing is saved and the record is unchanged. *)
Theorem configure_already_configured env p :
  lifecycle_inv p ->
  is_set p.(configured) = true ->
  configure env p = (Return None, p, [Log Debug "already configured" p.(name)]).
Proof.
  unfold lifecycle_inv, configure. destruct p; Lifecycle.eff_unfold; simpl.
  intros (Hcs & Hsl & Hpf) Hc.
  rewrite Hc in *. rewrite (Hsl (Hcs eq_refl)), (Hcs eq_refl). simpl.
  destruct platform0 as [pf|]; [reflexivity|].
  destruct (Hpf eq_refl) as (_ & _ & H); discriminate H.
Qed.

Lemma configure_already_configured_witness :
  configure failing_shutdown_env configured_record =
    (Return None, configured_record,
     [Log Debug "already configured" (JString "matterbridge-example")]).
Proof.
  apply (configure_already_configured failing_shutdown_env configured_record).
  - unfold lifecycle_inv; simpl; intuition congruence.
  - reflexivity.
Defined.

End LifecycleFacts.

(** ** Properties of the registry operations *)

Module ManagerFacts.
Import JS Eff Plugins Manager.
Local Open Scope eff_scope.

Ltac rm_unfold :=
  unfold final, result, trace, note, read_json, when, succeed, attempt, emit,
    modify, get, throw, try_catch, bind, ret in *.

(** *** Runs of [resolve] and [saveToStorage] *)

(** The values handed to [nodeContext.set], in order. *)
Definition saved (t : list Event) : list JSValue :=
  flat_map (fun e => match e with StorageSet _ v => [v] | _ => [] end) t.

Lemma saved_app t t' : saved (t ++ t') = saved t ++ saved t'.
Proof. apply flat_map_app. Qed.

Arguments saved : simpl never.

Lemma resolve_run env input reg :
  exists t,
    resolve env input reg =
      (Return (if manifest_declares_name env (Store.selected env input)
               then Some (Store.selected env input) else None), reg, t) /\
    saved t = [].
Proof.
  unfold resolve, Store.selected, manifest_declares_name, candidate.
  destruct (ends_with "package.json" input); simpl;
    rm_unfold; simpl; Lifecycle.split_match; simpl; try congruence;
    eexists; (split; [reflexivity | reflexivity]).
Qed.

Definition stored_array (reg : Registry) : JSValue :=
  JArray (map persisted (values reg)).

Lemma saveToStorage_run env reg :
  saveToStorage env reg =
    if env.(nodeContext_set) "plugins" (stored_array reg)
    then (Return (List.length reg), reg,
          [StorageSet "plugins" (stored_array reg);
           Log Debug "Saved plugins to storage" (JNumber (Z.of_nat (List.length reg)))])
    else (Throw, reg, [StorageSet "plugins" (stored_array reg)]).
Proof.
  unfold saveToStorage, stored_array. rm_unfold. simpl.
  rewrite Store.pushed_is_map. simpl.
  destruct (nodeContext_set env "plugins" _); simpl;
    unfold values; rewrite ?length_map; reflexivity.
Qed.

(** *** The map *)

Lemma registry_get_none_set k p reg :
  registry_get (JString k) reg = None -> registry_set k p reg = reg ++ [(k, p)].
Proof.
  unfold registry_get. induction reg as [|[k' v] reg IH]; simpl; [reflexivity|].
  destruct (k' =? k); [discriminate|]. intros H. now rewrite IH.
Qed.

Lemma registry_get_set k k' p reg :
  registry_get (JString k') (registry_set k p reg) =
    if k =? k' then Some p else registry_get (JString k') reg.
Proof.
  unfold registry_get. induction reg as [|[k0 v] reg IH]; simpl.
  - destruct (k =? k'); reflexivity.
  - destruct (k0 =? k) eqn:E0; simpl.
    + apply String.eqb_eq in E0. subst k0. destruct (k =? k'); reflexivity.
    + destruct (k0 =? k') eqn:E1; simpl.
      * apply String.eqb_eq in E1. subst k0. rewrite String.eqb_sym, E0. reflexivity.
      * exact IH.
Qed.

Lemma registry_get_app_new k p reg :
  registry_get (JString k) reg = None ->
  registry_get (JString k) (reg ++ [(k, p)]) = Some p.
Proof.
  intros H. rewrite <- (registry_get_none_set k p reg H), registry_get_set.
  now rewrite String.eqb_refl.
Qed.

Lemma new_record_fresh packageJson file record :
  new_record packageJson file = Some record ->
  record.(enabled) = Some true /\ record.(platform) = None /\
  record.(path) = file /\ record.(type) = JString "" /\
  Some record.(name) = get_prop packageJson "name" /\
  LifecycleFacts.without_progress record = record.
Proof.
  unfold new_record.
  destruct (get_prop packageJson "name"), (get_prop packageJson "version"),
    (get_prop packageJson "description"), (get_prop packageJson "author");
    try discriminate.
  intros H; injection H as <-. repeat split.
Qed.

(** *** [add] *)

(** The manifests of the environment declare string names: the [name]
    of what [JSON.parse] gives is a string whenever it is truthy. The map is
    keyed by strings, and [add] is read on these environments. *)
Definition string_names (env : Env) : Prop :=
  forall content packageJson declared,
    env.(JSON_parse) content = Some packageJson ->
    get_prop packageJson "name" = Some declared ->
    truthy declared = true ->
    exists key, declared = JString key.

(** X8. Where manifests declare string names, [add] never changes or
    removes a registered plugin. Either the registry is left as it was,
    nothing is written to storage and [null] is returned; or exactly one
    entry is appended, under a name that was not registered, holding the
    record line 260 builds from the manifest (enabled, with no platform and
    no lifecycle flag), and the whole registry is written to storage once. In the second case the new record
    is returned when the store accepts the write; when the store rejects it,
    [null] is returned although the plugin stays registered in memory. *)
Theorem add_extends_or_keeps env nameOrPath reg :
  string_names env ->
  (final (add env nameOrPath reg) = reg /\
   saved (trace (add env nameOrPath reg)) = [] /\
   result (add env nameOrPath reg) = Return None) \/
  (exists key record,
     registry_get (JString key) reg = None /\
     record.(enabled) = Some true /\
     record.(platform) = None /\
     LifecycleFacts.without_progress record = record /\
     (exists packageJson,
        new_record packageJson (Store.selected env nameOrPath) = Some record) /\
     final (add env nameOrPath reg) = reg ++ [(key, record)] /\
     saved (trace (add env nameOrPath reg))
       = [stored_array (reg ++ [(key, record)])] /\
     result (add env nameOrPath reg) =
       if env.(nodeContext_set) "plugins" (stored_array (reg ++ [(key, record)]))
       then Return (Some record) else Return None).
Proof.
  intros Hnames.
  remember (add env nameOrPath reg) as run eqn:E. unfold add in E.
  assert (Hkeep : forall t' t'',
            saved t' = [] -> saved t'' = [] ->
            run = (Return None, reg, t' ++ t'') ->
            final run = reg /\ saved (trace run) = [] /\ result run = Return None).
  { intros t' t'' H' H'' ->. unfold final, trace, result; simpl.
    rewrite saved_app, H', H''. repeat split. }
  destruct (nameOrPath =? ""); [left; apply (Hkeep [] []); auto|].
  destruct (resolve_run env nameOrPath reg) as (t & Hrun & Hw).
  unfold bind at 1 in E. rewrite Hrun in E.
  destruct (manifest_declares_name env (Store.selected env nameOrPath)) eqn:Hd;
    [|left; eapply (Hkeep t); [exact Hw| |exact E]; reflexivity].
  unfold manifest_declares_name in Hd.
  destruct (Store.selected env nameOrPath =? "");
    [left; eapply (Hkeep t); [exact Hw| |exact E]; reflexivity|].
  rm_unfold; simpl in E.
  destruct (fs_readFile env _) as [content|]; simpl in E; [|discriminate Hd].
  destruct (JSON_parse env content) as [packageJson|] eqn:Hparse; simpl in E;
    [|discriminate Hd].
  destruct (get_prop packageJson "name") as [declared|] eqn:Hname; simpl in E;
    [|discriminate Hd].
  destruct (Hnames content packageJson declared Hparse Hname Hd) as [key ->].
  destruct (registry_get (JString key) reg) eqn:Hget; simpl in E;
    [left; eapply (Hkeep t); [exact Hw| |exact E]; reflexivity|].
  destruct (new_record packageJson _) as [record|] eqn:Hnew; simpl in E;
    [|left; eapply (Hkeep t); [exact Hw| |exact E]; reflexivity].
  right. exists key, record.
  destruct (new_record_fresh _ _ _ Hnew) as (He & Hp & _ & _ & _ & Hwp).
  unfold map_set, modify in E. simpl in E.
  rewrite saveToStorage_run, (registry_get_none_set key record reg Hget) in E.
  destruct (nodeContext_set env "plugins" _); simpl in E;
    rewrite ?(registry_get_app_new key record reg Hget) in E; subst run;
    simpl; rewrite saved_app, Hw;
    repeat split; try assumption; try (exists packageJson; exact Hnew).
  f_equal. exact (registry_get_app_new key record reg Hget).
Qed.

Lemma sample_env_string_names : string_names sample_env.
Proof.
  intros content packageJson declared Hparse Hname _.
  change (Some sample_manifest = Some packageJson) in Hparse.
  injection Hparse as <-. vm_compute in Hname. injection Hname as <-.
  eexists. reflexivity.
Qed.

Lemma add_extends_or_keeps_witness :
  final (add sample_env "matterbridge-example"
           [("matterbridge-example", sample_record)])
    = [("matterbridge-example", sample_record)] \/
  exists key record,
    final (add sample_env "matterbridge-example"
             [("matterbridge-example", sample_record)])
      = [("matterbridge-example", sample_record); (key, record)].
Proof.
  destruct (add_extends_or_keeps sample_env "matterbridge-example"
              [("matterbridge-example", sample_record)] sample_env_string_names)
    as [[Hf _] | (key & record & _ & _ & _ & _ & _ & Hf & _)].
  - left. exact Hf.
  - right. exists key, record. exact Hf.
Defined.

(** X9. When the manifest [resolve] settles on is readable, parses and
    declares a non-empty string name that is not registered yet, [add]
    appends the record built from that manifest (its name, the manifest's
    path, enabled, empty type) under that name, and a look-up of the name
    then finds it. *)
Theorem add_registers env nameOrPath reg content packageJson key :
  nameOrPath <> "" ->
  Store.selected env nameOrPath <> "" ->
  env.(fs_readFile) (Store.selected env nameOrPath) = Some content ->
  env.(JSON_parse) content = Some packageJson ->
  get_prop packageJson "name" = Some (JString key) ->
  key <> "" ->
  registry_get (JString key) reg = None ->
  exists record,
    new_record packageJson (Store.selected env nameOrPath) = Some record /\
    record.(name) = JString key /\
    final (add env nameOrPath reg) = reg ++ [(key, record)] /\
    registry_get (JString key) (final (add env nameOrPath reg)) = Some record.
Proof.
  intros Hn Hfile Hread Hparse Hname Hkey Hget.
  assert (Hdecl : manifest_declares_name env (Store.selected env nameOrPath) = true).
  { unfold manifest_declares_name. rewrite Hread, Hparse, Hname. simpl.
    apply negb_true_iff, String.eqb_neq, Hkey. }
  assert (Hnew : exists record,
            new_record packageJson (Store.selected env nameOrPath) = Some record).
  { unfold new_record. rewrite Hname.
    destruct packageJson; simpl in *; try discriminate; eexists; reflexivity. }
  destruct Hnew as (record & Hnew). exists record.
  destruct (new_record_fresh _ _ _ Hnew) as (_ & _ & _ & _ & Hrn & _).
  rewrite Hname in Hrn. injection Hrn as Hrn.
  assert (Hfinal : final (add env nameOrPath reg) = reg ++ [(key, record)]).
  { remember (add env nameOrPath reg) as run eqn:E. unfold add in E.
    apply String.eqb_neq in Hn, Hfile. rewrite Hn in E.
    destruct (resolve_run env nameOrPath reg) as (t & Hrun & _).
    unfold bind at 1 in E. rewrite Hrun, Hdecl, Hfile in E.
    rm_unfold; simpl in E. rewrite Hread in E; simpl in E.
    rewrite Hparse in E; simpl in E. rewrite Hname in E; simpl in E.
    change (match find (fun entry => fst entry =? key) reg with
            | Some entry => Some (snd entry) | None => None end)
      with (registry_get (JString key) reg) in E.
    rewrite Hget, Hnew in E. simpl in E.
    unfold map_set, modify in E. simpl in E.
    rewrite saveToStorage_run, (registry_get_none_set key record reg Hget) in E.
    destruct (nodeContext_set env "plugins" _); simpl in E; subst run; reflexivity. }
  rewrite Hfinal. repeat split; auto.
  apply registry_get_app_new, Hget.
Qed.

Lemma add_registers_witness :
  exists record,
    final (add sample_env "matterbridge-example" [])
      = [("matterbridge-example", record)].
Proof.
  destruct (add_registers sample_env "matterbridge-example" [] "manifest"
              sample_manifest "matterbridge-example")
    as (record & _ & _ & H & _);
    try reflexivity; try discriminate.
  exists record. exact H.
Defined.

(** *** [remove], [enable] and [disable] *)

Lemma registry_get_delete k k' reg :
  registry_get (JString k') (registry_delete (JString k) reg) =
    if k =? k' then None else registry_get (JString k') reg.
Proof.
  unfold registry_get, registry_delete.
  induction reg as [|[k0 v] reg IH]; simpl.
  - destruct (k =? k'); reflexivity.
  - destruct (k0 =? k) eqn:E0; simpl.
    + apply String.eqb_eq in E0. subst k0. rewrite IH.
      destruct (k =? k'); reflexivity.
    + destruct (k0 =? k') eqn:E1; simpl.
      * apply String.eqb_eq in E1. subst k0. rewrite String.eqb_sym, E0. reflexivity.
      * exact IH.
Qed.

Lemma registry_get_delete_same k reg :
  registry_get (JString k) (registry_delete (JString k) reg) = None.
Proof. rewrite registry_get_delete. now rewrite String.eqb_refl. Qed.

Lemma registry_get_update k k' f reg :
  registry_get (JString k') (update_plugin (JString k) f reg) =
    if k =? k' then option_map f (registry_get (JString k') reg)
    else registry_get (JString k') reg.
Proof.
  unfold registry_get, update_plugin.
  induction reg as [|[k0 v] reg IH]; simpl.
  - destruct (k =? k'); reflexivity.
  - destruct (k0 =? k) eqn:E0; simpl; destruct (k0 =? k') eqn:E1; simpl.
    + apply String.eqb_eq in E0, E1. subst. rewrite String.eqb_refl. reflexivity.
    + exact IH.
    + apply String.eqb_eq in E1. subst k0. rewrite String.eqb_sym, E0. reflexivity.
    + exact IH.
Qed.

(** X10. [remove] of a registered name deletes that entry and no other:
    the name is no longer found, every other name is found as before, and the
    remaining registry is written to storage once. The removed record is
    returned when the store accepts the write; when the store rejects it the
    call rejects, with the entry already gone from memory. *)
Theorem remove_unregisters env name reg plugin :
  name <> "" ->
  registry_get (JString name) reg = Some plugin ->
  final (remove env name reg) = registry_delete (JString name) reg /\
  registry_get (JString name) (final (remove env name reg)) = None /\
  (forall other, other <> name ->
     registry_get (JString other) (final (remove env name reg))
       = registry_get (JString other) reg) /\
  saved (trace (remove env name reg)) = [stored_array (registry_delete (JString name) reg)] /\
  result (remove env name reg) =
    if env.(nodeContext_set) "plugins" (stored_array (registry_delete (JString name) reg))
    then Return (Some plugin) else Throw.
Proof.
  intros Hn Hget.
  assert (E : remove env name reg =
    if env.(nodeContext_set) "plugins" (stored_array (registry_delete (JString name) reg))
    then (Return (Some plugin), registry_delete (JString name) reg,
          [Log Info "Removed plugin" plugin.(Plugins.name);
           StorageSet "plugins" (stored_array (registry_delete (JString name) reg));
           Log Debug "Saved plugins to storage"
             (JNumber (Z.of_nat (List.length (registry_delete (JString name) reg))))])
    else (Throw, registry_delete (JString name) reg,
          [Log Info "Removed plugin" plugin.(Plugins.name);
           StorageSet "plugins" (stored_array (registry_delete (JString name) reg))])).
  { unfold remove. apply String.eqb_neq in Hn. rewrite Hn.
    unfold bind at 1, get. rewrite Hget.
    unfold bind, modify, note, emit, ret. rewrite saveToStorage_run.
    destruct (nodeContext_set env "plugins" _); reflexivity. }
  rewrite E.
  destruct (nodeContext_set env "plugins" _); unfold final, trace, result;
    cbn [fst snd];
    (repeat split; [apply registry_get_delete_same | intros other Ho;
       rewrite registry_get_delete;
       destruct (name =? other) eqn:Eo; [apply String.eqb_eq in Eo; congruence|reflexivity]]).
Qed.

Lemma remove_unregisters_witness :
  final (remove sample_env "matterbridge-example"
           [("matterbridge-example", loaded_record)]) = [].
Proof.
  exact (proj1 (remove_unregisters sample_env "matterbridge-example"
                  [("matterbridge-example", loaded_record)] loaded_record
                  ltac:(discriminate) eq_refl)).
Defined.

Lemma by_manifest_final env nameOrPath failed done change outcome reg :
  final (by_manifest env nameOrPath failed done change outcome reg) = reg \/
  exists declared,
    final (by_manifest env nameOrPath failed done change outcome reg)
      = change declared reg.
Proof.
  remember (by_manifest env nameOrPath failed done change outcome reg) as run eqn:E.
  unfold by_manifest in E.
  destruct (resolve_run env nameOrPath reg) as (t & Hrun & _).
  unfold bind at 1 in E. rewrite Hrun in E.
  destruct (manifest_declares_name env (Store.selected env nameOrPath));
    [|subst run; left; reflexivity].
  destruct (Store.selected env nameOrPath =? "");
    [subst run; left; reflexivity|].
  rm_unfold; simpl in E.
  destruct (fs_readFile env _) as [content|]; simpl in E;
    [|subst run; left; reflexivity].
  destruct (JSON_parse env content) as [packageJson|]; simpl in E;
    [|subst run; left; reflexivity].
  destruct (get_prop packageJson "name") as [declared|]; simpl in E;
    [|subst run; left; reflexivity].
  destruct (registry_get declared reg); simpl in E;
    [|subst run; left; reflexivity].
  rewrite saveToStorage_run in E.
  right. exists declared.
  destruct (nodeContext_set env "plugins" _); simpl in E; subst run; reflexivity.
Qed.

Lemma disable_final env nameOrPath reg :
  final (disable env nameOrPath reg) = reg \/
  exists key,
    final (disable env nameOrPath reg)
      = update_plugin key (set_enabled (Some false)) reg.
Proof.
  remember (disable env nameOrPath reg) as run eqn:E.
  unfold disable in E.
  destruct (nameOrPath =? ""); [subst run; left; reflexivity|].
  unfold bind at 1, get in E.
  destruct (registry_get (JString nameOrPath) reg).
  { right. exists (JString nameOrPath).
    unfold bind, modify, note, emit, ret in E. rewrite saveToStorage_run in E.
    destruct (nodeContext_set env "plugins" _); subst run; reflexivity. }
  destruct (resolve_run env nameOrPath reg) as (t & Hrun & _).
  unfold bind at 1 in E. rewrite Hrun in E.
  destruct (manifest_declares_name env (Store.selected env nameOrPath));
    [|subst run; left; reflexivity].
  destruct (Store.selected env nameOrPath =? "");
    [subst run; left; reflexivity|].
  rm_unfold; simpl in E.
  destruct (fs_readFile env _) as [content|]; simpl in E;
    [|subst run; left; reflexivity].
  destruct (JSON_parse env content) as [packageJson|]; simpl in E;
    [|subst run; left; reflexivity].
  destruct (get_prop packageJson "name") as [declared|]; simpl in E;
    [|subst run; left; reflexivity].
  destruct (registry_get declared reg); simpl in E;
    [|subst run; left; reflexivity].
  rewrite saveToStorage_run in E.
  right. exists declared.
  destruct (nodeContext_set env "plugins" _); simpl in E; subst run; reflexivity.
Qed.

(** An entry after [enable] or [disable]: the same key, and the same
    record up to its [enabled] flag. *)
Definition same_but_enabled (before after : string * RegisteredPlugin) : Prop :=
  fst after = fst before /\
  set_enabled None (snd after) = set_enabled None (snd before).

Lemma same_but_enabled_all reg : Forall2 same_but_enabled reg reg.
Proof. induction reg; constructor; [split; reflexivity | assumption]. Qed.

Lemma update_enabled_all key v reg :
  Forall2 same_but_enabled reg (update_plugin key (set_enabled v) reg).
Proof.
  destruct key; simpl; try apply same_but_enabled_all.
  induction reg as [|[k p] reg IH]; simpl; constructor; [|exact IH].
  destruct (k =? s); split; reflexivity.
Qed.

(** X11. [enable] and [disable], however the plugin is named and whether
    or not they succeed, keep every entry of the registry in its place under
    its key and change nothing of any record but its [enabled] flag: no
    lifecycle flag, platform handle or identity field is touched. *)
Theorem enabling_touches_only_enabled env nameOrPath reg :
  Forall2 same_but_enabled reg (final (enable env nameOrPath reg)) /\
  Forall2 same_but_enabled reg (final (disable env nameOrPath reg)).
Proof.
  split.
  - unfold enable. destruct (nameOrPath =? ""); [apply same_but_enabled_all|].
    unfold bind at 1, get.
    destruct (registry_get (JString nameOrPath) reg).
    + unfold bind, modify, note, emit, ret. rewrite saveToStorage_run.
      destruct (nodeContext_set env "plugins" _); apply update_enabled_all.
    + match goal with |- context [by_manifest ?e ?n ?f ?d ?c ?o reg] =>
        destruct (by_manifest_final e n f d c o reg) as [H | (declared & H)];
        destruct (by_manifest e n f d c o reg) as [[o' reg'] t'] end;
        unfold final in *; simpl in *; subst reg';
        [apply same_but_enabled_all | apply update_enabled_all].
  - destruct (disable_final env nameOrPath reg) as [-> | (key & ->)];
      [apply same_but_enabled_all | apply update_enabled_all].
Qed.

Lemma disable_by_name env name reg plugin :
  name <> "" ->
  registry_get (JString name) reg = Some plugin ->
  final (disable env name reg)
    = update_plugin (JString name) (set_enabled (Some false)) reg.
Proof.
  intros Hn Hget. unfold disable. apply String.eqb_neq in Hn. rewrite Hn.
  unfold bind at 1, get. rewrite Hget.
  unfold bind, modify, note, emit, ret. rewrite saveToStorage_run.
  destruct (nodeContext_set env "plugins" _); reflexivity.
Qed.

Lemma enable_by_name env name reg plugin :
  name <> "" ->
  registry_get (JString name) reg = Some plugin ->
  final (enable env name reg)
    = update_plugin (JString name) (set_enabled (Some true)) reg.
Proof.
  intros Hn Hget. unfold enable. apply String.eqb_neq in Hn. rewrite Hn.
  unfold bind at 1, get. rewrite Hget.
  unfold bind, modify, note, emit, ret. rewrite saveToStorage_run.
  destruct (nodeContext_set env "plugins" _); reflexivity.
Qed.

(** X12. After [disable] of a registered name the record found under that
    name is the old record with [enabled] false, and [load] on it returns
    [undefined] with "not enabled" whatever else holds of it (a bound
    platform is neither returned nor released); [enable] of the same name
    afterwards leaves the old record with [enabled] true. *)
Theorem disable_blocks_load env name reg plugin :
  name <> "" ->
  registry_get (JString name) reg = Some plugin ->
  registry_get (JString name) (final (disable env name reg))
    = Some (set_enabled (Some false) plugin) /\
  (forall env' andStart message,
     load env' andStart message (set_enabled (Some false) plugin)
       = (Return None, set_enabled (Some false) plugin,
          [Log Error "not enabled" plugin.(Plugins.name)])) /\
  registry_get (JString name)
    (final (enable env name (final (disable env name reg))))
    = Some (set_enabled (Some true) plugin).
Proof.
  intros Hn Hget.
  assert (Hd : registry_get (JString name) (final (disable env name reg))
               = Some (set_enabled (Some false) plugin)).
  { rewrite (disable_by_name env name reg plugin Hn Hget), registry_get_update,
      String.eqb_refl, Hget. reflexivity. }
  split; [exact Hd|]. split.
  - intros env' andStart message. destruct plugin; reflexivity.
  - rewrite (enable_by_name env name _ _ Hn Hd), registry_get_update,
      String.eqb_refl, Hd. destruct plugin; reflexivity.
Qed.

Lemma disable_blocks_load_witness :
  registry_get (JString "matterbridge-example")
    (final (disable sample_env "matterbridge-example"
              [("matterbridge-example", loaded_record)]))
  = Some (set_enabled (Some false) loaded_record).
Proof.
  exact (proj1 (disable_blocks_load sample_env "matterbridge-example"
                  [("matterbridge-example", loaded_record)] loaded_record
                  ltac:(discriminate) eq_refl)).
Defined.

(** *** [loadFromStorage] *)

Definition keyed (keys : list string) (records : list RegisteredPlugin) : Registry :=
  combine keys records.

Lemma load_loop keys : forall stored reg,
  Forall2 (fun plugin key => plugin.(name) = JString key) stored keys ->
  fold_left (fun loop plugin => loop ;; map_set plugin.(name) plugin)
    stored (ret tt) reg
  = (Return tt, fold_left (fun r entry => registry_set (fst entry) (snd entry) r)
                  (combine keys stored) reg, []).
Proof.
  intros stored reg H. revert reg.
  assert (G : forall (start : RM unit) reg done,
    start reg = (Return tt, done, []) ->
    fold_left (fun loop plugin => loop ;; map_set plugin.(name) plugin) stored start reg
    = (Return tt, fold_left (fun r entry => registry_set (fst entry) (snd entry) r)
                    (combine keys stored) done, [])).
  { induction H as [|plugin key stored keys Hk H IH]; intros start reg done Hs; simpl.
    - exact Hs.
    - apply IH. unfold bind. rewrite Hs, Hk. reflexivity. }
  intros reg. apply G. reflexivity.
Qed.

Lemma set_fresh_keys keys : forall stored reg,
  List.length keys = List.length stored ->
  NoDup (map fst reg ++ keys) ->
  fold_left (fun r entry => registry_set (fst entry) (snd entry) r)
    (combine keys stored) reg
  = reg ++ combine keys stored.
Proof.
  induction keys as [|k keys IH]; intros [|p stored] reg Hlen Hnd;
    simpl in *; try discriminate; try (now rewrite app_nil_r).
  rewrite registry_get_none_set.
  - rewrite IH.
    + now rewrite <- app_assoc.
    + congruence.
    + rewrite map_app. simpl. rewrite <- app_assoc. exact Hnd.
  - apply NoDup_remove_2 in Hnd.
    unfold registry_get.
    destruct (find (fun entry => fst entry =? k) reg) as [[k' v]|] eqn:Hf; [|reflexivity].
    apply find_some in Hf. destruct Hf as [Hin Hk]. simpl in Hk.
    apply String.eqb_eq in Hk. subst k'.
    exfalso. apply Hnd, in_or_app. left.
    change k with (fst (k, v)). apply in_map, Hin.
Qed.

(** X13. Loading stored records whose names are distinct strings into an
    empty registry registers each record under its own name, in the stored
    order, and returns the stored array; saving straight afterwards writes
    the stored projection of exactly those records, so that a second load
    and save changes nothing. When nothing is stored the registry stays
    empty. *)
Theorem load_then_save_round_trip env stored keys :
  Forall2 (fun plugin key => plugin.(name) = JString key) stored keys ->
  NoDup keys ->
  loadFromStorage (Some (Some stored)) [] = (Return stored, combine keys stored, []) /\
  values (combine keys stored) = stored /\
  saved (trace (saveToStorage env (combine keys stored)))
    = [JArray (map persisted stored)] /\
  loadFromStorage (Some None) [] = (Return [], [], []).
Proof.
  intros Hnames Hnd.
  assert (Hlen : List.length keys = List.length stored)
    by (symmetry; eapply Forall2_length; exact Hnames).
  assert (Hvalues : values (combine keys stored) = stored).
  { unfold values. clear Hnames Hnd. revert stored Hlen.
    induction keys as [|k keys IH]; intros [|p stored] Hlen; simpl in *;
      try discriminate; [reflexivity|]. f_equal. apply IH. congruence. }
  split; [|split; [exact Hvalues|split; [|reflexivity]]].
  - pose proof (load_loop keys stored [] Hnames) as Hloop.
    rewrite (set_fresh_keys keys stored [] Hlen Hnd) in Hloop.
    unfold loadFromStorage. unfold bind at 1. unfold attempt at 1, ret at 1.
    cbv beta iota. unfold bind at 1. rewrite Hloop. reflexivity.
  - rewrite saveToStorage_run. unfold stored_array. rewrite Hvalues.
    destruct (nodeContext_set env "plugins" _); reflexivity.
Qed.

Lemma load_then_save_round_trip_witness :
  loadFromStorage (Some (Some [sample_record])) []
    = (Return [sample_record], [("matterbridge-example", sample_record)], []).
Proof.
  refine (proj1 (load_then_save_round_trip sample_env [sample_record]
                   ["matterbridge-example"] _ _)).
  - repeat constructor.
  - repeat constructor. intros [].
Defined.

(** *** [parse] *)

Lemma or_else_truthy a b : truthy b = true -> truthy (or_else a b) = true.
Proof. unfold or_else. destruct (truthy a) eqn:E; auto. Qed.

(** X14. [parse] never throws. When it returns the manifest, the record's
    name, version, description and author have been replaced together by the
    manifest's values, or by the defaults where the manifest's value is
    missing or empty, so all four are truthy afterwards, and nothing else of
    the record has changed. When it returns [null], the only change to the
    record is that [error] is set. *)
Theorem parse_outcome env p :
  match result (parse env p) with
  | Return (Some packageJson) =>
      final (parse env p) =
        set_manifest
          (or_else (Websocket.field packageJson "name") (JString "Unknown name"))
          (or_else (Websocket.field packageJson "version") (JString "1.0.0"))
          (or_else (Websocket.field packageJson "description")
             (JString "Unknown description"))
          (or_else (Websocket.field packageJson "author") (JString "Unknown author"))
          p /\
      truthy (final (parse env p)).(name) = true /\
      truthy (final (parse env p)).(version) = true /\
      truthy (final (parse env p)).(description) = true /\
      truthy (final (parse env p)).(author) = true
  | Return None => final (parse env p) = set_error (Some true) p
  | Throw => False
  end.
Proof.
  unfold parse, Websocket.field. destruct p.
  Lifecycle.eff_unfold; simpl. Lifecycle.split_match; simpl; try reflexivity;
    try congruence;
    repeat match goal with
      | H : Some _ = Some _ |- _ => injection H as H; subst
      end;
    (split; [reflexivity | repeat split; apply or_else_truthy; reflexivity]).
Qed.

(** *** [set], [get] and [has] *)

Lemma registry_set_size key plugin reg :
  size (registry_set key plugin reg)
    = if registry_has key reg then size reg else S (size reg).
Proof.
  unfold size, registry_has.
  induction reg as [|[k v] reg IH]; simpl; [reflexivity|].
  destruct (k =? key); simpl; [reflexivity|]. rewrite IH.
  destruct (existsb _ reg); reflexivity.
Qed.

(** X15. [set(plugin)] files the record under its own name: a look-up of
    that name then returns the record, every other name is found as before,
    and the size grows by one exactly when the name was not present. *)
Theorem set_then_get plugin key reg :
  plugin.(name) = JString key ->
  set plugin reg = (Return plugin, registry_set key plugin reg, []) /\
  registry_get (JString key) (final (set plugin reg)) = Some plugin /\
  (forall other, other <> key ->
     registry_get (JString other) (final (set plugin reg))
       = registry_get (JString other) reg) /\
  size (final (set plugin reg))
    = if registry_has key reg then size reg else S (size reg).
Proof.
  intros Hname.
  assert (E : set plugin reg = (Return plugin, registry_set key plugin reg, [])).
  { unfold set, map_set. rewrite Hname. reflexivity. }
  rewrite E. unfold final; cbn [fst snd]. repeat split.
  - rewrite registry_get_set, String.eqb_refl. reflexivity.
  - intros other Ho. rewrite registry_get_set.
    destruct (key =? other) eqn:Ek; [apply String.eqb_eq in Ek; congruence|reflexivity].
  - apply registry_set_size.
Qed.

Lemma set_then_get_witness :
  registry_get (JString "matterbridge-example")
    (final (set loaded_record [("matterbridge-example", sample_record)]))
  = Some loaded_record.
Proof.
  exact (proj1 (proj2 (set_then_get loaded_record "matterbridge-example"
                         [("matterbridge-example", sample_record)] eq_refl))).
Defined.

End ManagerFacts.

(** ** More properties of the dispatcher *)

Module ProtocolFacts.
Import JS Eff Plugins Websocket.
Local Open Scope eff_scope.

(** The effects of the handler that reach outside the conversation with
    the client: a spawned process, a restart, a shutdown. *)
Definition privileged (e : WsEvent) : bool :=
  match e with
  | Spawn _ _ | RestartProcess | ShutdownProcess => true
  | _ => false
  end.

Definition quiet (t : list WsEvent) : Prop :=
  forall e, In e t -> privileged e = false.

Lemma quiet_nil : quiet [].
Proof. intros e []. Qed.

Lemma quiet_cons e t : privileged e = false -> quiet t -> quiet (e :: t).
Proof. intros He Ht e' [<- | Hin]; auto. Qed.

Ltac quiet_trace :=
  simpl;
  repeat first [ apply quiet_nil | apply quiet_cons; [reflexivity|] ].

Section Dispatcher.
Variable isValidNumber : JSValue -> option Z -> bool.
Variable isValidString : JSValue -> option nat -> bool.
Variable isValidObject : JSValue -> bool.
Variable JSON_parse : string -> option JSValue.

Abbreviation handler :=
  (wsMessageHandler isValidNumber isValidString isValidObject JSON_parse).
Abbreviation invalid := (invalid_message isValidNumber isValidString isValidObject).
Abbreviation validated :=
  (Protocol.passes_validation isValidNumber isValidString isValidObject).

Lemma login_quiet host id method src params info :
  quiet (trace (login host id method src params info)).
Proof.
  unfold login. Protocol.ws_unfold. Lifecycle.split_match; quiet_trace.
Qed.

Lemma settings_quiet host id method src info :
  quiet (trace (settings host id method src info)).
Proof.
  unfold settings. Protocol.ws_unfold. Lifecycle.split_match; quiet_trace.
Qed.

Lemma clusters_quiet host id method src params info :
  quiet (trace (clusters_of isValidNumber isValidString host id method src params info)).
Proof.
  unfold clusters_of. Protocol.ws_unfold. Lifecycle.split_match; quiet_trace.
Qed.

Lemma select_quiet host id method src params wrong missing selection info :
  quiet (trace (select isValidString host id method src params wrong missing
                  selection info)).
Proof.
  unfold select. Protocol.ws_unfold. Lifecycle.split_match; quiet_trace.
Qed.

(** What [npm] may spawn: [npm] itself, with the arguments built from a
    package name that passed [isValidString(packageName, 10)]. *)
Definition spawns_npm (params : JSValue) (args : JSValue -> list JSValue)
    (e : WsEvent) : Prop :=
  privileged e = true ->
  exists packageName,
    get_prop params "packageName" = Some packageName /\
    isValidString packageName (Some 10) = true /\
    e = Spawn "npm" (args packageName).

Lemma npm_spawns host id method src params wrong args info :
  forall e, In e (trace (npm isValidString host id method src params wrong args info)) ->
  spawns_npm params args e.
Proof.
  unfold npm, spawns_npm. Protocol.ws_unfold.
  destruct (get_prop params "packageName") as [packageName|]; simpl; [|intros e []].
  destruct (isValidString packageName (Some 10)) eqn:Hvalid; simpl.
  - destruct (spawnCommand host "npm" (args packageName)); simpl;
      intros e Hin Hp;
      repeat (destruct Hin as [<- | Hin]; [try discriminate Hp|]);
      try contradiction; exists packageName; auto.
  - intros e [<- | []] Hp. discriminate Hp.
Qed.

(** What a privileged effect [e] says about the request [data] that
    caused it. *)
Definition caused_by (data : JSValue) (e : WsEvent) : Prop :=
  match e with
  | RestartProcess => field data "method" = JString "/api/restart"
  | ShutdownProcess => field data "method" = JString "/api/shutdown"
  | Spawn command args =>
      command = "npm" /\
      exists packageName,
        get_prop (field data "params") "packageName" = Some packageName /\
        isValidString packageName (Some 10) = true /\
        ((field data "method" = JString "/api/install" /\
          args = [JString "install"; JString "-g"; packageName;
                  JString "--omit=dev"; JString "--verbose"]) \/
         (field data "method" = JString "/api/uninstall" /\
          args = [JString "uninstall"; JString "-g"; packageName;
                  JString "--verbose"]))
  | _ => True
  end.

(** The events of a nested call that case analysis has named. *)
Ltac from_branch Hin :=
  match goal with
  | H : ?call = (_, _, ?t) |- _ =>
      match type of Hin with
      | In _ t => replace t with (trace call) in Hin by (rewrite H; reflexivity)
      end
  end.

Lemma dispatch_privileged host data info :
  nullish data = false ->
  invalid (field data "id") (field data "dst") (field data "src")
          (field data "method") (field data "params") = false ->
  forall e,
    In e (trace (dispatch isValidNumber isValidString isValidObject host data info)) ->
    privileged e = true -> caused_by data e.
Proof.
  intros Hdata Hvalid. unfold dispatch.
  rewrite !(Protocol.get_prop_field data) by exact Hdata.
  Protocol.ws_unfold. simpl. rewrite Hvalid.
  unfold is_method.
  repeat match goal with
    | |- context [strict_eq (field data "method") (JString ?m)] =>
        let E := fresh "Em" in
        destruct (strict_eq (field data "method") (JString m)) eqn:E;
        [apply Protocol.is_string_eq in E|]
    end.
  all: Lifecycle.split_match; simpl; intros e Hin Hp;
    repeat (destruct Hin as [<- | Hin]; [try discriminate Hp|]);
    try contradiction; try exact Em; try exact Em3; try exact Em4.
  all: try (from_branch Hin;
            first [ apply login_quiet in Hin
                  | apply settings_quiet in Hin
                  | apply clusters_quiet in Hin
                  | apply select_quiet in Hin ];
            congruence).
  all: from_branch Hin; apply npm_spawns in Hin;
    destruct (Hin Hp) as (packageName & Hpn & Hok & ->);
    (split; [reflexivity|]); exists packageName; (split; [exact Hpn|]);
    (split; [exact Hok|]); auto.
Qed.

Lemma handler_trace host message info :
  match JSON_parse message with
  | None => handler host message info
            = (Return tt, info, [WsLog Error "Error parsing message from websocket client"])
  | Some data =>
      result (handler host message info) = Return tt /\
      (trace (handler host message info)
         = trace (dispatch isValidNumber isValidString isValidObject host data info) \/
       trace (handler host message info)
         = trace (dispatch isValidNumber isValidString isValidObject host data info)
           ++ [WsLog Error "Error parsing message from websocket client"])
  end.
Proof.
  unfold wsMessageHandler, try_catch, bind, attempt, ret, throw, emit.
  destruct (JSON_parse message) as [data|]; [|reflexivity].
  destruct (dispatch _ _ _ host data info) as [[[[]|] info'] t];
    unfold result, trace; simpl; auto.
Qed.

(** X16. A message that does not parse, or parses to [null], is logged
    and left unanswered: the handler returns, nothing is sent, nothing is
    spawned and the host's information is not touched. *)
Theorem unparsable_message_unanswered host message info :
  match JSON_parse message with
  | Some data => nullish data = true
  | None => True
  end ->
  handler host message info
    = (Return tt, info, [WsLog Error "Error parsing message from websocket client"]).
Proof.
  pose proof (handler_trace host message info) as H.
  destruct (JSON_parse message) as [data|] eqn:Hparse; intros Hnull; [|exact H].
  unfold wsMessageHandler, try_catch, bind, attempt, ret, throw, emit, dispatch.
  rewrite Hparse. destruct data; try discriminate Hnull; reflexivity.
Qed.

(** X17. Whatever the message, the handler restarts the process only for
    a validated request whose method is [/api/restart], shuts it down only
    for a validated [/api/shutdown], and spawns nothing but [npm], with the
    install or uninstall arguments of the validated request's method, around
    a package name that passed [isValidString(packageName, 10)]. *)
Theorem privileged_effects_need_request host message info e :
  In e (trace (handler host message info)) ->
  privileged e = true ->
  exists data,
    JSON_parse message = Some data /\
    validated data = true /\
    caused_by data e.
Proof.
  intros Hin Hp.
  pose proof (handler_trace host message info) as H.
  destruct (JSON_parse message) as [data|] eqn:Hparse.
  2:{ rewrite H in Hin. destruct Hin as [<- | []]. discriminate Hp. }
  exists data. split; [reflexivity|].
  assert (Hd : In e (trace (dispatch isValidNumber isValidString isValidObject
                              host data info))).
  { destruct H as [_ [E | E]]; rewrite E in Hin; [exact Hin|].
    apply in_app_or in Hin. destruct Hin as [Hin | [<- | []]];
      [exact Hin | discriminate Hp]. }
  clear Hin H. unfold Protocol.passes_validation.
  destruct (nullish data) eqn:Hdata.
  { exfalso. unfold dispatch in Hd.
    destruct data; try discriminate Hdata; destruct Hd. }
  destruct (invalid (field data "id") (field data "dst") (field data "src")
                    (field data "method") (field data "params")) eqn:Hvalid.
  { exfalso. unfold dispatch in Hd.
    rewrite !(Protocol.get_prop_field data) in Hd by exact Hdata.
    Protocol.ws_unfold. simpl in Hd. rewrite Hvalid in Hd. simpl in Hd.
    destruct Hd as [<- | [<- | []]]; discriminate Hp. }
  split; [reflexivity|].
  exact (dispatch_privileged host data info Hdata Hvalid e Hd Hp).
Qed.

(** *** Device queries *)

(** The devices [/api/clusters] matches. *)
Definition matches (plugin endpoint : JSValue) (device : Device) : bool :=
  strict_eq plugin device.(dev_plugin) && strict_eq endpoint device.(dev_number).

(** One turn of the loop of [/api/clusters]. *)
Definition gather (plugin endpoint : JSValue) (dump : ClusterDump) (device : Device)
  : ClusterDump :=
  if matches plugin endpoint device
  then {| deviceName := nullish_or device.(dev_deviceName) (JString "Unknown");
          serialNumber := nullish_or device.(dev_serialNumber) (JString "Unknown");
          deviceTypes := device.(dev_deviceTypes);
          clusters := dump.(clusters) ++ device.(dev_attributes) |}
  else dump.

Lemma api_clusters_gather plugin endpoint all :
  api_clusters plugin endpoint all
    = fold_left (gather plugin endpoint) all
        {| deviceName := JString ""; serialNumber := JString "";
           deviceTypes := JArray []; clusters := [] |}.
Proof.
  unfold api_clusters. generalize {| deviceName := JString ""; serialNumber := JString "";
                                     deviceTypes := JArray []; clusters := [] |}.
  induction all as [|d all IH]; intros start; simpl; [reflexivity|].
  rewrite IH. f_equal. unfold gather, matches.
  destruct (strict_eq plugin (dev_plugin d)); simpl; [|reflexivity].
  destruct (strict_eq endpoint (dev_number d)); reflexivity.
Qed.

Lemma api_clusters_attributes plugin endpoint all :
  (api_clusters plugin endpoint all).(clusters)
    = flat_map dev_attributes (filter (matches plugin endpoint) all) /\
  (filter (matches plugin endpoint) all = [] ->
   api_clusters plugin endpoint all
     = {| deviceName := JString ""; serialNumber := JString "";
          deviceTypes := JArray []; clusters := [] |}).
Proof.
  rewrite api_clusters_gather.
  assert (G : forall all start,
    (fold_left (gather plugin endpoint) all start).(clusters)
      = start.(clusters) ++ flat_map dev_attributes (filter (matches plugin endpoint) all) /\
    (filter (matches plugin endpoint) all = [] ->
     fold_left (gather plugin endpoint) all start = start)).
  { clear all. induction all as [|d all IH]; intros start; simpl.
    - rewrite app_nil_r. auto.
    - destruct (IH (gather plugin endpoint start d)) as [Hc Hn]. rewrite Hc.
      destruct (matches plugin endpoint d) eqn:Hm.
      + assert (Hg : (gather plugin endpoint start d).(clusters)
                     = start.(clusters) ++ d.(dev_attributes))
          by (unfold gather; rewrite Hm; reflexivity).
        rewrite Hg. simpl. rewrite <- app_assoc.
        split; [reflexivity | discriminate].
      + assert (Hg : gather plugin endpoint start d = start)
          by (unfold gather; rewrite Hm; reflexivity).
        rewrite Hg in *. split; [reflexivity | exact Hn]. }
  destruct (G all {| deviceName := JString ""; serialNumber := JString "";
                     deviceTypes := JArray []; clusters := [] |}) as [Hc Hn].
  split; [exact Hc | exact Hn].
Qed.

Lemma handler_is_dispatch host message data info r :
  JSON_parse message = Some data ->
  dispatch isValidNumber isValidString isValidObject host data info = r ->
  result r = Return tt ->
  handler host message info = r.
Proof.
  intros Hparse Hr Ho. destruct r as [[o info'] t].
  unfold result in Ho. simpl in Ho. subst o.
  unfold wsMessageHandler, try_catch, bind, attempt, ret.
  rewrite Hparse, Hr. reflexivity.
Qed.

(** The head of [dispatch] for a validated request. *)
Ltac enter_dispatch Hpass Hmethod :=
  unfold Protocol.passes_validation in Hpass;
  apply andb_true_iff in Hpass; destruct Hpass as [Hdata Hvalid];
  apply negb_true_iff in Hdata; apply negb_true_iff in Hvalid;
  unfold dispatch;
  rewrite !(Protocol.get_prop_field _ _ Hdata);
  Protocol.ws_unfold; simpl; rewrite Hvalid, Hmethod; simpl.

(** X18. A validated [/api/clusters] request with a valid plugin and
    endpoint always gets exactly one reply, a response: its payload is the
    attributes of the devices that match both the plugin and the endpoint, in
    order, and when no device matches it is the empty list, with empty device
    name and serial number, not an error. *)
Theorem clusters_reply host message data info plugin endpoint :
  JSON_parse message = Some data ->
  validated data = true ->
  field data "method" = JString "/api/clusters" ->
  get_prop (field data "params") "plugin" = Some plugin ->
  isValidString plugin (Some 10) = true ->
  get_prop (field data "params") "endpoint" = Some endpoint ->
  isValidNumber endpoint (Some 1%Z) = true ->
  exists extra,
    sent (trace (handler host message info)) =
      [envelope (field data "id") (JString "/api/clusters") (field data "src") extra
         ("response",
          JArray (flat_map dev_attributes
                    (filter (matches plugin endpoint) host.(devices))))] /\
    (filter (matches plugin endpoint) host.(devices) = [] ->
     extra = [("plugin", plugin); ("deviceName", JString "");
              ("serialNumber", JString ""); ("endpoint", endpoint);
              ("deviceTypes", JArray [])]).
Proof.
  intros Hparse Hpass Hmethod Hplugin Hpv Hendpoint Hev.
  destruct (api_clusters_attributes plugin endpoint host.(devices)) as [Hc Hn].
  eexists. split.
  - erewrite (handler_is_dispatch host message data info); [| exact Hparse | | ].
    2:{ enter_dispatch Hpass Hmethod. unfold clusters_of. Protocol.ws_unfold.
        rewrite Hplugin; simpl. rewrite Hpv; simpl. rewrite Hendpoint; simpl.
        rewrite Hev; simpl. rewrite Hc. reflexivity. }
    + reflexivity.
    + reflexivity.
  - intros Hf. rewrite (Hn Hf). reflexivity.
Qed.

(** The entry [/api/devices] builds for a device (lines 166-176). *)
Definition device_entry (device : Device) : JSValue :=
  JObject
    [("pluginName", nullish_or device.(dev_plugin) (JString "Unknown"));
     ("type", device.(dev_type));
     ("endpoint", device.(dev_number));
     ("name", device.(dev_name));
     ("serial", device.(dev_serial));
     ("productUrl", device.(dev_productUrl));
     ("configUrl", device.(dev_configUrl));
     ("uniqueId", device.(dev_uniqueId));
     ("cluster", device.(dev_cluster))].

(** The devices [/api/devices] lists for a [pluginName] parameter. *)
Definition listed (pluginName : JSValue) (device : Device) : bool :=
  negb (truthy pluginName) || strict_eq pluginName device.(dev_plugin).

Lemma api_devices_listed params pluginName all :
  get_prop params "pluginName" = Some pluginName ->
  api_devices params all = map device_entry (filter (listed pluginName) all).
Proof.
  intros Hpn. unfold api_devices.
  assert (G : forall all pushed,
    fold_left
      (fun pushed device =>
         match describe_device params device with
         | Some entry => pushed ++ [entry]
         | None => pushed
         end) all pushed
    = pushed ++ map device_entry (filter (listed pluginName) all)).
  { clear all. induction all as [|d all IH]; intros pushed; simpl.
    - now rewrite app_nil_r.
    - rewrite IH. unfold describe_device, listed. rewrite Hpn.
      destruct (truthy pluginName); simpl;
        [destruct (strict_eq pluginName (dev_plugin d)); simpl|];
        rewrite <- ?app_assoc; reflexivity. }
  apply (G all []).
Qed.

(** X19. A validated [/api/devices] request whose [params] is an object
    gets exactly one reply, whose response lists one entry per device, in
    order, for the devices of the plugin named by [params.pluginName], or for
    every device when that parameter is missing or empty. *)
Theorem devices_reply host message data info pluginName :
  JSON_parse message = Some data ->
  validated data = true ->
  field data "method" = JString "/api/devices" ->
  get_prop (field data "params") "pluginName" = Some pluginName ->
  sent (trace (handler host message info)) =
    [envelope (field data "id") (JString "/api/devices") (field data "src") []
       ("response",
        JArray (map device_entry (filter (listed pluginName) host.(devices))))] /\
  (truthy pluginName = false ->
   filter (listed pluginName) host.(devices) = host.(devices)).
Proof.
  intros Hparse Hpass Hmethod Hpn. split.
  - erewrite (handler_is_dispatch host message data info); [| exact Hparse | | ].
    2:{ enter_dispatch Hpass Hmethod.
        rewrite (api_devices_listed _ _ _ Hpn). reflexivity. }
    + reflexivity.
    + reflexivity.
  - intros Hf. unfold listed. rewrite Hf. simpl.
    induction host.(devices) as [|d l IH]; simpl; [reflexivity|]. now rewrite IH.
Qed.

(** X20. A validated [/api/select] request with a valid plugin name gets
    exactly one reply: the error "Plugin not found in /api/select" when no
    plugin is registered under that name, and an empty selection list, not an
    error, when the plugin is registered but has no platform bound. *)
Theorem select_reply host message data info pluginName :
  JSON_parse message = Some data ->
  validated data = true ->
  field data "method" = JString "/api/select" ->
  get_prop (field data "params") "plugin" = Some pluginName ->
  isValidString pluginName (Some 10) = true ->
  (registry_get pluginName host.(plugins) = None ->
   sent (trace (handler host message info)) =
     [envelope (field data "id") (JString "/api/select") (field data "src") []
        ("error", JString "Plugin not found in /api/select")]) /\
  (forall plugin,
     registry_get pluginName host.(plugins) = Some plugin ->
     plugin.(platform) = None ->
     sent (trace (handler host message info)) =
       [envelope (field data "id") (JString "/api/select") (field data "src")
          [("plugin", pluginName)] ("response", JArray [])]).
Proof.
  intros Hparse Hpass Hmethod Hpn Hpv. split.
  - intros Hget.
    erewrite (handler_is_dispatch host message data info); [| exact Hparse | | ].
    2:{ enter_dispatch Hpass Hmethod. unfold select. Protocol.ws_unfold.
        rewrite Hpn; simpl. rewrite Hpv; simpl. rewrite Hget. reflexivity. }
    + reflexivity.
    + reflexivity.
  - intros plugin Hget Hpf.
    erewrite (handler_is_dispatch host message data info); [| exact Hparse | | ].
    2:{ enter_dispatch Hpass Hmethod. unfold select. Protocol.ws_unfold.
        rewrite Hpn; simpl. rewrite Hpv; simpl. rewrite Hget, Hpf. reflexivity. }
    + reflexivity.
    + reflexivity.
Qed.

End Dispatcher.

Lemma unparsable_message_unanswered_witness :
  Protocol.sample_handler (sample_host (JString "")) "garbage" []
    = (Return tt, [], [WsLog Error "Error parsing message from websocket client"]).
Proof.
  exact (unparsable_message_unanswered spec_isValidNumber spec_isValidString
           spec_isValidObject sample_parse (sample_host (JString "")) "garbage" [] I).
Defined.

(** *** Sample data *)

(** A parser that knows four queries. *)
Definition query_parse (message : string) : option JSValue :=
  if message =? "restart" then Some (request 11 "/api/restart" [])
  else if message =? "clusters" then
    Some (request 12 "/api/clusters"
            [("plugin", JString "matterbridge-example"); ("endpoint", JNumber 3)])
  else if message =? "devices" then
    Some (request 13 "/api/devices" [("pluginName", JString "matterbridge-example")])
  else if message =? "select" then
    Some (request 14 "/api/select" [("plugin", JString "matterbridge-example")])
  else None.

Definition lamp (plugin : string) (number : Z) : Device :=
  {| dev_plugin := JString plugin; dev_number := JNumber number;
     dev_type := JString "Lamp (0x0100)"; dev_name := JString "Lamp";
     dev_serial := JString "0001"; dev_productUrl := JString "Unknown";
     dev_configUrl := JUndefined; dev_uniqueId := JString "Unknown";
     dev_cluster := JString "OnOff: true";
     dev_deviceName := JString "Lamp"; dev_serialNumber := JString "0001";
     dev_deviceTypes := JArray [JNumber 256];
     dev_attributes := [JObject [("clusterName", JString "OnOff");
                                 ("attributeName", JString "onOff");
                                 ("attributeValue", JString "true")]] |}.

(** The sample host with two devices of two plugins and the sample plugin
    registered. *)
Definition busy_host : Matterbridge :=
  let host := sample_host (JString "") in
  {| nodeContext := host.(nodeContext);
     spawnCommand := host.(spawnCommand);
     restartProcess := host.(restartProcess);
     shutdownProcess := host.(shutdownProcess);
     bridgeMode := host.(bridgeMode);
     restartMode := host.(restartMode);
     logLevel := host.(logLevel);
     matterLogLevel := host.(matterLogLevel);
     matterbridgePaired := host.(matterbridgePaired);
     matterbridgeConnected := host.(matterbridgeConnected);
     matterbridgeQrPairingCode := host.(matterbridgeQrPairingCode);
     matterbridgeManualPairingCode := host.(matterbridgeManualPairingCode);
     matterbridgeFabricInformations := host.(matterbridgeFabricInformations);
     matterbridgeSessionInformations := host.(matterbridgeSessionInformations);
     profile := host.(profile);
     systemInformation := host.(systemInformation);
     getBaseRegisteredPlugins := host.(getBaseRegisteredPlugins);
     devices := [lamp "matterbridge-other" 3; lamp "matterbridge-example" 3;
                 lamp "matterbridge-example" 4];
     plugins := [("matterbridge-example", sample_record)];
     sort_by_name := host.(sort_by_name) |}.

Abbreviation query_handler :=
  (wsMessageHandler spec_isValidNumber spec_isValidString spec_isValidObject query_parse).

Lemma privileged_effects_need_request_witness :
  exists data,
    query_parse "restart" = Some data /\
    Protocol.passes_validation spec_isValidNumber spec_isValidString
      spec_isValidObject data = true /\
    field data "method" = JString "/api/restart".
Proof.
  refine (privileged_effects_need_request spec_isValidNumber spec_isValidString
            spec_isValidObject query_parse busy_host "restart" [] RestartProcess
            _ eq_refl).
  vm_compute. auto.
Defined.

Lemma clusters_reply_witness :
  exists extra,
    sent (trace (query_handler busy_host "clusters" [])) =
      [envelope (JNumber 12) (JString "/api/clusters") (JString "Frontend") extra
         ("response", JArray (lamp "matterbridge-example" 3).(dev_attributes))].
Proof.
  destruct (clusters_reply spec_isValidNumber spec_isValidString spec_isValidObject
              query_parse busy_host "clusters"
              (request 12 "/api/clusters"
                 [("plugin", JString "matterbridge-example"); ("endpoint", JNumber 3)])
              [] (JString "matterbridge-example") (JNumber 3)
              eq_refl eq_refl eq_refl eq_refl eq_refl eq_refl eq_refl)
    as [extra [Hsent _]].
  exists extra. exact Hsent.
Defined.

Lemma devices_reply_witness :
  sent (trace (query_handler busy_host "devices" [])) =
    [envelope (JNumber 13) (JString "/api/devices") (JString "Frontend") []
       ("response",
        JArray [device_entry (lamp "matterbridge-example" 3);
                device_entry (lamp "matterbridge-example" 4)])].
Proof.
  exact (proj1 (devices_reply spec_isValidNumber spec_isValidString spec_isValidObject
                  query_parse busy_host "devices"
                  (request 13 "/api/devices"
                     [("pluginName", JString "matterbridge-example")])
                  [] (JString "matterbridge-example")
                  eq_refl eq_refl eq_refl eq_refl)).
Defined.

Lemma select_reply_witness :
  sent (trace (query_handler busy_host "select" [])) =
    [envelope (JNumber 14) (JString "/api/select") (JString "Frontend")
       [("plugin", JString "matterbridge-example")] ("response", JArray [])].
Proof.
  exact (proj2 (select_reply spec_isValidNumber spec_isValidString spec_isValidObject
                  query_parse busy_host "select"
                  (request 14 "/api/select" [("plugin", JString "matterbridge-example")])
                  [] (JString "matterbridge-example")
                  eq_refl eq_refl eq_refl eq_refl eq_refl)
               sample_record eq_refl eq_refl).
Defined.

End ProtocolFacts.

(** ** Properties of the console's connection *)

Module FrontendFacts.
Import JS Eff Frontend.
Local Open Scope eff_scope.

(** *** The log buffer *)

Lemma last_of_suffix (l1 l2 : list string) d :
  l2 <> [] -> last (l1 ++ l2) d = last l2 d.
Proof.
  intros Hne. induction l1 as [|x l1 IH]; simpl; [reflexivity|].
  rewrite IH. destruct (l1 ++ l2) eqn:E; [|reflexivity].
  apply app_eq_nil in E. destruct E as [_ E]. contradiction.
Qed.

Lemma append_capped_length line prevMessages :
  List.length (append_capped line prevMessages)
    = Nat.min (List.length prevMessages + 1) maxMessages.
Proof.
  unfold append_capped.
  set (n := List.length (prevMessages ++ [line])).
  assert (Hn : n = List.length prevMessages + 1)
    by (unfold n; rewrite length_app; reflexivity).
  destruct (maxMessages <? n)%nat eqn:Hc.
  - apply Nat.ltb_lt in Hc. rewrite length_skipn. fold n. lia.
  - apply Nat.ltb_ge in Hc. fold n. lia.
Qed.

(** X21. Appending a log line keeps the newest line last and never keeps
    more than [maxMessages] lines, however many there were before: what is
    kept is the tail of the old lines followed by the new one. *)
Theorem append_capped_keeps_newest line prevMessages :
  List.length (append_capped line prevMessages)
    = Nat.min (List.length prevMessages + 1) maxMessages /\
  last (append_capped line prevMessages) "" = line /\
  exists dropped,
    prevMessages ++ [line] = dropped ++ append_capped line prevMessages.
Proof.
  split; [apply append_capped_length|].
  unfold append_capped.
  set (n := List.length (prevMessages ++ [line])).
  assert (Hn : n = List.length prevMessages + 1)
    by (unfold n; rewrite length_app; reflexivity).
  destruct (maxMessages <? n)%nat eqn:Hc.
  - apply Nat.ltb_lt in Hc. split.
    + assert (Hne : skipn (n - maxMessages) (prevMessages ++ [line]) <> []).
      { intros E. apply (f_equal (@List.length string)) in E.
        rewrite length_skipn in E. fold n in E. simpl in E.
        unfold maxMessages in *. lia. }
      pose proof (last_last prevMessages line "") as Hl.
      rewrite <- (firstn_skipn (n - maxMessages) (prevMessages ++ [line])) in Hl.
      rewrite last_of_suffix in Hl by exact Hne. exact Hl.
    + exists (firstn (n - maxMessages) (prevMessages ++ [line])).
      symmetry. apply firstn_skipn.
  - apply Nat.ltb_ge in Hc. split.
    + apply last_last.
    + exists []. reflexivity.
Qed.

(** *** The level filter *)

(** The six levels the filter knows, from the least to the most severe. *)
Definition severity (level : string) : option nat :=
  if level =? "debug" then Some 0
  else if level =? "info" then Some 1
  else if level =? "notice" then Some 2
  else if level =? "warn" then Some 3
  else if level =? "error" then Some 4
  else if level =? "fatal" then Some 5
  else None.

Ltac by_level l :=
  repeat match goal with
    | |- context [l =? ?lit] =>
        let E := fresh "E" in
        destruct (l =? lit) eqn:E;
        [apply String.eqb_eq in E; subst l; simpl | simpl]
    end.

(** X22. The level filter drops a log record exactly when both the
    record's level and the filter level are among debug, info, notice, warn,
    error and fatal and the record's level is less severe than the filter
    level: with the filter at debug nothing is dropped, and a record of any
    other level (spawn, say) is never dropped. *)
Theorem level_filter_is_severity_order filterLevel level :
  level_filtered filterLevel level =
    match level with
    | JString l =>
        match severity l, severity filterLevel with
        | Some recorded, Some wanted => (recorded <? wanted)%nat
        | _, _ => false
        end
    | _ => false
    end.
Proof.
  unfold level_filtered, severity.
  destruct level as [| | | | l | |]; try reflexivity. simpl.
  by_level l; by_level filterLevel; reflexivity.
Qed.

(** *** Messages from the host *)

(** The listeners called, with what, in order. *)
Definition notifications (t : list ClientEvent) : list (nat * JSValue) :=
  flat_map (fun e => match e with Notify l msg => [(l, msg)] | _ => [] end) t.

(** The delays of the reconnect attempts scheduled, in milliseconds. *)
Definition reconnects (t : list ClientEvent) : list nat :=
  flat_map (fun e => match e with
                     | SetTimeout AttemptReconnect milliseconds => [milliseconds]
                     | _ => []
                     end) t.

Lemma reconnects_app t1 t2 : reconnects (t1 ++ t2) = reconnects t1 ++ reconnects t2.
Proof. apply flat_map_app. Qed.

#[local] Arguments Nat.mul : simpl never.

Ltac cm_unfold :=
  unfold final, result, trace, search_filtered, lowered, logMessage, setMessages, when,
    succeed,
    attempt, emit, modify, get, throw, try_catch, bind, ret in *.

Section Provider.
Variable wssHost : string.
Variable badge_line : string -> string -> string.
Variable reconnecting : nat -> string.
Variable lower : string -> string.
Variable includes : string -> string -> bool.
Variable JSON_parse : string -> option JSValue.
Variable listener_returns : nat -> JSValue -> bool.

Abbreviation receive := (onmessage lower includes JSON_parse listener_returns).
Abbreviation tell := (notify listener_returns).

Lemma tell_loop msg (ls : list nat) : forall (start : CM unit) p t,
  start p = (Return tt, p, t) ->
  final (fold_left
           (fun loop listener =>
              loop ;; emit (Notify listener msg) ;; succeed (listener_returns listener msg))
           ls start p) = p /\
  ((forall l, In l ls -> listener_returns l msg = true) ->
   fold_left
     (fun loop listener =>
        loop ;; emit (Notify listener msg) ;; succeed (listener_returns listener msg))
     ls start p
   = (Return tt, p, t ++ map (fun l => Notify l msg) ls)).
Proof.
  induction ls as [|l ls IH]; intros start p t Hs; simpl.
  - rewrite Hs, app_nil_r. split; [reflexivity | intros _; reflexivity].
  - destruct (listener_returns l msg) eqn:Hl.
    + assert (Hc : (start ;; emit (Notify l msg) ;;
                    succeed (listener_returns l msg))%eff p
                   = (Return tt, p, t ++ [Notify l msg])).
      { unfold bind, emit, succeed, ret. rewrite Hs, Hl. reflexivity. }
      destruct (IH _ p (t ++ [Notify l msg]) Hc) as [Hf Hall].
      rewrite Hl in Hf, Hall.
      split; [exact Hf|]. intros Hret. rewrite Hall by auto.
      rewrite <- app_assoc. reflexivity.
    + split.
      * assert (Hthrow : forall (c : CM unit) q t',
                  c q = (Throw, q, t') ->
                  forall ls',
                  fold_left
                    (fun loop listener =>
                       loop ;; emit (Notify listener msg) ;;
                       succeed (listener_returns listener msg))
                    ls' c q = (Throw, q, t')).
        { intros c q t' Hc ls'. revert c Hc.
          induction ls' as [|l' ls' IH']; intros c Hc; simpl; [exact Hc|].
          apply IH'. unfold bind at 1. rewrite Hc. reflexivity. }
        rewrite (Hthrow _ p (t ++ [Notify l msg])); [reflexivity|].
        unfold bind, emit, succeed, ret, throw. rewrite Hs. reflexivity.
      * intros Hret. rewrite (Hret l) in Hl by (left; reflexivity). discriminate.
Qed.

Lemma tell_keeps_state msg p : final (tell msg p) = p.
Proof.
  unfold notify. unfold bind at 1, get. simpl.
  destruct (tell_loop msg p.(listeners) (ret tt) p [] eq_refl) as [Hf _].
  unfold final in *.
  match goal with
  | |- context [fold_left ?f ?l ?c p] =>
      destruct (fold_left f l c p) as [[o q] t]
  end. simpl in *. exact Hf.
Qed.

Lemma tell_everyone msg p :
  (forall l, In l p.(listeners) -> listener_returns l msg = true) ->
  tell msg p = (Return tt, p, map (fun l => Notify l msg) p.(listeners)).
Proof.
  intros Hret. unfold notify. unfold bind at 1, get. simpl.
  destruct (tell_loop msg p.(listeners) (ret tt) p [] eq_refl) as [_ Hall].
  rewrite (Hall Hret). reflexivity.
Qed.

Lemma notifications_map msg (ls : list nat) :
  notifications (map (fun l => Notify l msg) ls) = map (fun l => (l, msg)) ls.
Proof. induction ls as [|l ls IH]; simpl; [reflexivity | now rewrite IH]. Qed.

(** X23. Of the messages that parse to a value with an [id]: every one
    whose [id] is not the log identifier 0 (a refresh or restart notice, a
    pong, a reply to a request) is handed to every listener, once each and in
    the order they were added, and leaves the log alone, both the lines and
    the updates queued for them; a log record
    (id 0, not the provider's own identifier) is handed to no listener. *)
Theorem identified_messages_reach_listeners data msg p :
  JSON_parse data = Some msg ->
  Websocket.nullish msg = false ->
  strict_eq (Websocket.field msg "id") JUndefined = false ->
  (forall l, In l p.(listeners) -> listener_returns l msg = true) ->
  (strict_eq (Websocket.field msg "id") WS_ID_LOG = false ->
   notifications (trace (receive data p)) = map (fun l => (l, msg)) p.(listeners) /\
   (final (receive data p)).(messages) = p.(messages) /\
   (final (receive data p)).(queued) = p.(queued) /\
   result (receive data p) = Return tt) /\
  (strict_eq (Websocket.field msg "id") WS_ID_LOG = true ->
   strict_eq (Websocket.field msg "id") p.(uniqueId) = false ->
   notifications (trace (receive data p)) = []).
Proof.
  intros Hparse Hmsg Hid Hret.
  assert (Hget : forall k, get_prop msg k = Some (Websocket.field msg k)).
  { intros k. unfold Websocket.field.
    destruct msg; try discriminate Hmsg; reflexivity. }
  split.
  - intros Hlog. unfold onmessage. cm_unfold. simpl.
    rewrite Hparse; simpl. rewrite !Hget; simpl. rewrite Hid, Hlog. simpl.
    destruct (truthy (Websocket.field msg "error")); simpl;
      Lifecycle.split_match; simpl;
      try match goal with
        | H : notify _ _ ?q = _ |- _ =>
            rewrite tell_everyone in H by (simpl; exact Hret);
            first [discriminate H | injection H as <- <- <-]
        end; simpl; rewrite ?app_nil_r;
      repeat split; try discriminate;
      unfold notifications; simpl; apply notifications_map.
  - intros Hlog Hown.
    assert (H1 : strict_eq (Websocket.field msg "id") WS_ID_REFRESH_NEEDED = false).
    { destruct (Websocket.field msg "id"); simpl in *; try discriminate; try reflexivity.
      apply Z.eqb_eq in Hlog. subst. reflexivity. }
    assert (H2 : strict_eq (Websocket.field msg "id") WS_ID_RESTART_NEEDED = false).
    { destruct (Websocket.field msg "id"); simpl in *; try discriminate; try reflexivity.
      apply Z.eqb_eq in Hlog. subst. reflexivity. }
    unfold onmessage. cm_unfold. simpl.
    rewrite Hparse; simpl. rewrite !Hget; simpl.
    destruct (truthy (Websocket.field msg "error")); simpl;
      change (uniqueId (with_online true p)) with (uniqueId p);
      rewrite Hid, H1, H2, Hown, Hlog; simpl;
      Lifecycle.split_match; reflexivity.
Qed.

(** What a message from the host leaves as it was: the listeners, the
    socket, the retry counter, the identifier, the ping timer and the
    filters. *)
Definition same_connection (p q : Provider) : Prop :=
  q.(listeners) = p.(listeners) /\
  q.(socketOpen) = p.(socketOpen) /\
  q.(retryCount) = p.(retryCount) /\
  q.(uniqueId) = p.(uniqueId) /\
  q.(pingInterval) = p.(pingInterval) /\
  q.(logFilterLevel) = p.(logFilterLevel) /\
  q.(logFilterSearch) = p.(logFilterSearch).

Ltac told :=
  repeat match goal with
    | H : notify _ ?msg ?q = (_, ?s, _) |- _ =>
        let K := fresh "K" in
        pose proof (tell_keeps_state msg q) as K;
        unfold final in K; rewrite H in K; simpl in K; subst s; clear H
    end.

(** X24. Whatever arrives (text that does not parse, [null], a record
    with fields of the wrong type, a message whose listener throws), the
    message handler returns: no exception escapes it. It marks the host as
    online, leaves the listeners, the socket, the retry counter, the filters
    and the lines alone, and hands [setMessages] at most one update: that of
    the log record it parsed, whose [id] is 0 and whose [level], [time],
    [name] and [message] are truthy. *)
Theorem onmessage_contained data p :
  result (receive data p) = Return tt /\
  (final (receive data p)).(online) = true /\
  same_connection p (final (receive data p)) /\
  (final (receive data p)).(messages) = p.(messages) /\
  ((final (receive data p)).(queued) = p.(queued) \/
   exists msg,
     JSON_parse data = Some msg /\
     Websocket.field msg "id" = WS_ID_LOG /\
     truthy (Websocket.field msg "level") = true /\
     truthy (Websocket.field msg "time") = true /\
     truthy (Websocket.field msg "name") = true /\
     truthy (Websocket.field msg "message") = true /\
     (final (receive data p)).(queued) = p.(queued) ++ [AppendRecord msg]).
Proof.
  unfold onmessage, same_connection. cm_unfold. simpl.
  destruct (JSON_parse data) as [msg|]; simpl.
  2:{ repeat split; left; reflexivity. }
  destruct (get_prop msg "error") as [error|] eqn:Herror; simpl.
  2:{ repeat split; left; reflexivity. }
  assert (Hfield : forall k, get_prop msg k = Some (Websocket.field msg k)).
  { intros k. unfold Websocket.field.
    destruct msg; try discriminate Herror; reflexivity. }
  rewrite (Hfield "id"). simpl.
  assert (Hlog : forall v, negb (strict_eq v WS_ID_LOG) = false -> v = WS_ID_LOG).
  { intros v Hv. apply negb_false_iff in Hv.
    destruct v; simpl in Hv; try discriminate Hv.
    apply Z.eqb_eq in Hv. subst. reflexivity. }
  destruct (truthy error); simpl;
    Lifecycle.split_match; told; simpl;
    repeat split;
    try match goal with a : unit |- _ => destruct a; reflexivity end;
    try (left; reflexivity);
    right; exists msg;
    repeat match goal with
      | H : _ || _ = false |- _ => apply orb_false_iff in H; destruct H
      | H : negb (truthy _) = false |- _ => apply negb_false_iff in H
      end;
    repeat split; auto.
Qed.

(** *** Reconnecting *)

(** [n] closes in a row: every attempt to reconnect fails before the
    socket opens. *)
Fixpoint closes (n : nat) : CM unit :=
  match n with
  | 0 => ret tt
  | S k => onclose wssHost badge_line reconnecting ;; closes k
  end.

Lemma onclose_run p :
  exists q t,
    onclose wssHost badge_line reconnecting p = (Return tt, q, t) /\
    q.(retryCount) = p.(retryCount) + 1 /\
    q.(socketOpen) = false /\ q.(online) = false /\
    q.(pingInterval) = false /\ q.(offlineTimeout) = false /\
    reconnects t =
      if (p.(retryCount) <? maxRetries)%nat then [1000 * p.(retryCount)] else [].
Proof.
  unfold onclose. cm_unfold. simpl.
  destruct (retryCount p <? maxRetries)%nat; simpl;
    do 2 eexists; repeat split; reflexivity.
Qed.

Lemma closes_run n : forall p,
  result (closes n p) = Return tt /\
  (final (closes n p)).(retryCount) = p.(retryCount) + n /\
  reconnects (trace (closes n p))
    = map (fun attempt => 1000 * attempt)
        (seq p.(retryCount) (Nat.min n (maxRetries - p.(retryCount)))) /\
  (0 < n ->
   (final (closes n p)).(socketOpen) = false /\
   (final (closes n p)).(online) = false /\
   (final (closes n p)).(pingInterval) = false /\
   (final (closes n p)).(offlineTimeout) = false).
Proof.
  induction n as [|n IH]; intros p.
  - unfold closes, result, final, trace, ret. cbn [fst snd Nat.min seq map reconnects flat_map].
    rewrite Nat.add_0_r. repeat split; lia.
  - destruct (onclose_run p) as (q & t & Hrun & Hretry & Hs & Ho & Hp & Hf & Ht).
    destruct (IH q) as (Hr & Hc & Hd & Hflags).
    change (closes (S n)) with (onclose wssHost badge_line reconnecting ;; closes n)%eff.
    unfold bind. rewrite Hrun.
    unfold result, final, trace in *.
    destruct (closes n q) as [[o q'] t'] eqn:Hrest. cbn [fst snd] in *.
    split; [exact Hr|]. split; [lia|]. split.
    + rewrite reconnects_app, Ht, Hd, Hretry.
      destruct (retryCount p <? maxRetries)%nat eqn:Hlt.
      * apply Nat.ltb_lt in Hlt.
        replace (Nat.min (S n) (maxRetries - retryCount p))
          with (S (Nat.min n (maxRetries - (retryCount p + 1)))) by lia.
        cbn [seq map app]. rewrite Nat.add_1_r. reflexivity.
      * apply Nat.ltb_ge in Hlt.
        replace (Nat.min (S n) (maxRetries - retryCount p)) with 0 by lia.
        replace (Nat.min n (maxRetries - (retryCount p + 1))) with 0 by lia.
        reflexivity.
    + intros _. destruct n as [|n].
      * unfold closes, ret in Hrest. injection Hrest as <- <- <-. auto.
      * apply Hflags. lia.
Qed.

(** X25. When the socket closes [n] times in a row, the provider
    schedules the reconnect attempts with a delay that grows by one second
    each time, starting from its retry counter in seconds, and stops
    scheduling once the counter has reached [maxRetries]; the counter grows
    by one at every close, scheduled or not. Every close leaves the socket
    closed, the host offline and both timers cleared. An open socket sets
    the counter back to 1, so that the delays start from one second again. *)
Theorem reconnect_back_off n p :
  (result (closes n p) = Return tt /\
   (final (closes n p)).(retryCount) = p.(retryCount) + n /\
   reconnects (trace (closes n p))
     = map (fun attempt => 1000 * attempt)
         (seq p.(retryCount) (Nat.min n (maxRetries - p.(retryCount)))) /\
   (0 < n ->
    (final (closes n p)).(socketOpen) = false /\
    (final (closes n p)).(online) = false /\
    (final (closes n p)).(pingInterval) = false /\
    (final (closes n p)).(offlineTimeout) = false)) /\
  (final (onopen wssHost badge_line p)).(retryCount) = 1 /\
  reconnects (trace (closes n (final (onopen wssHost badge_line p))))
    = map (fun attempt => 1000 * attempt) (seq 1 (Nat.min n (maxRetries - 1))).
Proof.
  split; [apply closes_run|].
  assert (Hopen : (final (onopen wssHost badge_line p)).(retryCount) = 1).
  { unfold onopen. cm_unfold. reflexivity. }
  split; [exact Hopen|].
  destruct (closes_run n (final (onopen wssHost badge_line p))) as (_ & _ & Hd & _).
  rewrite Hd, Hopen. reflexivity.
Qed.

(** *** Listeners *)

(** X26. [removeListener] removes every registration of the listener,
    so a listener added twice is gone after one removal, and the other
    listeners keep their places: every selection of listeners that leaves the
    removed one out reads the same, in the same order, before and after, and
    what is left is the old list with the removed listener struck out.
    Removing a listener right after adding it gives back the listeners there
    were, when it was not among them. *)
Theorem removeListener_unregisters listener p :
  ~ In listener (final (removeListener listener p)).(listeners) /\
  (forall selected : nat -> bool,
     selected listener = false ->
     filter selected (final (removeListener listener p)).(listeners)
       = filter selected p.(listeners)) /\
  (forall before after,
     p.(listeners) = before ++ after ->
     (final (removeListener listener p)).(listeners)
       = remove Nat.eq_dec listener before ++ remove Nat.eq_dec listener after) /\
  (~ In listener p.(listeners) ->
   (final (removeListener listener (final (addListener listener p)))).(listeners)
     = p.(listeners)).
Proof.
  unfold removeListener, addListener. cm_unfold. simpl.
  assert (Hremove : forall ls,
            filter (fun l => negb (l =? listener)%nat) ls
            = remove Nat.eq_dec listener ls).
  { induction ls as [|l ls IH]; simpl; [reflexivity|].
    destruct (Nat.eq_dec listener l) as [<- | Hne].
    - rewrite Nat.eqb_refl. simpl. exact IH.
    - destruct (l =? listener)%nat eqn:El.
      + apply Nat.eqb_eq in El. subst l. contradiction.
      + simpl. rewrite IH. reflexivity. }
  split; [|split; [|split]].
  - intros Hin. apply filter_In in Hin. destruct Hin as [_ Hne].
    rewrite Nat.eqb_refl in Hne. discriminate.
  - intros selected Hs. induction p.(listeners) as [|l ls IH]; simpl; [reflexivity|].
    destruct (l =? listener)%nat eqn:El; simpl.
    + apply Nat.eqb_eq in El. subst l. rewrite Hs. exact IH.
    + rewrite IH. reflexivity.
  - intros before after ->. rewrite filter_app, !Hremove. reflexivity.
  - intros Hnot. rewrite filter_app. simpl. rewrite Nat.eqb_refl. simpl.
    rewrite app_nil_r.
    induction p.(listeners) as [|l ls IH]; simpl; [reflexivity|].
    destruct (l =? listener)%nat eqn:El; simpl.
    + apply Nat.eqb_eq in El. subst l. exfalso. apply Hnot. left. reflexivity.
    + rewrite IH; [reflexivity|]. intros Hin. apply Hnot. right. exact Hin.
Qed.

(** *** The update of a log record *)

Section Updater.
Variable to_text : JSValue -> string.

Abbreviation updated := (apply_update lower to_text).


End Updater.

End Provider.

(** The pong of [wsMessageHandler] (line 78 of the handler) for a ping
    from the console with that identifier. *)
Definition pong_message (id : JSValue) : list (string * JSValue) :=
  Websocket.envelope id (JString "ping") (JString "Frontend") []
    ("response", JString "pong").

(** *** The console and the host together *)

Section RoundTrip.
Variable isValidNumber : JSValue -> option Z -> bool.
Variable isValidString : JSValue -> option nat -> bool.
Variable isValidObject : JSValue -> bool.
Variable host_parse : string -> option JSValue.
Variable lower : string -> string.
Variable includes : string -> string -> bool.
Variable client_parse : string -> option JSValue.
Variable listener_returns : nat -> JSValue -> bool.

Abbreviation host_handler :=
  (Websocket.wsMessageHandler isValidNumber isValidString isValidObject host_parse).
Abbreviation client_handler :=
  (onmessage lower includes client_parse listener_returns).

(** X27. A ping tick of a console with an open socket and an identifier
    of at least 3 (the least that line 29 draws) arms the offline timer and
    sends one ping; the host, whose validators accept the ping's fields,
    answers that ping with exactly one message; and when that answer comes
    back, the console clears the offline timer, so that it does not declare
    the host offline, and hands the answer to its listeners. The wire is
    any pair of texts that the host parses to what the console sent and the
    console parses to what the host sent. *)
Theorem ping_pong_round_trip p n host info ping pong :
  p.(socketOpen) = true ->
  p.(uniqueId) = JNumber n ->
  (3 <= n)%Z ->
  isValidNumber (JNumber n) None = true ->
  isValidString (JString "Matterbridge") None = true ->
  isValidString (JString "Frontend") None = true ->
  isValidString (JString "ping") None = true ->
  isValidObject (JObject []) = true ->
  (forall message,
     In (SocketSend message) (trace (pingTick p)) ->
     host_parse ping = Some (JObject message)) ->
  (forall reply,
     In reply (Websocket.sent (trace (host_handler host ping info))) ->
     client_parse pong = Some (JObject reply)) ->
  trace (pingTick p)
    = [SocketSend (ping_message (JNumber n)); ClearTimeout OfflineExpired;
       SetTimeout OfflineExpired (1000 * offlineTimeoutSeconds)] /\
  (final (pingTick p)).(offlineTimeout) = true /\
  List.length (Websocket.sent (trace (host_handler host ping info))) = 1 /\
  In (ClearTimeout OfflineExpired) (trace (client_handler pong (final (pingTick p)))) /\
  (final (client_handler pong (final (pingTick p)))).(offlineTimeout) = false /\
  (final (client_handler pong (final (pingTick p)))).(online) = true /\
  ((forall l, In l p.(listeners) -> listener_returns l (JObject (pong_message (JNumber n))) = true) ->
   notifications (trace (client_handler pong (final (pingTick p))))
     = map (fun l => (l, JObject (pong_message (JNumber n)))) p.(listeners)).
Proof.
  intros Hopen Hid Hn Hvn Hvd Hvs Hvm Hvo Hup Hdown.
  assert (Htick : pingTick p
                  = (Return tt, with_offlineTimeout true p,
                     [SocketSend (ping_message (JNumber n));
                      ClearTimeout OfflineExpired;
                      SetTimeout OfflineExpired (1000 * offlineTimeoutSeconds)])).
  { unfold pingTick, sendMessage. cm_unfold. rewrite Hopen, Hid. reflexivity. }
  assert (Hw : final (pingTick p) = with_offlineTimeout true p)
    by (rewrite Htick; reflexivity).
  rewrite Hw.
  assert (Hping : host_parse ping = Some (JObject (ping_message (JNumber n)))).
  { apply Hup. rewrite Htick. left. reflexivity. }
  assert (Hhost : Websocket.sent (trace (host_handler host ping info))
                  = [pong_message (JNumber n)]).
  { unfold Websocket.wsMessageHandler, Websocket.dispatch,
      Websocket.invalid_message, Websocket.is_method.
    Protocol.ws_unfold. rewrite Hping. simpl.
    rewrite Hvn, Hvd, Hvs, Hvm, Hvo. reflexivity. }
  rewrite Hhost in *.
  assert (Hpong : client_parse pong = Some (JObject (pong_message (JNumber n)))).
  { apply Hdown. left. reflexivity. }
  assert (H1 : (n =? 1)%Z = false) by (apply Z.eqb_neq; lia).
  assert (H2 : (n =? 2)%Z = false) by (apply Z.eqb_neq; lia).
  assert (Hback : exists o t,
            client_handler pong (with_offlineTimeout true p)
            = (o, with_offlineTimeout false (with_online true (with_offlineTimeout true p)),
               ClearTimeout OfflineExpired :: t) /\
            ((forall l, In l p.(listeners) ->
                        listener_returns l (JObject (pong_message (JNumber n))) = true) ->
             t = map (fun l => Notify l (JObject (pong_message (JNumber n))))
                   p.(listeners))).
  { unfold onmessage. cm_unfold. rewrite Hpong. simpl.
    rewrite Hid, H1, H2, Z.eqb_refl. simpl.
    match goal with
    | |- context [notify ?lr ?msg ?q] =>
        pose proof (tell_keeps_state lr msg q) as K;
        pose proof (tell_everyone lr msg q) as E;
        unfold final in K;
        destruct (notify lr msg q) as [[o q'] t] eqn:Hrun
    end.
    cbn [fst snd] in K. subst q'.
    destruct o as [[]|]; simpl; do 2 eexists; (split; [reflexivity|]);
      intros Hret; specialize (E Hret); rewrite ?Hrun in E;
      first [discriminate E | injection E as <-; reflexivity]. }
  destruct Hback as (o & t & Hrun & Hall).
  rewrite Hrun, Htick. unfold final, trace. cbn [fst snd].
  repeat split.
  - left. reflexivity.
  - intros Hret. rewrite (Hall Hret). apply notifications_map.
Qed.

End RoundTrip.

(** *** Sample data *)

(** A console with an open socket and two listeners. *)
Definition sample_console : Provider :=
  with_socketOpen true (with_listeners [4; 9] (initial "info" "*" 314)).

Definition refresh_notice : JSValue :=
  JObject [("id", WS_ID_REFRESH_NEEDED); ("src", JString "Matterbridge");
           ("dst", JString "Frontend"); ("method", JString "refresh_required")].

(** A log record whose level is a number. *)
Definition wrong_level_record : JSValue :=
  JObject [("id", WS_ID_LOG); ("level", JNumber 5); ("time", JString "12:00:00");
           ("name", JString "Matterbridge"); ("message", JString "started")].

(** A wire that carries four messages. *)
Definition wire_parse (text : string) : option JSValue :=
  if text =? "ping" then Some (JObject (ping_message (JNumber 314)))
  else if text =? "pong" then Some (JObject (pong_message (JNumber 314)))
  else if text =? "refresh" then Some refresh_notice
  else if text =? "record" then Some wrong_level_record
  else None.

Abbreviation sample_onmessage :=
  (onmessage (fun text => text) (fun _ _ => true) wire_parse (fun _ _ => true)).

Lemma identified_messages_reach_listeners_witness :
  notifications (trace (sample_onmessage "refresh" sample_console))
    = [(4, refresh_notice); (9, refresh_notice)].
Proof.
  refine (proj1 (proj1 (identified_messages_reach_listeners
                          (fun text => text) (fun _ _ => true)
                          wire_parse (fun _ _ => true) "refresh" refresh_notice
                          sample_console eq_refl eq_refl eq_refl _) eq_refl)).
  intros; reflexivity.
Defined.


Lemma ping_pong_round_trip_witness :
  (final (sample_onmessage "pong" (final (pingTick sample_console)))).(offlineTimeout)
    = false.
Proof.
  refine (proj1 (proj2 (proj2 (proj2 (proj2
            (ping_pong_round_trip
               Websocket.spec_isValidNumber Websocket.spec_isValidString
               Websocket.spec_isValidObject wire_parse
               (fun text => text) (fun _ _ => true) wire_parse
               (fun _ _ => true) sample_console 314
               (Websocket.sample_host (JString "")) [] "ping" "pong"
               eq_refl eq_refl _ eq_refl eq_refl eq_refl eq_refl eq_refl _ _)))))).
  - lia.
  - intros message H. vm_compute in H.
    destruct H as [E|[E|[E|[]]]]; try discriminate E.
    injection E as <-. reflexivity.
  - intros reply H. vm_compute in H. destruct H as [<-|[]]. reflexivity.
Defined.

End FrontendFacts.
